(** * Sentry Jamii wildlife reports: a shallow embedding of the client logic

    The development follows the TypeScript sources:

    - [utils/aiAnalysis.ts] and the second classifier that sits at the end of
      [pages/UserTypeSelection.tsx] (module [AiAnalysis]);
    - [utils/offlineStorage.ts] (module [OfflineStorage]);
    - [utils/reportGenerator.ts] (module [ReportGenerator]);
    - [pages/ReportGeneration.tsx] (module [ReportGeneration]), in the version
      whose off-line copy has an [image_url];
    - [pages/RangerDashboard.tsx] (modules [RangerDashboard] and
      [RangerActions]);
    - [App.tsx] (modules [App] and [AppRender]);
    - the effect that opens the report page (module [ReportInit]);
    - the analytics, the first load and the deletions of
      [pages/AdminDashboard.tsx] (module [AdminDashboard]).

    The browser and the hosted backend are state that the functions thread
    explicitly: [localStorage] is a finite map from keys to strings, the
    backend is a table of rows and a bucket of files together with the
    answers it gives, and [Math.random] is a stream of draws.

    Conventions.  A string of the program (a key, a file name, a stored text)
    is a [string] whose characters are code units below 256; a string inside
    a value that [JSON.parse] returns is the list of its code units, which
    may lie above 255.  A JavaScript number is exact: a rational where the
    code computes with it ([AiAnalysis]), a decimal [mant * 10 ^ expo] where
    the code only carries and serialises it (coordinates, stored numbers).
    Such a decimal stands for the double nearest to it: an infinity when it
    lies beyond the doubles, a zero when it is too small, the negative zero
    when it is negative and too small; [NaN] is outside the model.  The
    text that [JSON.stringify] writes is kept up to its spelling: the model
    writes a text that [JSON.parse] reads as the text ECMAScript writes.
    [localStorage] takes a write or refuses it, as the browser's quota
    decides; reading and removing do not fail.  What goes to the console is
    not recorded. *)

From Stdlib Require Import ZArith QArith Qround Lqa String Ascii List Lia.
From Stdlib Require Import DecimalString DecimalN DecimalZ DecimalFacts.
From stdpp Require Import base option strings gmap list pretty.

Local Open Scope Z_scope.

(** ** JavaScript values and the [JSON] object *)

Module Js.

(** Truthiness of a string: only the empty string is falsy. *)
Definition truthy (s : string) : bool :=
  match s with
  | EmptyString => false
  | String _ _ => true
  end.

(** [a || b] on strings. *)
Definition or_else (a b : string) : string := if truthy a then a else b.

(** Truthiness of an optional string ([undefined] is falsy). *)
Definition truthy_opt (o : option string) : bool :=
  match o with
  | Some s => truthy s
  | None => false
  end.

(** A number that is only carried around: [mant * 10 ^ expo]. *)
Record Number : Set := mkNumber { mant : Z; expo : Z }.

Definition Number_zero : Number := mkNumber 0 0.

(** The rational a [Number] stands for. *)
Definition Number_value (n : Number) : Q := inject_Z (mant n) * (10 ^ expo n)%Q.

(** Truthiness of a number: zero is falsy. *)
Definition Number_truthy (n : Number) : bool := negb (mant n =? 0).

(** [n || 0]. *)
Definition Number_or_zero (n : Number) : Number :=
  if Number_truthy n then n else Number_zero.

(** The size from which a number is rounded to an infinity: halfway between
    the largest double, [2 ^ 1024 - 2 ^ 971], and [2 ^ 1024]. *)
Definition double_limit : Z := 2 ^ 1024 - 2 ^ 970.

(** Whether [mant * 10 ^ expo] has that size or more.  Such a number stands
    for [Infinity] or [-Infinity]. *)
Definition Number_overflows (n : Number) : bool :=
  if 0 <=? expo n then double_limit <=? Z.abs (mant n) * 10 ^ expo n
  else double_limit * 10 ^ (- expo n) <=? Z.abs (mant n).

(** Whether [mant * 10 ^ expo] is rounded to a zero: its size is at most
    [2 ^ -1075], half the smallest double above zero. *)
Definition Number_underflows (n : Number) : bool :=
  if 0 <=? expo n then mant n =? 0
  else Z.abs (mant n) * 2 ^ 1075 <=? 10 ^ (- expo n).

(** Whether [JSON.parse] gives the number back from what [JSON.stringify]
    writes for it: an infinity is written [null], and the negative zero,
    which a negative number rounded to a zero stands for, is written [0]. *)
Definition Number_kept (n : Number) : bool :=
  negb (Number_overflows n) && negb ((mant n <? 0) && Number_underflows n).

(** What [JSON.parse] can return.  A string is the list of its code units,
    each below 65536.  The members of an object are in the order in which
    its keys are enumerated: array indices first, from the smallest up, then
    the other keys in the order of their creation.  [JNegZero] is the
    negative zero that [-0] is read as, and [JInfinity] the infinity that a
    number beyond the doubles is read as, [JInfinity true] the negative
    one. *)
#[warnings="-register-all"]
Inductive JSValue : Type :=
| JNull : JSValue
| JBool : bool -> JSValue
| JNum : Number -> JSValue
| JNegZero : JSValue
| JInfinity : bool -> JSValue
| JStr : list N -> JSValue
| JArr : list JSValue -> JSValue
| JObj : list (list N * JSValue) -> JSValue.

(** *** Characters *)

Definition chr (n : N) : ascii := ascii_of_N n.
Definition code (c : ascii) : N := N_of_ascii c.

(** The code units of a string of the program, each below 256. *)
Definition units_of (s : string) : list N := map code (list_ascii_of_string s).

Definition units_eqb (a b : list N) : bool := bool_decide (a = b).

Definition is_ws (c : ascii) : bool :=
  let n := code c in
  ((n =? 32) || (n =? 9) || (n =? 10) || (n =? 13))%N.

Fixpoint skip_ws (s : string) : string :=
  match s with
  | String c r => if is_ws c then skip_ws r else s
  | EmptyString => EmptyString
  end.

Definition digit_of (c : ascii) : option (Decimal.uint -> Decimal.uint) :=
  match code c with
  | 48%N => Some Decimal.D0
  | 49%N => Some Decimal.D1
  | 50%N => Some Decimal.D2
  | 51%N => Some Decimal.D3
  | 52%N => Some Decimal.D4
  | 53%N => Some Decimal.D5
  | 54%N => Some Decimal.D6
  | 55%N => Some Decimal.D7
  | 56%N => Some Decimal.D8
  | 57%N => Some Decimal.D9
  | _ => None
  end.

Definition is_digit (c : ascii) : bool :=
  match digit_of c with
  | Some _ => true
  | None => false
  end.

(** The longest run of decimal digits at the head of [s]. *)
Fixpoint read_digits (s : string) : Decimal.uint * string :=
  match s with
  | String c r =>
      match digit_of c with
      | Some d => let (ds, r') := read_digits r in (d ds, r')
      | None => (Decimal.Nil, s)
      end
  | EmptyString => (Decimal.Nil, EmptyString)
  end.

Fixpoint write_digits (d : Decimal.uint) (k : string) : string :=
  match d with
  | Decimal.Nil => k
  | Decimal.D0 d => String "0" (write_digits d k)
  | Decimal.D1 d => String "1" (write_digits d k)
  | Decimal.D2 d => String "2" (write_digits d k)
  | Decimal.D3 d => String "3" (write_digits d k)
  | Decimal.D4 d => String "4" (write_digits d k)
  | Decimal.D5 d => String "5" (write_digits d k)
  | Decimal.D6 d => String "6" (write_digits d k)
  | Decimal.D7 d => String "7" (write_digits d k)
  | Decimal.D8 d => String "8" (write_digits d k)
  | Decimal.D9 d => String "9" (write_digits d k)
  end.

Definition uint_eqb (a b : Decimal.uint) : bool :=
  if Decimal.uint_eq_dec a b then true else false.

(** *** Numbers: [-? int frac? exp?] *)

Definition write_int (z : Z) (k : string) : string :=
  match z with
  | Zneg p => String "-" (write_digits (Pos.to_uint p) k)
  | _ => write_digits (N.to_uint (Z.to_N z)) k
  end.

(** An infinity is written [null], and the negative zero [0]. *)
Definition write_number (n : Number) (k : string) : string :=
  if Number_overflows n then "null" +:+ k
  else if (mant n <? 0) && Number_underflows n then String "0" k
  else write_int (mant n) (if expo n =? 0 then k else String "e" (write_int (expo n) k)).

(** An optional minus sign. *)
Definition read_sign (s : string) : bool * string :=
  match s with
  | String "-" r => (true, r)
  | _ => (false, s)
  end.

Definition apply_sign (neg : bool) (n : N) : Z :=
  if neg then - Z.of_N n else Z.of_N n.

(** The fraction: a dot and at least one digit, or nothing. *)
Definition read_frac (s : string) : option (Decimal.uint * string) :=
  match s with
  | String "." r =>
      match read_digits r with
      | (Decimal.Nil, _) => None
      | (f, r') => Some (f, r')
      end
  | _ => Some (Decimal.Nil, s)
  end.

(** The exponent: [e] or [E], an optional sign, at least one digit. *)
Definition read_exp (s : string) : option (Z * string) :=
  let body (r : string) :=
    let '(neg, r1) :=
      match r with
      | String "+" r1 => (false, r1)
      | _ => read_sign r
      end in
    match read_digits r1 with
    | (Decimal.Nil, _) => None
    | (x, r2) => Some (apply_sign neg (N.of_uint x), r2)
    end in
  match s with
  | String "e" r => body r
  | String "E" r => body r
  | _ => Some (0, s)
  end.

Definition read_number (s : string) : option (Number * string) :=
  let '(neg, r0) := read_sign s in
  match read_digits r0 with
  | (Decimal.Nil, _) => None
  | (i, r1) =>
      if uint_eqb (Decimal.unorm i) i then
        match read_frac r1 with
        | Some (f, r2) =>
            match read_exp r2 with
            | Some (x, r3) =>
                Some (mkNumber (apply_sign neg (N.of_uint (Decimal.app i f)))
                               (x - Z.of_nat (Decimal.nb_digits f)), r3)
            | None => None
            end
        | None => None
        end
      else None
  end.

(** *** Strings: quoted, with the escapes of [QuoteJSONString] *)

Definition hex_char (n : N) : ascii :=
  if (n <? 10)%N then chr (48 + n) else chr (87 + n).

Definition hex_val (c : ascii) : option N :=
  let n := code c in
  if ((48 <=? n) && (n <=? 57))%N then Some (n - 48)%N
  else if ((97 <=? n) && (n <=? 102))%N then Some (n - 87)%N
  else if ((65 <=? n) && (n <=? 70))%N then Some (n - 55)%N
  else None.

(** The character after a backslash in the two-character escape of a
    code unit. *)
Definition short_escape (n : N) : option ascii :=
  match n with
  | 8%N => Some "b"%char
  | 9%N => Some "t"%char
  | 10%N => Some "n"%char
  | 12%N => Some "f"%char
  | 13%N => Some "r"%char
  | 34%N => Some (chr 34)
  | 92%N => Some "\"%char
  | _ => None
  end.

(** The code unit a two-character escape stands for. *)
Definition short_unescape (c : ascii) : option N :=
  match code c with
  | 98%N => Some 8%N
  | 116%N => Some 9%N
  | 110%N => Some 10%N
  | 102%N => Some 12%N
  | 114%N => Some 13%N
  | 34%N => Some 34%N
  | 92%N => Some 92%N
  | 47%N => Some 47%N
  | _ => None
  end.

(** The four hexadecimal digits of a code unit. *)
Definition write_hex4 (n : N) (k : string) : string :=
  String (hex_char (n / 16 / 16 / 16))
    (String (hex_char (n / 16 / 16 mod 16))
       (String (hex_char (n / 16 mod 16))
          (String (hex_char (n mod 16)) k))).

(** A code unit inside a quoted string.  One above 255 is written as its
    [\uXXXX] escape, which stands for the same code unit; ECMAScript writes
    it as it is, a lone surrogate excepted. *)
Definition write_unit (n : N) (k : string) : string :=
  match short_escape n with
  | Some e => String "\" (String e k)
  | None =>
      if ((n <? 32) || (255 <? n))%N then String "\" (String "u" (write_hex4 n k))
      else String (chr n) k
  end.

Fixpoint write_units (s : list N) (k : string) : string :=
  match s with
  | [] => k
  | n :: r => write_unit n (write_units r k)
  end.

Definition write_string (s : list N) (k : string) : string :=
  String (chr 34) (write_units s (String (chr 34) k)).

(** The code unit of [\uXXXX]. *)
Definition unicode_escape (h1 h2 h3 h4 : ascii) : option N :=
  a ← hex_val h1; b ← hex_val h2; c ← hex_val h3; d ← hex_val h4;
  Some (((a * 16 + b) * 16 + c) * 16 + d)%N.

(** The code units of a string up to its closing quote. *)
Fixpoint read_units (s : string) : option (list N * string) :=
  match s with
  | EmptyString => None
  | String c r =>
      if (code c =? 34)%N then Some ([], r)
      else if (code c =? 92)%N then
        match r with
        | String e r1 =>
            match short_unescape e with
            | Some n =>
                match read_units r1 with
                | Some (t, r2) => Some (n :: t, r2)
                | None => None
                end
            | None =>
                if (code e =? 117)%N then
                  match r1 with
                  | String h1 (String h2 (String h3 (String h4 r2))) =>
                      match unicode_escape h1 h2 h3 h4 with
                      | Some n =>
                          match read_units r2 with
                          | Some (t, r3) => Some (n :: t, r3)
                          | None => None
                          end
                      | None => None
                      end
                  | _ => None
                  end
                else None
            end
        | EmptyString => None
        end
      else if (code c <? 32)%N then None
      else
        match read_units r with
        | Some (t, r1) => Some (code c :: t, r1)
        | None => None
        end
  end.

(** A quoted string. *)
Definition read_string (s : string) : option (list N * string) :=
  match s with
  | String c r => if (code c =? 34)%N then read_units r else None
  | EmptyString => None
  end.

(** *** Values *)

Fixpoint write_value (v : JSValue) (k : string) : string :=
  match v with
  | JNull => "null" +:+ k
  | JBool true => "true" +:+ k
  | JBool false => "false" +:+ k
  | JNum n => write_number n k
  | JNegZero => String "0" k
  | JInfinity _ => "null" +:+ k
  | JStr s => write_string s k
  | JArr l =>
      String "["
        ((fix elements (l : list JSValue) : string :=
            match l with
            | [] => String "]" k
            | v :: l' =>
                write_value v
                  match l' with
                  | [] => elements l'
                  | _ :: _ => String "," (elements l')
                  end
            end) l)
  | JObj m =>
      String "{"
        ((fix members (m : list (list N * JSValue)) : string :=
            match m with
            | [] => String "}" k
            | (key, v) :: m' =>
                write_string key
                  (String ":"
                     (write_value v
                        match m' with
                        | [] => members m'
                        | _ :: _ => String "," (members m')
                        end))
            end) m)
  end.

(** [JSON.stringify] of a value that holds no [undefined].  The text is one
    that [JSON.parse] reads as the text ECMAScript writes: a number is
    written as its mantissa, followed by [e] and its exponent when that is
    not zero, where ECMAScript picks another spelling of the same number,
    and a code unit above 255 is written as its escape. *)
Definition JSON_stringify (v : JSValue) : string := write_value v EmptyString.

(** Defining a property: an existing key keeps its place and takes the new
    value, a new key goes last. *)
Fixpoint obj_set (key : list N) (v : JSValue) (m : list (list N * JSValue))
  : list (list N * JSValue) :=
  match m with
  | [] => [(key, v)]
  | (key', v') :: m' =>
      if units_eqb key' key then (key', v) :: m'
      else (key', v') :: obj_set key v m'
  end.

Definition obj_of_members (raw : list (list N * JSValue)) : list (list N * JSValue) :=
  fold_left (fun acc kv => obj_set (fst kv) (snd kv) acc) raw [].

(** [Array.prototype.sort]: the sort is stable, so with a consistent
    [compareFn] the result is the one an insertion from the right gives. *)
Fixpoint sort_insert {A} (compareFn : A -> A -> Z) (x : A) (l : list A) : list A :=
  match l with
  | [] => [x]
  | y :: rest =>
      if 0 <? compareFn x y then y :: sort_insert compareFn x rest else x :: l
  end.

Definition Array_sort {A} (compareFn : A -> A -> Z) (l : list A) : list A :=
  fold_right (sort_insert compareFn) [] l.

Definition is_digit_unit (u : N) : bool := ((48 <=? u) && (u <=? 57))%N.

Fixpoint digits_value (us : list N) (acc : N) : option N :=
  match us with
  | [] => Some acc
  | u :: r => if is_digit_unit u then digits_value r (acc * 10 + (u - 48))%N else None
  end.

(** The number a key stands for when it is an array index: a decimal
    numeral in its shortest form, below 2^32 - 1. *)
Definition index_key (key : list N) : option N :=
  match key with
  | [] => None
  | [u] => if is_digit_unit u then Some (u - 48)%N else None
  | u :: _ =>
      if (u =? 48)%N then None
      else
        match digits_value key 0 with
        | Some n => if (n <? 4294967295)%N then Some n else None
        | None => None
        end
  end.

Definition is_index_key (key : list N) : bool :=
  match index_key key with
  | Some _ => true
  | None => false
  end.

Definition by_index {A} (a b : list N * A) : Z :=
  Z.of_N (default 0%N (index_key (fst a))) - Z.of_N (default 0%N (index_key (fst b))).

(** The order in which the keys of an object are enumerated. *)
Definition key_order {A} (m : list (list N * A)) : list (list N * A) :=
  Array_sort by_index (List.filter (fun kv => is_index_key (fst kv)) m)
  ++ List.filter (fun kv => negb (is_index_key (fst kv))) m.

(** The value that a number is read as, [minus] telling whether its text
    starts with a minus sign: an infinity beyond the doubles, the negative
    zero when it is rounded to a zero below zero. *)
Definition Number_read (minus : bool) (n : Number) : JSValue :=
  if Number_overflows n then JInfinity (mant n <? 0)
  else if minus && Number_underflows n then JNegZero
  else JNum n.

(** After a literal's first letter, the rest of it. *)
Fixpoint read_keyword (word s : string) : option string :=
  match word, s with
  | EmptyString, _ => Some s
  | String a w, String b r => if Ascii.eqb a b then read_keyword w r else None
  | String _ _, EmptyString => None
  end.

Definition starts_number (c : ascii) : bool := (code c =? 45)%N || is_digit c.

Fixpoint parse_value (fuel : nat) (s : string) : option (JSValue * string) :=
  match fuel with
  | O => None
  | S fuel' =>
      match skip_ws s with
      | EmptyString => None
      | String c r =>
          if (code c =? 110)%N then r' ← read_keyword "ull" r; Some (JNull, r')
          else if (code c =? 116)%N then r' ← read_keyword "rue" r; Some (JBool true, r')
          else if (code c =? 102)%N then r' ← read_keyword "alse" r; Some (JBool false, r')
          else if (code c =? 34)%N then
            '(t, r') ← read_units r; Some (JStr t, r')
          else if (code c =? 91)%N then
            match skip_ws r with
            | String "]" r' => Some (JArr [], r')
            | _ => '(l, r') ← parse_elements fuel' r; Some (JArr l, r')
            end
          else if (code c =? 123)%N then
            match skip_ws r with
            | String "}" r' => Some (JObj [], r')
            | _ =>
                '(m, r') ← parse_members fuel' r;
                Some (JObj (key_order (obj_of_members m)), r')
            end
          else if starts_number c then
            '(n, r') ← read_number (String c r);
            Some (Number_read (code c =? 45)%N n, r')
          else None
      end
  end
with parse_elements (fuel : nat) (s : string) : option (list JSValue * string) :=
  match fuel with
  | O => None
  | S fuel' =>
      '(v, r) ← parse_value fuel' s;
      match skip_ws r with
      | String "," r' => '(l, r'') ← parse_elements fuel' r'; Some (v :: l, r'')
      | String "]" r' => Some ([v], r')
      | _ => None
      end
  end
with parse_members (fuel : nat) (s : string) : option (list (list N * JSValue) * string) :=
  match fuel with
  | O => None
  | S fuel' =>
      '(key, r) ← read_string (skip_ws s);
      match skip_ws r with
      | String ":" r0 =>
          '(v, r1) ← parse_value fuel' r0;
          match skip_ws r1 with
          | String "," r' => '(m, r'') ← parse_members fuel' r'; Some ((key, v) :: m, r'')
          | String "}" r' => Some ([(key, v)], r')
          | _ => None
          end
      | _ => None
      end
  end.

(** [JSON.parse]: [None] stands for the [SyntaxError] it throws.  The whole
    text must be one value between optional white space.  A number beyond
    the doubles is read as an infinity, and a number with a minus sign that
    is rounded to a zero as the negative zero; any other number keeps the
    decimal that was written, which stands for the double nearest to it. *)
Definition JSON_parse (s : string) : option JSValue :=
  match parse_value (String.length s) s with
  | Some (v, r) => match skip_ws r with EmptyString => Some v | _ => None end
  | None => None
  end.

(** *** What the round trip through text needs *)

(** A property that holds at every node of a value. *)
Fixpoint deep (P : JSValue -> Prop) (v : JSValue) : Prop :=
  P v
  /\ match v with
     | JArr l =>
         (fix all (l : list JSValue) : Prop :=
            match l with
            | [] => True
            | v :: l' => deep P v /\ all l'
            end) l
     | JObj m =>
         (fix all (m : list (list N * JSValue)) : Prop :=
            match m with
            | [] => True
            | kv :: m' => deep P (snd kv) /\ all m'
            end) m
     | _ => True
     end.

Definition code_units (s : list N) : Prop := Forall (fun u => (u < 65536)%N) s.

(** A node as [JSON.parse] builds it: strings and keys are made of code
    units, and an object has no key twice and its keys in their order. *)
Definition node_canonical (v : JSValue) : Prop :=
  match v with
  | JStr s => code_units s
  | JObj m =>
      Forall (fun kv => code_units (fst kv)) m /\ NoDup (map fst m) /\ key_order m = m
  | _ => True
  end.

Definition canonical : JSValue -> Prop := deep node_canonical.

(** A list in which [g] never goes down. *)
Fixpoint ascending {A} (g : A -> Z) (l : list A) : Prop :=
  match l with
  | [] => True
  | x :: r => Forall (fun y => g x <= g y) r /\ ascending g r
  end.

(** A number that [JSON.stringify] and [JSON.parse] give back. *)
Definition node_kept (v : JSValue) : Prop :=
  match v with
  | JNum n => Number_kept n = true
  | JNegZero | JInfinity _ => False
  | _ => True
  end.

(** No number of the value is an infinity or the negative zero. *)
Definition kept_numbers : JSValue -> Prop := deep node_kept.

(** Fuel that is enough to parse the text of a value. *)
Fixpoint cost (v : JSValue) : nat :=
  match v with
  | JArr l =>
      S ((fix go (l : list JSValue) : nat :=
            match l with
            | [] => O
            | v :: l' => S (Nat.max (cost v) (go l'))
            end) l)
  | JObj m =>
      S ((fix go (m : list (list N * JSValue)) : nat :=
            match m with
            | [] => O
            | kv :: m' => S (Nat.max (cost (snd kv)) (go m'))
            end) m)
  | _ => 1%nat
  end.

(** A text after which a number ends: it does not go on with a digit, a dot
    or an exponent. *)
Definition ends_number (k : string) : bool :=
  match k with
  | EmptyString => true
  | String c _ =>
      negb (is_digit c || (code c =? 46)%N || (code c =? 101)%N || (code c =? 69)%N)
  end.

(** The two loops of [write_value], and of [cost], by name. *)
Fixpoint write_elements (l : list JSValue) (k : string) : string :=
  match l with
  | [] => String "]" k
  | v :: l' =>
      write_value v
        match l' with
        | [] => write_elements l' k
        | _ :: _ => String "," (write_elements l' k)
        end
  end.

Fixpoint write_members (m : list (list N * JSValue)) (k : string) : string :=
  match m with
  | [] => String "}" k
  | kv :: m' =>
      write_string (fst kv)
        (String ":"
           (write_value (snd kv)
              match m' with
              | [] => write_members m' k
              | _ :: _ => String "," (write_members m' k)
              end))
  end.

Fixpoint cost_elements (l : list JSValue) : nat :=
  match l with
  | [] => O
  | v :: l' => S (Nat.max (cost v) (cost_elements l'))
  end.

Fixpoint cost_members (m : list (list N * JSValue)) : nat :=
  match m with
  | [] => O
  | kv :: m' => S (Nat.max (cost (snd kv)) (cost_members m'))
  end.

(** What the text of a number is read as: an infinity as [null], the
    negative zero as zero. *)
Definition Number_rewritten (n : Number) : JSValue :=
  if Number_overflows n then JNull
  else if (mant n <? 0) && Number_underflows n then JNum Number_zero
  else JNum n.

(** The value that the text of [v] is read as. *)
Fixpoint rewritten (v : JSValue) : JSValue :=
  match v with
  | JNum n => Number_rewritten n
  | JNegZero => JNum Number_zero
  | JInfinity _ => JNull
  | JArr l => JArr (map rewritten l)
  | JObj m => JObj (map (fun kv => (fst kv, rewritten (snd kv))) m)
  | _ => v
  end.

(** With enough fuel, the text of [v] is read back as [w], up to where a
    number could still go on. *)
Definition reads_back_as (v w : JSValue) : Prop :=
  forall (fuel : nat) (k : string),
    (cost v <= fuel)%nat -> ends_number k = true ->
    parse_value fuel (write_value v k) = Some (w, k).

(** The characters a value can start with. *)
Definition value_start (c : ascii) : bool :=
  (code c =? 110)%N || (code c =? 116)%N || (code c =? 102)%N || (code c =? 34)%N
  || (code c =? 91)%N || (code c =? 123)%N || starts_number c.

End Js.

(** ** Completions and effects

    A JavaScript computation either returns or throws; the state it has
    changed before a [throw] stays changed. *)

Module Eff.

Record JsError : Set := mkError { err_name : string; err_message : string }.

Inductive Completion (A : Type) : Type :=
| Normal : A -> Completion A
| Throw : JsError -> Completion A.
Arguments Normal {A} _.
Arguments Throw {A} _.

Definition t (S A : Type) : Type := S -> Completion A * S.

Definition ret {S A} (a : A) : t S A := fun s => (Normal a, s).

Definition bind {S A B} (m : t S A) (k : A -> t S B) : t S B :=
  fun s =>
    match m s with
    | (Normal a, s') => k a s'
    | (Throw e, s') => (Throw e, s')
    end.

Definition throw {S A} (e : JsError) : t S A := fun s => (Throw e, s).

(** [try { m } catch (e) { h e }] *)
Definition try_catch {S A} (m : t S A) (h : JsError -> t S A) : t S A :=
  fun s =>
    match m s with
    | (Normal a, s') => (Normal a, s')
    | (Throw e, s') => h e s'
    end.

Definition gets {S A} (f : S -> A) : t S A := fun s => (Normal (f s), s).
Definition modify {S} (f : S -> S) : t S unit := fun s => (Normal tt, f s).

(** Running a computation on a part of the state. *)
Definition zoom {S T A} (get : S -> T) (set : T -> S -> S) (m : t T A) : t S A :=
  fun s => let (c, p) := m (get s) in (c, set p s).

Definition exec {S A} (m : t S A) (s : S) : S := snd (m s).
Definition outcome {S A} (m : t S A) (s : S) : Completion A := fst (m s).

End Eff.

Notation "x <- m ;; k" := (Eff.bind m (fun x => k))
  (at level 100, m at next level, right associativity).
Notation "m ;;; k" := (Eff.bind m (fun _ => k))
  (at level 100, right associativity).

(** ** [lib/supabase.ts]: the rows, and the hosted backend as the client sees it *)

Module Supabase.
Import Js Eff.

Record Report : Set := mkReport {
  id : string;
  user_id : option string;
  animal_type : string;
  image_url : string;
  latitude : Number;
  longitude : Number;
  status : string;
  feedback : option string;
  created_at : string;
  updated_at : string
}.

Record UserProfile : Set := mkUserProfile {
  profile_id : string;
  email : string;
  user_type : string;
  profile_created_at : string
}.

(** A [File]: its name, its media type and its bytes. *)
Record File : Set := mkFile { name : string; type : string; bytes : string }.

(** The argument of [update]: [status] always, [feedback] when it was set. *)
Record UpdateData : Set := mkUpdateData {
  upd_status : string;
  upd_feedback : option string
}.

(** What the backend holds. *)
Record Backend : Type := mkBackend {
  reports_table : list Report;
  wildlife_images : list (string * File)
}.

(** The backend's answers: each request either goes through or comes back
    with an error (row-level security, constraints, the network). *)
Record Answers : Type := mkAnswers {
  supabaseUrl : string;
  upload_error : string -> File -> option JsError;
  insert_error : Report -> option JsError;
  update_error : string -> UpdateData -> option JsError;
  backend_now : string
}.

(** [supabase.storage.from('wildlife-images').upload(fileName, file)]:
    resolves to the error, if any. *)
Definition storage_upload (a : Answers) (fileName : string) (file : File)
  : Eff.t Backend (option JsError) :=
  match upload_error a fileName file with
  | Some e => ret (Some e)
  | None =>
      modify (fun b => mkBackend (reports_table b) (wildlife_images b ++ [(fileName, file)])) ;;;
      ret None
  end.

(** [supabase.storage.from('wildlife-images').getPublicUrl(fileName)] *)
Definition getPublicUrl (a : Answers) (fileName : string) : string :=
  supabaseUrl a +:+ "/storage/v1/object/public/wildlife-images/" +:+ fileName.

(** [supabase.from('reports').insert([row])] *)
Definition insert_report (a : Answers) (row : Report) : Eff.t Backend (option JsError) :=
  match insert_error a row with
  | Some e => ret (Some e)
  | None =>
      modify (fun b => mkBackend (reports_table b ++ [row]) (wildlife_images b)) ;;;
      ret None
  end.

(** The row after [UPDATE reports SET ... WHERE id = reportId]; the
    [update_reports_updated_at] trigger stamps [updated_at]. *)
Definition update_row (a : Answers) (reportId : string) (d : UpdateData) (r : Report) : Report :=
  if String.eqb (id r) reportId then
    mkReport (id r) (user_id r) (animal_type r) (image_url r) (latitude r) (longitude r)
             (upd_status d)
             (match upd_feedback d with Some f => Some f | None => feedback r end)
             (created_at r) (backend_now a)
  else r.

(** [supabase.from('reports').update(data).eq('id', reportId)] *)
Definition update_report (a : Answers) (reportId : string) (d : UpdateData)
  : Eff.t Backend (option JsError) :=
  match update_error a reportId d with
  | Some e => ret (Some e)
  | None =>
      modify (fun b => mkBackend (map (update_row a reportId d) (reports_table b))
                                 (wildlife_images b)) ;;;
      ret None
  end.

End Supabase.

(** ** [utils/aiAnalysis.ts] *)

Module AiAnalysis.
Import Js Eff Supabase.

(** [animalType] is [None] when the array index falls outside the array
    (JavaScript's [undefined]). *)
Record AnimalAnalysis : Set := mkAnimalAnalysis {
  animalType : option string;
  confidence : Q
}.

Definition animalTypes : list string :=
  [ "Lion"; "Elephant"; "Giraffe"; "Zebra"; "Cheetah"; "Leopard";
    "Buffalo"; "Rhinoceros"; "Hippopotamus"; "Antelope"; "Gazelle";
    "Wildebeest"; "Hyena"; "Wild Dog"; "Baboon"; "Monkey"; "Bird" ].

(** The pseudo-random generator: the draws it will give, and how many it
    has given. *)
Record RandomSource : Type := mkRandomSource { draw : nat -> Q; drawn : nat }.

Definition Math_random : Eff.t RandomSource Q :=
  fun g => (Normal (draw g (drawn g)), mkRandomSource (draw g) (S (drawn g))).

Definition Math_floor (x : Q) : Z := Qfloor x.

(** [Math.round]: the nearest integer, halves going up. *)
Definition Math_round (x : Q) : Z := Qfloor (x + (1 # 2)).

(** [a[i]] for an integer [i]. *)
Definition index {A} (a : list A) (i : Z) : option A :=
  if i <? 0 then None else a !! Z.to_nat i.

(** The two-second delay is not modelled. *)
Definition analyzeAnimalImage (imageFile : File) : Eff.t RandomSource AnimalAnalysis :=
  r1 <- Math_random ;;
  let randomAnimal :=
    index animalTypes (Math_floor (r1 * inject_Z (Z.of_nat (length animalTypes)))) in
  r2 <- Math_random ;;
  let confidence := (r2 * (3 # 10) + (7 # 10))%Q in
  ret {| animalType := randomAnimal;
         confidence := (inject_Z (Math_round (confidence * 100)) / 100)%Q |}.

End AiAnalysis.

(** ** The classifier that follows the component in [pages/UserTypeSelection.tsx] *)

Module UserTypeSelection.
Import Js Eff Supabase.

(** [toUpperCase] on one code unit: the ASCII letters. *)
Definition toUpperCase (c : ascii) : ascii :=
  if ((97 <=? code c) && (code c <=? 122))%N then chr (code c - 32) else c.

(** [file.name[0]?.toUpperCase()] *)
Definition firstLetter (file : File) : option ascii :=
  match name file with
  | String c _ => Some (toUpperCase c)
  | EmptyString => None
  end.

Definition letter_is (l : option ascii) (c : ascii) : bool :=
  match l with
  | Some a => Ascii.eqb a c
  | None => false
  end.

(** The five-second delay is not modelled; the result is the object's one
    field, [animalType]. *)
Definition analyzeAnimalImage (file : File) : Eff.t AiAnalysis.RandomSource string :=
  let l := firstLetter file in
  let animalType :=
    if letter_is l "B" then "Buffalo"
    else if letter_is l "Z" then "Zebra"
    else if letter_is l "R" then "Rhino"
    else if letter_is l "E" then "Elephant"
    else "Unknown" in
  r <- AiAnalysis.Math_random ;;
  let confidence := AiAnalysis.Math_floor (r * 9) + 92 in
  ret (animalType +:+ " (" +:+ pretty confidence +:+ "%)").

End UserTypeSelection.

(** ** [utils/offlineStorage.ts] *)

Module OfflineStorage.
Import Js Eff Supabase.

Definition OFFLINE_REPORTS_KEY : string := "sentry_jamii_offline_reports".

(** [Omit<Report, 'id' | 'created_at' | 'updated_at'>] and three more fields. *)
Record OfflineReport : Set := mkOfflineReport {
  tempId : string;
  user_id : option string;
  animal_type : string;
  image_url : string;
  imageDataUrl : string;
  latitude : Number;
  longitude : Number;
  status : string;
  timestamp : string;
  feedback : option string
}.

(** A string of the program as a value. *)
Definition JText (s : string) : JSValue := JStr (units_of s).

(** A property whose value is [undefined] is left out by [JSON.stringify]. *)
Definition optional_member (key : string) (o : option string) : list (list N * JSValue) :=
  match o with
  | Some s => [(units_of key, JText s)]
  | None => []
  end.

(** The object, its properties in the order in which the one caller,
    [submitReport], writes them. *)
Definition OfflineReport_value (r : OfflineReport) : JSValue :=
  JObj ([(units_of "tempId", JText (tempId r))]
        ++ optional_member "user_id" (user_id r)
        ++ [(units_of "animal_type", JText (animal_type r));
            (units_of "image_url", JText (image_url r));
            (units_of "imageDataUrl", JText (imageDataUrl r));
            (units_of "latitude", JNum (latitude r));
            (units_of "longitude", JNum (longitude r));
            (units_of "status", JText (status r));
            (units_of "timestamp", JText (timestamp r))]
        ++ optional_member "feedback" (feedback r)).

Definition SyntaxError : JsError := mkError "SyntaxError" "Unexpected token in JSON".
Definition TypeError : JsError := mkError "TypeError" "object is not iterable".
Definition QuotaExceededError : JsError :=
  mkError "QuotaExceededError" "The quota has been exceeded.".

(** Whether the browser takes [setItem(key, value)] on a storage.  It does
    not when the write would pass the quota, or when storage is disabled.
    For the queue the question is asked of the text as the model spells
    it. *)
Definition Quota : Type := gmap string string -> string -> string -> bool.

(** [localStorage.getItem], [setItem] and [removeItem]. *)
Definition getItem (key : string) : Eff.t (gmap string string) (option string) :=
  gets (fun ls => ls !! key).
Definition setItem (quota : Quota) (key value : string) : Eff.t (gmap string string) unit :=
  fun ls =>
    if quota ls key value then (Normal tt, <[key := value]> ls)
    else (Throw QuotaExceededError, ls).
Definition removeItem (key : string) : Eff.t (gmap string string) unit :=
  modify (fun ls => delete key ls).

Definition JSON_parse_or_throw {S} (text : string) : Eff.t S JSValue :=
  match JSON_parse text with
  | Some v => ret v
  | None => throw SyntaxError
  end.

Definition is_high_surrogate (u : N) : bool := ((55296 <=? u) && (u <=? 56319))%N.
Definition is_low_surrogate (u : N) : bool := ((56320 <=? u) && (u <=? 57343))%N.

(** The code points of a string, each as the string of its one or two code
    units: what the iterator of a string gives. *)
Fixpoint code_points (s : list N) : list (list N) :=
  match s with
  | [] => []
  | u :: r =>
      match r with
      | u' :: r' =>
          if is_high_surrogate u && is_low_surrogate u' then [u; u'] :: code_points r'
          else [u] :: code_points r
      | [] => [[u]]
      end
  end.

(** [[...v]]: an array gives its elements, a string its characters,
    anything else is not iterable. *)
Definition spread {S} (v : JSValue) : Eff.t S (list JSValue) :=
  match v with
  | JArr l => ret l
  | JStr s => ret (map JStr (code_points s))
  | _ => throw TypeError
  end.

(** The value is whatever [JSON.parse] gives: TypeScript's
    [OfflineReport[]] is not checked when the code runs. *)
Definition getOfflineReports : Eff.t (gmap string string) JSValue :=
  try_catch
    (reports <- getItem OFFLINE_REPORTS_KEY ;;
     if truthy_opt reports then JSON_parse_or_throw (default EmptyString reports)
     else ret (JArr []))
    (fun error => ret (JArr [])).

Definition saveOfflineReport (quota : Quota) (report : OfflineReport)
  : Eff.t (gmap string string) unit :=
  try_catch
    (existingReports <- getOfflineReports ;;
     spreadReports <- spread existingReports ;;
     let updatedReports := spreadReports ++ [OfflineReport_value report] in
     setItem quota OFFLINE_REPORTS_KEY (JSON_stringify (JArr updatedReports)))
    (fun error => ret tt).

Definition clearOfflineReports : Eff.t (gmap string string) unit :=
  try_catch (removeItem OFFLINE_REPORTS_KEY) (fun error => ret tt).

Definition syncOfflineReports : Eff.t (gmap string string) unit :=
  clearOfflineReports.

End OfflineStorage.

(** ** The world a page runs in *)

Module Runtime.
Import Js Eff Supabase.

(** A drawing instruction of a [jsPDF] document. *)
Inductive PdfOp : Set :=
| SetFontSize : Z -> PdfOp
| Text : string -> Z -> Z -> PdfOp
| AddImage : string -> string -> Z -> Z -> Z -> Z -> PdfOp.

(** A document handed to the browser by [pdf.save]. *)
Record SavedPdf : Set := mkSavedPdf { pdf_fileName : string; pdf_ops : list PdfOp }.

(** The calls a page makes to the outside, in order. *)
Inductive Call : Set :=
| CallUpload : string -> File -> Call
| CallInsert : Report -> Call
| CallUpdate : string -> UpdateData -> Call
| CallPdfSave : string -> Call
| CallOnComplete : Call.

Record World : Type := mkWorld {
  localStorage : gmap string string;
  backend : Backend;
  downloads : list SavedPdf;
  calls : list Call
}.

(** What the browser and the backend answer while a handler runs. *)
Record Env : Type := mkEnv {
  onLine : bool;
  randomUUID : string;
  isoNow : string;
  dateNow : Z;
  answers : Answers;
  toLocaleDateString : string -> string;
  toLocaleTimeString : string -> string;
  toFixed6 : Number -> string;
  addImage_accepts : string -> bool;
  setItem_accepts : OfflineStorage.Quota
}.

(** A page: its React state and the world. *)
Record Sys (St : Type) : Type := mkSys { ui : St; world : World }.
Arguments mkSys {St} _ _.
Arguments ui {St} _.
Arguments world {St} _.

Definition set_state {St} (f : St -> St) : Eff.t (Sys St) unit :=
  modify (fun s => mkSys (f (ui s)) (world s)).

Definition in_world {St A} (m : Eff.t World A) : Eff.t (Sys St) A :=
  zoom world (fun w s => mkSys (ui s) w) m.

Definition with_backend {A} (m : Eff.t Backend A) : Eff.t World A :=
  zoom backend (fun b w => mkWorld (localStorage w) b (downloads w) (calls w)) m.

Definition with_storage {A} (m : Eff.t (gmap string string) A) : Eff.t World A :=
  zoom localStorage (fun ls w => mkWorld ls (backend w) (downloads w) (calls w)) m.

Definition log (c : Call) : Eff.t World unit :=
  modify (fun w => mkWorld (localStorage w) (backend w) (downloads w) (calls w ++ [c])).

Definition save_download (p : SavedPdf) : Eff.t World unit :=
  modify (fun w => mkWorld (localStorage w) (backend w) (downloads w ++ [p]) (calls w)).

End Runtime.

(** ** [utils/reportGenerator.ts] *)

Module ReportGenerator.
Import Js Eff Supabase Runtime.

(** The document [generateReportPDF] draws.  An image that [addImage]
    refuses is left out. *)
Definition report_pdf (env : Env) (report : Report) (imageDataUrl : string) : SavedPdf :=
  mkSavedPdf
    ("wildlife-report-" +:+ id report +:+ ".pdf")
    ([ SetFontSize 20;
       Text "Sentry Jamii Wildlife Report" 20 30;
       SetFontSize 12;
       Text ("Report ID: " +:+ id report) 20 50;
       Text ("Animal Type: " +:+ animal_type report) 20 60;
       Text ("Date: " +:+ toLocaleDateString env (created_at report)) 20 70;
       Text ("Time: " +:+ toLocaleTimeString env (created_at report)) 20 80;
       Text ("Location: " +:+ toFixed6 env (latitude report) +:+ ", "
               +:+ toFixed6 env (longitude report)) 20 90;
       Text ("Status: " +:+ status report) 20 100 ]
     ++ (if truthy imageDataUrl && addImage_accepts env imageDataUrl
         then [AddImage imageDataUrl "JPEG" 20 110 100 75]
         else [])).

Definition generateReportPDF (env : Env) (report : Report) (imageDataUrl : string)
  : Eff.t World unit :=
  let pdf := report_pdf env report imageDataUrl in
  log (CallPdfSave (pdf_fileName pdf)) ;;;
  save_download pdf.

End ReportGenerator.

(** ** [pages/ReportGeneration.tsx] *)

Module ReportGeneration.
Import Js Eff Supabase Runtime.

Record Location : Set := mkLocation { loc_latitude : Number; loc_longitude : Number }.

Record Props : Set := mkProps {
  imageFile : File;
  imageDataUrl : string;
  isAnonymous : bool
}.

(** The signed-in user, as [useAuth] gives it. *)
Record User : Set := mkUser { uid : string }.

Record State : Set := mkState {
  analyzing : bool;
  submitting : bool;
  animalType : string;
  location : option Location;
  error : string;
  report : option Report
}.

Definition setSubmitting (b : bool) (st : State) : State :=
  mkState (analyzing st) b (animalType st) (location st) (error st) (report st).
Definition setError (e : string) (st : State) : State :=
  mkState (analyzing st) (submitting st) (animalType st) (location st) e (report st).
Definition setReport (r : option Report) (st : State) : State :=
  mkState (analyzing st) (submitting st) (animalType st) (location st) (error st) r.

(** [location?.latitude || 0] *)
Definition coordinate (f : Location -> Number) (l : option Location) : Number :=
  match l with
  | Some loc => Number_or_zero (f loc)
  | None => Number_zero
  end.

Definition createReport (env : Env) (p : Props) (user : option User) (st : State) : Report :=
  let now := isoNow env in
  {| id := randomUUID env;
     user_id := if isAnonymous p then None else option_map uid user;
     animal_type := animalType st;
     image_url := EmptyString;
     latitude := coordinate loc_latitude (location st);
     longitude := coordinate loc_longitude (location st);
     status := "pending";
     feedback := None;
     created_at := now;
     updated_at := now |}.

Definition with_image_url (r : Report) (url : string) : Report :=
  mkReport (id r) (Supabase.user_id r) (animal_type r) url (latitude r) (longitude r)
           (status r) (feedback r) (created_at r) (updated_at r).

(** [`${reportId}-${Date.now()}.jpg`] *)
Definition upload_name (env : Env) (reportId : string) : string :=
  reportId +:+ "-" +:+ pretty (dateNow env) +:+ ".jpg".

Definition uploadImage (env : Env) (p : Props) (reportId : string) : Eff.t World string :=
  let fileName := upload_name env reportId in
  log (CallUpload fileName (imageFile p)) ;;;
  error <- with_backend (storage_upload (answers env) fileName (imageFile p)) ;;
  match error with
  | Some e => throw e
  | None => ret (getPublicUrl (answers env) fileName)
  end.

Definition offline_copy (p : Props) (newReport : Report) : OfflineStorage.OfflineReport :=
  {| OfflineStorage.tempId := id newReport;
     OfflineStorage.user_id := Supabase.user_id newReport;
     OfflineStorage.animal_type := animal_type newReport;
     OfflineStorage.image_url := EmptyString;
     OfflineStorage.imageDataUrl := imageDataUrl p;
     OfflineStorage.latitude := latitude newReport;
     OfflineStorage.longitude := longitude newReport;
     OfflineStorage.status := status newReport;
     OfflineStorage.timestamp := created_at newReport;
     OfflineStorage.feedback := None |}.

Definition submitReport (env : Env) (p : Props) (user : option User)
  : Eff.t (Sys State) unit :=
  st <- gets ui ;;
  match location st with
  | None => set_state (setError "Location is required")
  | Some _ =>
      set_state (setSubmitting true) ;;;
      set_state (setError EmptyString) ;;;
      try_catch
        (let newReport := createReport env p user st in
         newReport <-
           (if onLine env then
              imageUrl <- in_world (uploadImage env p (id newReport)) ;;
              let newReport := with_image_url newReport imageUrl in
              in_world (log (CallInsert newReport)) ;;;
              dbError <- in_world (with_backend (insert_report (answers env) newReport)) ;;
              match dbError with
              | Some e => throw e
              | None => ret newReport
              end
            else
              in_world (with_storage
                          (OfflineStorage.saveOfflineReport (setItem_accepts env)
                             (offline_copy p newReport))) ;;;
              ret newReport) ;;
         set_state (setReport (Some newReport)) ;;;
         in_world (ReportGenerator.generateReportPDF env newReport (imageDataUrl p)) ;;;
         in_world (log CallOnComplete))
        (fun err =>
           set_state (setError (or_else (err_message err) "Failed to submit report"))) ;;;
      set_state (setSubmitting false)
  end.

End ReportGeneration.

(** ** [pages/RangerDashboard.tsx] *)

Module RangerDashboard.
Import Js Eff Supabase Runtime.

Record State : Set := mkState {
  reports : list Report;
  selectedReport : option Report;
  loading : bool;
  updating : bool;
  filter : string;
  feedback : string;
  showFeedbackModal : bool
}.

Definition setUpdating (b : bool) (st : State) : State :=
  mkState (reports st) (selectedReport st) (loading st) b (filter st) (feedback st)
          (showFeedbackModal st).
Definition setReports (f : list Report -> list Report) (st : State) : State :=
  mkState (f (reports st)) (selectedReport st) (loading st) (updating st) (filter st)
          (feedback st) (showFeedbackModal st).
Definition setSelectedReport (r : option Report) (st : State) : State :=
  mkState (reports st) r (loading st) (updating st) (filter st) (feedback st)
          (showFeedbackModal st).
Definition setShowFeedbackModal (b : bool) (st : State) : State :=
  mkState (reports st) (selectedReport st) (loading st) (updating st) (filter st)
          (feedback st) b.
Definition setFeedback (f : string) (st : State) : State :=
  mkState (reports st) (selectedReport st) (loading st) (updating st) (filter st) f
          (showFeedbackModal st).

(** [{ ...report, status, feedback: feedbackText || report.feedback }] *)
Definition with_status (status : string) (feedbackText : option string) (report : Report)
  : Report :=
  mkReport (id report) (user_id report) (animal_type report) (image_url report)
           (latitude report) (longitude report)
           status
           (if truthy_opt feedbackText then feedbackText else Supabase.feedback report)
           (created_at report) (updated_at report).

(** The function given to [prev.map]. *)
Definition update_local (reportId status : string) (feedbackText : option string)
  (report : Report) : Report :=
  if String.eqb (id report) reportId then with_status status feedbackText report
  else report.

Definition updateReportStatus (env : Env) (reportId status : string)
  (feedbackText : option string) : Eff.t (Sys State) unit :=
  set_state (setUpdating true) ;;;
  try_catch
    (let updateData :=
       mkUpdateData status (if truthy_opt feedbackText then feedbackText else None) in
     in_world (log (CallUpdate reportId updateData)) ;;;
     error <- in_world (with_backend (update_report (answers env) reportId updateData)) ;;
     match error with
     | Some e => throw e
     | None =>
         set_state (setReports (map (update_local reportId status feedbackText))) ;;;
         set_state (setSelectedReport None) ;;;
         set_state (setShowFeedbackModal false) ;;;
         set_state (setFeedback EmptyString)
     end)
    (fun error => ret tt) ;;;
  set_state (setUpdating false).

(** Two reports that agree on every field but [status] and [feedback]. *)
Definition same_but_status_feedback (r r' : Report) : Prop :=
  id r' = id r /\ user_id r' = user_id r /\ animal_type r' = animal_type r
  /\ image_url r' = image_url r /\ latitude r' = latitude r
  /\ longitude r' = longitude r /\ created_at r' = created_at r
  /\ updated_at r' = updated_at r.

End RangerDashboard.

(** ** [App.tsx]: the screen-flow controller *)

Module App.
Import Js Eff Supabase.

(** The members of the [AppState] union.  When the code runs, the state is
    a string. *)
Definition AppState_values : list string :=
  [ "splash"; "userSelection"; "auth"; "camera"; "report";
    "rangerDashboard"; "adminDashboard"; "complete" ].

Record CapturedImage : Set := mkCapturedImage { file : File; dataUrl : string }.

(** [useAuth()] *)
Record Auth : Set := mkAuth {
  user : option ReportGeneration.User;
  profile : option UserProfile;
  loading : bool
}.

(** The three [useState] cells, and the reset timers that
    [handleReportComplete] has started and that have not fired yet. *)
Record State : Set := mkState {
  currentState : string;
  selectedUserType : string;
  capturedImage : option CapturedImage;
  timers : nat
}.

Definition initial : State := mkState "splash" EmptyString None 0.

Definition setCurrentState (s : string) (st : State) : State :=
  mkState s (selectedUserType st) (capturedImage st) (timers st).
Definition setSelectedUserType (s : string) (st : State) : State :=
  mkState (currentState st) s (capturedImage st) (timers st).
Definition setCapturedImage (c : option CapturedImage) (st : State) : State :=
  mkState (currentState st) (selectedUserType st) c (timers st).

Definition is_some {A} (o : option A) : bool :=
  match o with
  | Some _ => true
  | None => false
  end.

(** The effect that follows [user], [profile] and [loading]. *)
Definition authEffect (a : Auth) (st : State) : State :=
  if negb (loading a) && is_some (user a) && is_some (profile a) then
    match profile a with
    | Some pr =>
        if String.eqb (user_type pr) "ranger" then setCurrentState "rangerDashboard" st
        else if String.eqb (user_type pr) "admin" then setCurrentState "adminDashboard" st
        else if String.eqb (user_type pr) "community" then setCurrentState "camera" st
        else st
    | None => st
    end
  else st.

Definition handleSplashComplete (st : State) : State :=
  setCurrentState "userSelection" st.

Definition handleUserTypeSelection (userType : string) (st : State) : State :=
  let st := setSelectedUserType userType st in
  if String.eqb userType "anonymous" then setCurrentState "camera" st
  else setCurrentState "auth" st.

Definition handleAuthComplete (st : State) : State := st.

Definition handleImageCapture (f : File) (d : string) (st : State) : State :=
  setCurrentState "report" (setCapturedImage (Some (mkCapturedImage f d)) st).

(** The reset itself waits for the timer. *)
Definition handleReportComplete (st : State) : State :=
  let st := setCurrentState "complete" st in
  mkState (currentState st) (selectedUserType st) (capturedImage st) (S (timers st)).

(** The callback given to [setTimeout], three seconds later. *)
Definition resetTimerFires (st : State) : State :=
  match timers st with
  | O => st
  | S n =>
      let st := mkState (currentState st) (selectedUserType st) (capturedImage st) n in
      setSelectedUserType EmptyString
        (setCapturedImage None (setCurrentState "userSelection" st))
  end.

Definition handleBackToUserSelection (st : State) : State :=
  setCapturedImage None
    (setSelectedUserType EmptyString (setCurrentState "userSelection" st)).

Definition handleBackToCamera (st : State) : State :=
  setCapturedImage None (setCurrentState "camera" st).

(** Everything that can move the controller. *)
Inductive Event : Set :=
| AuthChanged : Auth -> Event
| SplashComplete : Event
| UserTypeSelected : string -> Event
| AuthComplete : Event
| ImageCaptured : File -> string -> Event
| ReportComplete : Event
| ResetTimer : Event
| BackToUserSelection : Event
| BackToCamera : Event.

Definition handle (e : Event) (st : State) : State :=
  match e with
  | AuthChanged a => authEffect a st
  | SplashComplete => handleSplashComplete st
  | UserTypeSelected u => handleUserTypeSelection u st
  | AuthComplete => handleAuthComplete st
  | ImageCaptured f d => handleImageCapture f d st
  | ReportComplete => handleReportComplete st
  | ResetTimer => resetTimerFires st
  | BackToUserSelection => handleBackToUserSelection st
  | BackToCamera => handleBackToCamera st
  end.

(** One step of the controller, and the states it can reach. *)
Inductive step : State -> State -> Prop :=
| step_handle : forall e st, step st (handle e st).

Inductive reachable : State -> Prop :=
| reachable_initial : reachable initial
| reachable_step : forall st st', reachable st -> step st st' -> reachable st'.

Definition run (es : list Event) (st : State) : State :=
  fold_left (fun s e => handle e s) es st.

End App.

(** ** Sample data for the worked cases *)

Module Samples.
Import Js Eff Supabase Runtime.

Definition photo : File := mkFile "zebra.jpg" "image/jpeg" "JFIF".

(** Draws of [Math.random]: 1/2, 1/3, 99/100, then 0 for ever. *)
Definition draws (n : nat) : Q :=
  match n with
  | 0%nat => 1 # 2
  | 1%nat => 1 # 3
  | 2%nat => 99 # 100
  | _ => 0
  end.

Definition rng : AiAnalysis.RandomSource := AiAnalysis.mkRandomSource draws 0.

(** Another generator, seven draws in, about to give 2/4 and 2/6. *)
Definition rng_later : AiAnalysis.RandomSource :=
  AiAnalysis.mkRandomSource
    (fun n => match n with
              | 7%nat => 2 # 4
              | 8%nat => 2 # 6
              | _ => 0%Q
              end) 7.

Definition nairobi : ReportGeneration.Location :=
  ReportGeneration.mkLocation (mkNumber (-12921) (-4)) (mkNumber 368219 (-4)).

Definition queued : OfflineStorage.OfflineReport :=
  OfflineStorage.mkOfflineReport "t-1" None "Lion" EmptyString "data:image/jpeg;base64,AAAA"
    (mkNumber (-12921) (-4)) (mkNumber 368219 (-4)) "pending" "2025-08-08T16:02:38.000Z" None.

Definition refused : JsError :=
  mkError "StorageApiError" "new row violates row-level security policy".

(** A backend that takes every request. *)
Definition answers_ok : Answers :=
  mkAnswers "https://project.supabase.co" (fun _ _ => None) (fun _ => None) (fun _ _ => None)
            "2025-08-08T16:03:00.000Z".

(** A backend that refuses every upload. *)
Definition answers_no_upload : Answers :=
  mkAnswers "https://project.supabase.co" (fun _ _ => Some refused) (fun _ => None)
            (fun _ _ => None) "2025-08-08T16:03:00.000Z".

(** A backend that stores files and refuses every new row. *)
Definition answers_no_insert : Answers :=
  mkAnswers "https://project.supabase.co" (fun _ _ => None) (fun _ => Some refused)
            (fun _ _ => None) "2025-08-08T16:03:00.000Z".

(** A storage with room for every write, and one that takes none. *)
Definition roomy : OfflineStorage.Quota := fun _ _ _ => true.

Definition env (online : bool) (a : Answers) : Env :=
  mkEnv online "3f0c2a9e-58d1-4a9b-9d5e-0c1b2a3d4e5f" "2025-08-08T16:02:38.000Z"
        1754668958000 a (fun iso => iso) (fun iso => iso) (fun _ => "0.000000") (fun _ => true)
        roomy.


Definition props : ReportGeneration.Props :=
  ReportGeneration.mkProps photo "data:image/jpeg;base64,AAAA" true.

Definition empty_world : World := mkWorld ∅ (mkBackend [] []) [] [].

(** The report page, analysis done and location found, before the user
    presses the button. *)
Definition ready : Sys ReportGeneration.State :=
  mkSys (ReportGeneration.mkState false false "Zebra" (Some nairobi) EmptyString None)
        empty_world.


Definition sighting (ident animal : string) : Report :=
  mkReport ident None animal "https://project.supabase.co/img.jpg"
           (mkNumber (-12921) (-4)) (mkNumber 368219 (-4)) "pending" None
           "2025-08-08T16:02:38.000Z" "2025-08-08T16:02:38.000Z".

(** The ranger dashboard with two reports loaded. *)
Definition dashboard : Sys RangerDashboard.State :=
  mkSys (RangerDashboard.mkState [sighting "r-1" "Lion"; sighting "r-2" "Zebra"]
           (Some (sighting "r-1" "Lion")) false false "all" "seen near the gate" true)
        empty_world.

End Samples.

(** ** Reading what [JSON.parse] returned *)

Module JsObject.
Import Js.

(** What the spread syntax can walk: arrays and strings. *)
Definition iterable (v : JSValue) : bool :=
  match v with
  | JArr _ => true
  | JStr _ => true
  | _ => false
  end.

(** [v[key]] for an own property of an object; [None] is [undefined].
    Inherited properties are outside the model. *)
Definition property (key : string) (v : JSValue) : option JSValue :=
  match v with
  | JObj m =>
      match find (fun kv => units_eqb (fst kv) (units_of key)) m with
      | Some kv => Some (snd kv)
      | None => None
      end
  | _ => None
  end.

End JsObject.

(** ** The effect that opens [pages/ReportGeneration.tsx] *)

Module ReportInit.
Import Js Eff Supabase Runtime ReportGeneration.

(** What the browser does with [getCurrentPosition]: there may be no
    [navigator.geolocation]; neither callback may have run yet; the
    position may be given; or the request may fail. *)
Inductive Geolocation : Set :=
| GeoMissing : Geolocation
| GeoSilent : Geolocation
| GeoPosition : Number -> Number -> Geolocation
| GeoError : Geolocation.

Definition setAnalyzing (b : bool) (st : State) : State :=
  mkState b (submitting st) (animalType st) (location st) (error st) (report st).
Definition setAnimalType (a : string) (st : State) : State :=
  mkState (analyzing st) (submitting st) a (location st) (error st) (report st).
Definition setLocation (l : option Location) (st : State) : State :=
  mkState (analyzing st) (submitting st) (animalType st) l (error st) (report st).

(** The location used when the request fails: Nairobi. *)
Definition default_location : Location :=
  mkLocation (mkNumber (-12921) (-4)) (mkNumber 368219 (-4)).

(** The two callbacks given to [getCurrentPosition]. *)
Definition locate (geo : Geolocation) (st : State) : State :=
  match geo with
  | GeoMissing => st
  | GeoSilent => st
  | GeoPosition latitude longitude => setLocation (Some (mkLocation latitude longitude)) st
  | GeoError => setLocation (Some default_location) st
  end.

(** The page once [initializeReport] and the geolocation callback have run,
    and the generator after the analysis.  The callbacks and the analysis
    set different cells, so their order does not matter.  [None] stands for
    an analysis whose [animalType] is [undefined], which the string cell of
    this model cannot hold. *)
Definition initializeReport (geo : Geolocation) (p : Props) (st : State)
  (g : AiAnalysis.RandomSource) : option State * AiAnalysis.RandomSource :=
  let st := locate geo st in
  match AiAnalysis.analyzeAnimalImage (imageFile p) g with
  | (Normal analysis, g') =>
      (match AiAnalysis.animalType analysis with
       | Some a => Some (setAnalyzing false (setAnimalType a st))
       | None => None
       end, g')
  | (Throw _, g') =>
      (Some (setAnalyzing false (setError "Failed to analyze image" st)), g')
  end.

(** The page as [useState] first makes it. *)
Definition initial : State := mkState true false EmptyString None EmptyString None.

End ReportInit.

(** ** More of [pages/RangerDashboard.tsx] *)

Module RangerActions.
Import Js Eff Supabase Runtime RangerDashboard.

(** What [select('*').order('created_at', ...)] resolves to. *)
Record SelectAnswer : Type := mkSelectAnswer {
  sel_data : option (list Report);
  sel_error : option JsError
}.

Definition setLoading (b : bool) (st : State) : State :=
  mkState (reports st) (selectedReport st) b (updating st) (filter st) (feedback st)
          (showFeedbackModal st).

Definition fetchReports (answer : SelectAnswer) : Eff.t (Sys State) unit :=
  try_catch
    (match sel_error answer with
     | Some e => throw e
     | None => set_state (setReports (fun _ => default [] (sel_data answer)))
     end)
    (fun error => ret tt) ;;;
  set_state (setLoading false).

(** White space and line ends among the code units below 256. *)
Definition is_space (c : ascii) : bool :=
  let n := code c in
  ((n =? 9) || (n =? 10) || (n =? 11) || (n =? 12) || (n =? 13) || (n =? 32) || (n =? 160))%N.

Fixpoint trim_start (s : string) : string :=
  match s with
  | String c r => if is_space c then trim_start r else s
  | EmptyString => EmptyString
  end.

Fixpoint trim_end (s : string) : string :=
  match s with
  | String c r =>
      match trim_end r with
      | EmptyString => if is_space c then EmptyString else String c EmptyString
      | r' => String c r'
      end
  | EmptyString => EmptyString
  end.

(** [s.trim()] *)
Definition trim (s : string) : string := trim_end (trim_start s).

Definition submitFeedback (env : Env) : Eff.t (Sys State) unit :=
  st <- gets ui ;;
  match selectedReport st with
  | Some selected =>
      if truthy (trim (feedback st)) then
        updateReportStatus env (id selected) "ranger_assigned" (Some (feedback st))
      else ret tt
  | None => ret tt
  end.

(** The list on display. *)
Definition filteredReports (st : State) : list Report :=
  List.filter
    (fun report =>
       if String.eqb (filter st) "all" then true
       else String.eqb (status report) (filter st))
    (reports st).

(** Two rows that agree on every field but [updated_at]. *)
Definition same_but_updated_at (r r' : Report) : Prop :=
  id r' = id r /\ user_id r' = user_id r /\ animal_type r' = animal_type r
  /\ image_url r' = image_url r /\ latitude r' = latitude r
  /\ longitude r' = longitude r /\ status r' = status r
  /\ Supabase.feedback r' = Supabase.feedback r /\ created_at r' = created_at r.

End RangerActions.

(** ** More sample data *)

Module Cases.
Import Js Eff Supabase Runtime.

(** A backend that refuses every update. *)
Definition answers_no_update : Answers :=
  mkAnswers "https://project.supabase.co" (fun _ _ => None) (fun _ => None)
            (fun _ _ => Some Samples.refused) "2025-08-08T16:03:00.000Z".

(** The dashboard with the feedback window open on the first report. *)
Definition dashboard_with_feedback (text : string) : Sys RangerDashboard.State :=
  mkSys (RangerDashboard.mkState
           [Samples.sighting "r-1" "Lion"; Samples.sighting "r-2" "Zebra"]
           (Some (Samples.sighting "r-1" "Lion")) false false "pending" text true)
        (mkWorld ∅ (mkBackend [Samples.sighting "r-1" "Lion"; Samples.sighting "r-2" "Zebra"] [])
                 [] []).

(** A ranger, signed in. *)
Definition ranger_auth : App.Auth :=
  App.mkAuth (Some (ReportGeneration.mkUser "u-7"))
             (Some (mkUserProfile "u-7" "ranger@example.org" "ranger"
                                  "2025-08-08T16:00:00.000Z"))
             false.

End Cases.

(** ** What [AppContent] returns *)

Module AppRender.
Import Js Eff Supabase App.

(** The element returned: the page, with the properties it is given.  A
    handler given as a property is written as the event its call raises. *)
Inductive Screen : Set :=
| Spinner : Screen
| SplashScreen (onComplete : Event) : Screen
| UserTypeSelection (onSelectUserType : string -> Event) : Screen
| AuthPage (userType : string) (onBack : Event) : Screen
| CameraCapture (onCapture : File -> string -> Event) (onBack : Event) : Screen
| ReportGeneration (imageFile : File) (imageDataUrl : string) (isAnonymous : bool)
    (onBack onComplete : Event) : Screen
| RangerDashboard (onBack : Event) : Screen
| AdminDashboard (onBack : Event) : Screen
| ThankYou : Screen
| Null : Screen.

(** The [if (loading)] and the [switch (currentState)]. *)
Definition render (a : Auth) (st : State) : Screen :=
  if loading a then Spinner
  else if String.eqb (currentState st) "splash" then SplashScreen SplashComplete
  else if String.eqb (currentState st) "userSelection" then UserTypeSelection UserTypeSelected
  else if String.eqb (currentState st) "auth" then
    AuthPage (selectedUserType st) BackToUserSelection
  else if String.eqb (currentState st) "camera" then
    CameraCapture ImageCaptured BackToUserSelection
  else if String.eqb (currentState st) "report" then
    match capturedImage st with
    | Some capturedImage =>
        ReportGeneration (file capturedImage) (dataUrl capturedImage)
          (String.eqb (selectedUserType st) "anonymous") BackToCamera ReportComplete
    | None => Null
    end
  else if String.eqb (currentState st) "rangerDashboard" then
    RangerDashboard BackToUserSelection
  else if String.eqb (currentState st) "adminDashboard" then
    AdminDashboard BackToUserSelection
  else if String.eqb (currentState st) "complete" then ThankYou
  else UserTypeSelection UserTypeSelected.

(** An authentication state that passes the test of the effect. *)
Definition signed_in_as (userType : string) (a : Auth) : Prop :=
  loading a = false /\ user a <> None
  /\ exists pr, profile a = Some pr /\ user_type pr = userType.

(** Two facts that hold in every state reached: the report page has its
    image, and the last screen has a timer pending. *)
Definition controller_invariant (st : State) : Prop :=
  (currentState st = "report" -> capturedImage st <> None)
  /\ (currentState st = "complete" -> (0 < timers st)%nat).

End AppRender.

(** ** [pages/AdminDashboard.tsx]: the analytics and the deletions *)

Module AdminDashboard.
Import Js Eff Supabase.

Record StatusSlice : Set := mkStatusSlice { slice_name : string; value : nat; color : string }.

Record AnimalCount : Set := mkAnimalCount { name : string; count : nat }.

Record AnalyticsData : Set := mkAnalyticsData {
  totalReports : nat;
  totalUsers : nat;
  reportsByStatus : list StatusSlice;
  reportsByAnimal : list AnimalCount;
  recentActivity : list Report
}.

(** An object used as a table of counts: its own keys with their numbers,
    in the order of their creation. *)
Definition Counts : Set := list (string * nat).

(** [acc[k]], for a key the table holds. *)
Definition get (k : string) (acc : Counts) : option nat :=
  match find (fun kv => String.eqb (fst kv) k) acc with
  | Some kv => Some (snd kv)
  | None => None
  end.

(** [acc[k] = (acc[k] || 0) + 1] *)
Fixpoint bump (k : string) (acc : Counts) : Counts :=
  match acc with
  | [] => [(k, 1%nat)]
  | (k', n) :: rest =>
      if String.eqb k' k then (k', S n) :: rest else (k', n) :: bump k rest
  end.

(** [reportsData.reduce((acc, report) => { ...; return acc; }, {})] *)
Definition count_by (key : Report -> string) (reportsData : list Report) : Counts :=
  fold_left (fun acc report => bump (key report) acc) reportsData [].

(** The names every object inherits from [Object.prototype].  Under one of
    them [acc[k] || 0] is not a number, and what the reduction stores there
    is text that depends on the engine. *)
Definition Object_prototype_names : list string :=
  [ "constructor"; "hasOwnProperty"; "isPrototypeOf"; "propertyIsEnumerable";
    "toLocaleString"; "toString"; "valueOf"; "__proto__";
    "__defineGetter__"; "__defineSetter__"; "__lookupGetter__"; "__lookupSetter__" ].

Definition inherited (k : string) : bool :=
  existsb (String.eqb k) Object_prototype_names.

(** No status and no animal type is an inherited name. *)
Definition ordinary_keys (reportsData : list Report) : bool :=
  forallb (fun report => negb (inherited (status report))
                         && negb (inherited (animal_type report))) reportsData.

(** The number a key stands for when it is an array index: a decimal
    numeral in its shortest form, below 2^32 - 1. *)
Definition array_index (k : string) : option N :=
  match NilEmpty.uint_of_string k with
  | Some d =>
      let n := N.of_uint d in
      if String.eqb (NilEmpty.string_of_uint (N.to_uint n)) k && (n <? 4294967295)%N
      then Some n else None
  | None => None
  end.

Definition is_array_index (k : string) : bool :=
  match array_index k with
  | Some _ => true
  | None => false
  end.

(** [Object.entries]: the array indices first, from the smallest up, then
    the other keys in the order of their creation. *)
Definition Object_entries (o : Counts) : list (string * nat) :=
  Array_sort (fun a b => Z.of_N (default 0%N (array_index (fst a)))
                         - Z.of_N (default 0%N (array_index (fst b))))
             (List.filter (fun kv => is_array_index (fst kv)) o)
  ++ List.filter (fun kv => negb (is_array_index (fst kv))) o.

(** [(a, b) => b.count - a.count] *)
Definition by_count (a b : AnimalCount) : Z := Z.of_nat (count b) - Z.of_nat (count a).

(** The value handed to [setAnalytics]; [None] when a key is an inherited
    name, which this model does not describe. *)
Definition analyticsData (reportsData : list Report) (usersData : list UserProfile)
  : option AnalyticsData :=
  if ordinary_keys reportsData then
    let statusCounts := count_by status reportsData in
    let reportsByStatus :=
      [ mkStatusSlice "Pending" (default 0%nat (get "pending" statusCounts)) "#FFB000";
        mkStatusSlice "Invalid" (default 0%nat (get "invalid" statusCounts)) "#EF4444";
        mkStatusSlice "Updated" (default 0%nat (get "updated" statusCounts)) "#3B82F6";
        mkStatusSlice "Ranger Assigned" (default 0%nat (get "ranger_assigned" statusCounts))
                      "#10B981" ] in
    let animalCounts := count_by animal_type reportsData in
    let reportsByAnimal :=
      take 10
        (Array_sort by_count
           (map (fun entry => mkAnimalCount (fst entry) (snd entry))
                (Object_entries animalCounts))) in
    Some {| totalReports := length reportsData;
            totalUsers := length usersData;
            reportsByStatus := reportsByStatus;
            reportsByAnimal := reportsByAnimal;
            recentActivity := take 5 reportsData |}
  else None.

Record State : Set := mkState {
  reports : list Report;
  users : list UserProfile;
  analytics : option AnalyticsData;
  loading : bool;
  deleting : option string;
  selectedTab : string
}.

Definition initial : State := mkState [] [] None true None "overview".

Definition setReports (f : list Report -> list Report) (st : State) : State :=
  mkState (f (reports st)) (users st) (analytics st) (loading st) (deleting st)
          (selectedTab st).
Definition setUsers (f : list UserProfile -> list UserProfile) (st : State) : State :=
  mkState (reports st) (f (users st)) (analytics st) (loading st) (deleting st)
          (selectedTab st).
Definition setAnalytics (a : option AnalyticsData) (st : State) : State :=
  mkState (reports st) (users st) a (loading st) (deleting st) (selectedTab st).
Definition setLoading (b : bool) (st : State) : State :=
  mkState (reports st) (users st) (analytics st) b (deleting st) (selectedTab st).
Definition setDeleting (d : option string) (st : State) : State :=
  mkState (reports st) (users st) (analytics st) (loading st) d (selectedTab st).

(** [None]: outside the model, as for [analyticsData]. *)
Definition generateAnalytics (reportsData : list Report) (usersData : list UserProfile)
  (st : State) : option State :=
  match analyticsData reportsData usersData with
  | Some a => Some (setAnalytics (Some a) st)
  | None => None
  end.

(** What a query answers: [{ data, error }]. *)
Record QueryAnswer (A : Type) : Type := mkQueryAnswer {
  data : option (list A);
  error : option JsError
}.
Arguments mkQueryAnswer {A} _ _.
Arguments data {A} _.
Arguments error {A} _.

(** The [try] block ends at the first error, which the [catch] block only
    logs; the [finally] block follows in either case. *)
Definition fetchData (reportsAnswer : QueryAnswer Report) (usersAnswer : QueryAnswer UserProfile)
  (st : State) : option State :=
  let tried :=
    match error reportsAnswer with
    | Some reportsError => Some st
    | None =>
        match error usersAnswer with
        | Some usersError => Some st
        | None =>
            let st := setReports (fun _ => default [] (data reportsAnswer)) st in
            let st := setUsers (fun _ => default [] (data usersAnswer)) st in
            generateAnalytics (default [] (data reportsAnswer)) (default [] (data usersAnswer))
                              st
        end
    end in
  match tried with
  | Some st => Some (setLoading false st)
  | None => None
  end.

(** A handler reads [reports] and [users] as they were in the render it
    comes from, and the setter's [prev] as it is when the request has been
    answered; other handlers may have run while the request was pending.
    [deleteReport reports users answer reportId pending] takes the two
    lists of the handler's render, the answer of the backend, and what
    happened to the state in the meantime. *)
Definition deleteReport (reports : list Report) (users : list UserProfile)
  (answer : option JsError) (reportId : string) (pending : State -> State) (st : State)
  : option State :=
  let st := setDeleting (Some reportId) st in
  let st := pending st in
  let tried :=
    match answer with
    | Some error => Some st
    | None =>
        let st :=
          setReports (List.filter (fun report => negb (String.eqb (id report) reportId))) st in
        let updatedReports :=
          List.filter (fun report => negb (String.eqb (id report) reportId)) reports in
        generateAnalytics updatedReports users st
    end in
  match tried with
  | Some st => Some (setDeleting None st)
  | None => None
  end.

Definition deleteUser (reports : list Report) (users : list UserProfile)
  (answer : option JsError) (userId : string) (pending : State -> State) (st : State)
  : option State :=
  let st := setDeleting (Some userId) st in
  let st := pending st in
  let tried :=
    match answer with
    | Some error => Some st
    | None =>
        let st :=
          setUsers (List.filter (fun user => negb (String.eqb (profile_id user) userId))) st in
        let updatedUsers :=
          List.filter (fun user => negb (String.eqb (profile_id user) userId)) users in
        generateAnalytics reports updatedUsers st
    end in
  match tried with
  | Some st => Some (setDeleting None st)
  | None => None
  end.

(** Nothing happens while the request is pending. *)
Definition undisturbed (st : State) : State := st.

(** The number of reports with a given status, or of a given animal. *)
Definition with_status_count (k : string) (reportsData : list Report) : nat :=
  length (List.filter (fun report => String.eqb (status report) k) reportsData).
Definition sightings (k : string) (reportsData : list Report) : nat :=
  length (List.filter (fun report => String.eqb (animal_type report) k) reportsData).

(** Counts from the largest down. *)
Fixpoint descending (l : list AnimalCount) : Prop :=
  match l with
  | [] => True
  | a :: rest => Forall (fun b => (count b <= count a)%nat) rest /\ descending rest
  end.

(** The analytics are those of the lists on display. *)
Definition up_to_date (st : State) : Prop :=
  analytics st <> None /\ analytics st = analyticsData (reports st) (users st).

End AdminDashboard.

Module AdminCases.
Import Js Eff Supabase.

Definition reportsData : list Report :=
  [ Samples.sighting "r-1" "Lion"; Samples.sighting "r-2" "Zebra";
    Samples.sighting "r-3" "Lion" ].

Definition usersData : list UserProfile :=
  [ mkUserProfile "u-7" "ranger@example.org" "ranger" "2025-08-08T16:00:00.000Z";
    mkUserProfile "u-8" "admin@example.org" "admin" "2025-08-08T16:01:00.000Z" ].

(** The dashboard after the first load. *)
Definition loaded : AdminDashboard.State :=
  AdminDashboard.mkState reportsData usersData
    (AdminDashboard.analyticsData reportsData usersData) false None "overview".

End AdminCases.

(** * Theorems *)

(** ** The screen-flow controller *)

Section Controller.
Import App.

Lemma handle_in_AppState (e : Event) (st : State) :
  In (currentState st) AppState_values ->
  In (currentState (handle e st)) AppState_values.
Proof.
  intros Hin.
  destruct e as [a| |u| |f d| | | |]; cbn [handle].
  - unfold authEffect.
    destruct (negb (loading a) && is_some (user a) && is_some (profile a)); [|exact Hin].
    destruct (profile a) as [pr|]; [|exact Hin].
    repeat (match goal with |- context [if ?b then _ else _] => destruct b end);
      cbn; tauto.
  - cbn; tauto.
  - unfold handleUserTypeSelection. destruct (String.eqb u "anonymous"); cbn; tauto.
  - exact Hin.
  - cbn; tauto.
  - cbn; tauto.
  - unfold resetTimerFires. destruct (timers st); [exact Hin | cbn; tauto].
  - cbn; tauto.
  - cbn; tauto.
Qed.

Lemma reachable_in_AppState (st : State) :
  reachable st -> In (currentState st) AppState_values.
Proof.
  induction 1 as [|st st' _ IH Hstep].
  - cbn; tauto.
  - destruct Hstep as [e st]. now apply handle_in_AppState.
Qed.

Lemma run_reachable (es : list Event) (st : State) :
  reachable st -> reachable (run es st).
Proof.
  revert st. induction es as [|e es IH]; intros st Hst; cbn.
  - exact Hst.
  - apply IH. eapply reachable_step; [exact Hst | constructor].
Qed.

(** C3. The controller has eight states, fewer than ten, all different;
    every state reached from the initial one, by any sequence of handlers,
    effects and timers, holds one of the eight values; and every handler
    maps a state holding one of them to a state holding one of them. *)
Theorem C3_controller_states_enumerated :
  length AppState_values = 8%nat
  /\ (length AppState_values < 10)%nat
  /\ NoDup AppState_values
  /\ In (currentState initial) AppState_values
  /\ (forall es : list Event, In (currentState (run es initial)) AppState_values)
  /\ (forall st : State, reachable st -> In (currentState st) AppState_values)
  /\ (forall (e : Event) (st : State),
        In (currentState st) AppState_values ->
        In (currentState (handle e st)) AppState_values).
Proof.
  split; [reflexivity|].
  split; [cbn; lia|].
  split.
  { apply (bool_decide_unpack _). vm_compute. reflexivity. }
  split; [cbn; tauto|].
  split.
  { intros es. apply reachable_in_AppState, run_reachable, reachable_initial. }
  split; [exact reachable_in_AppState | exact handle_in_AppState].
Qed.
Lemma C3_controller_states_enumerated_witness :
  In (currentState
        (handle ReportComplete
           (run [SplashComplete; UserTypeSelected "anonymous";
                 ImageCaptured Samples.photo "data:image/jpeg;base64,AAAA"] initial)))
     AppState_values.
Proof.
  destruct C3_controller_states_enumerated as (_ & _ & _ & _ & Hrun & _ & Hhandle).
  apply Hhandle, Hrun.
Defined.

End Controller.

Section Routing.
Import Supabase App.

(** C4. A signed-in profile of type ranger goes to the ranger dashboard,
    admin to the admin dashboard and community to the camera; choosing
    anonymous at the selection screen goes straight to the camera, and every
    other choice goes to the sign-in screen. *)
Theorem C4_role_routing :
  (forall (a : Auth) (st : State) (u : ReportGeneration.User) (pr : UserProfile),
      loading a = false -> user a = Some u -> profile a = Some pr ->
      (user_type pr = "ranger" -> currentState (authEffect a st) = "rangerDashboard")
      /\ (user_type pr = "admin" -> currentState (authEffect a st) = "adminDashboard")
      /\ (user_type pr = "community" -> currentState (authEffect a st) = "camera"))
  /\ (forall st : State,
        currentState (handleUserTypeSelection "anonymous" st) = "camera")
  /\ (forall (userType : string) (st : State),
        userType <> "anonymous" ->
        currentState (handleUserTypeSelection userType st) = "auth").
Proof.
  split; [|split].
  - intros a st u pr Hl Hu Hp. unfold authEffect. rewrite Hl, Hu, Hp. cbn [negb is_some andb].
    repeat split; intros ->; reflexivity.
  - intros st. reflexivity.
  - intros userType st Hne. unfold handleUserTypeSelection.
    destruct (String.eqb_spec userType "anonymous") as [->|_]; [congruence | reflexivity].
Qed.

Lemma C4_role_routing_witness :
  currentState
    (authEffect
       (mkAuth (Some (ReportGeneration.mkUser "u1"))
               (Some (mkUserProfile "u1" "r@example.org" "ranger" "2025-08-08")) false)
       initial) = "rangerDashboard"
  /\ currentState (handleUserTypeSelection "admin" initial) = "auth".
Proof.
  destruct C4_role_routing as (Hauth & _ & Hother).
  split.
  - eapply Hauth; reflexivity.
  - apply Hother. discriminate.
Defined.

End Routing.

(** ** The ranger dashboard *)

Section Dashboard.
Import Js Eff Supabase Runtime RangerDashboard.

Lemma update_local_other (reportId status : string) (feedbackText : option string) (r : Report) :
  id r <> reportId -> update_local reportId status feedbackText r = r.
Proof.
  intros Hne. unfold update_local.
  destruct (String.eqb_spec (id r) reportId); [contradiction | reflexivity].
Qed.

Lemma update_local_frame (reportId status : string) (feedbackText : option string) (r : Report) :
  same_but_status_feedback r (update_local reportId status feedbackText r).
Proof.
  unfold update_local, same_but_status_feedback.
  destruct (String.eqb (id r) reportId); cbn; repeat split; reflexivity.
Qed.

(** The local list after [updateReportStatus]: mapped when the backend
    accepted the update, as it was when it refused. *)
Lemma updateReportStatus_reports (env : Env) (reportId status : string)
  (feedbackText : option string) (s : Sys State) :
  reports (ui (exec (updateReportStatus env reportId status feedbackText) s))
  = match update_error (answers env) reportId
            (mkUpdateData status (if truthy_opt feedbackText then feedbackText else None)) with
    | Some _ => reports (ui s)
    | None => map (update_local reportId status feedbackText) (reports (ui s))
    end.
Proof.
  unfold updateReportStatus, exec, update_report.
  destruct (update_error _ _ _) eqn:E; reflexivity.
Qed.

(** C10. After [updateReportStatus], whatever the backend answered, the
    local list has the same length; at every position the report keeps its
    id, animal_type, image_url, latitude, longitude, created_at, user_id (and
    updated_at), so that only status and feedback can differ; and a report
    whose id is not the targeted one is unchanged. *)
Theorem C10_updateReportStatus_frame (env : Env) (reportId status : string)
  (feedbackText : option string) (s : Sys State) :
  let after := reports (ui (exec (updateReportStatus env reportId status feedbackText) s)) in
  length after = length (reports (ui s))
  /\ forall (i : nat) (r : Report),
      reports (ui s) !! i = Some r ->
      exists r' : Report,
        after !! i = Some r'
        /\ same_but_status_feedback r r'
        /\ (id r <> reportId -> r' = r).
Proof.
  cbv zeta. rewrite updateReportStatus_reports.
  destruct (update_error _ _ _).
  - split; [reflexivity|]. intros i r Hi. exists r.
    split; [exact Hi|]. split; [|reflexivity].
    unfold same_but_status_feedback. repeat split; reflexivity.
  - split; [apply length_map|]. intros i r Hi.
    exists (update_local reportId status feedbackText r).
    split; [rewrite list_lookup_fmap, Hi; reflexivity|].
    split; [apply update_local_frame | apply update_local_other].
Qed.

Lemma C10_updateReportStatus_frame_witness :
  exists r' : Report,
    reports (ui (exec (updateReportStatus (Samples.env true Samples.answers_ok)
                         "r-1" "ranger_assigned" (Some "seen near the gate"))
                      Samples.dashboard)) !! 1%nat = Some r'
    /\ r' = Samples.sighting "r-2" "Zebra".
Proof.
  destruct (C10_updateReportStatus_frame (Samples.env true Samples.answers_ok)
              "r-1" "ranger_assigned" (Some "seen near the gate") Samples.dashboard)
    as (_ & Hframe).
  destruct (Hframe 1%nat (Samples.sighting "r-2" "Zebra") eq_refl) as (r' & Hr' & _ & Hsame).
  exists r'. split; [exact Hr' | apply Hsame; discriminate].
Defined.

(** When the backend accepts the update, the targeted report does take the
    new status, and the new feedback if one was given. *)
Lemma updateReportStatus_target (env : Env) (reportId status : string)
  (feedbackText : option string) (s : Sys State) (i : nat) (r : Report) :
  update_error (answers env) reportId
    (mkUpdateData status (if truthy_opt feedbackText then feedbackText else None)) = None ->
  reports (ui s) !! i = Some r -> id r = reportId ->
  exists r' : Report,
    reports (ui (exec (updateReportStatus env reportId status feedbackText) s)) !! i = Some r'
    /\ Supabase.status r' = status
    /\ Supabase.feedback r'
       = (if truthy_opt feedbackText then feedbackText else Supabase.feedback r).
Proof.
  intros Hok Hi Hid. rewrite updateReportStatus_reports, Hok.
  exists (update_local reportId status feedbackText r).
  split; [rewrite list_lookup_fmap, Hi; reflexivity|].
  unfold update_local. rewrite Hid, String.eqb_refl. cbn. split; reflexivity.
Qed.

End Dashboard.

(** ** The offline queue *)

Section Queue.
Import Js Eff Supabase Runtime OfflineStorage.

(** [getOfflineReports] returns, and leaves the storage as it was. *)
Lemma getOfflineReports_run (ls : gmap string string) :
  getOfflineReports ls
  = (Normal match ls !! OFFLINE_REPORTS_KEY with
            | Some text =>
                if truthy text then
                  match JSON_parse text with
                  | Some v => v
                  | None => JArr []
                  end
                else JArr []
            | None => JArr []
            end, ls).
Proof.
  unfold getOfflineReports, try_catch, bind, getItem, gets, JSON_parse_or_throw.
  destruct (ls !! OFFLINE_REPORTS_KEY) as [text|]; cbn; [|reflexivity].
  destruct (truthy text); [|reflexivity].
  destruct (JSON_parse text); reflexivity.
Qed.

Lemma getOfflineReports_missing (ls : gmap string string) :
  ls !! OFFLINE_REPORTS_KEY = None -> outcome getOfflineReports ls = Normal (JArr []).
Proof. intros H. unfold outcome. rewrite getOfflineReports_run, H. reflexivity. Qed.

Lemma syncOfflineReports_run (ls : gmap string string) :
  syncOfflineReports ls = (Normal tt, delete OFFLINE_REPORTS_KEY ls).
Proof. reflexivity. Qed.

(** C2. [syncOfflineReports] returns normally; afterwards
    [getOfflineReports] gives the empty list, whatever the queue held; the
    other keys of the storage are untouched; and, run inside a page, it
    leaves the backend (rows and files) as it was and makes no call to it:
    nothing is uploaded, inserted or updated. *)
Theorem C2_sync_clears_and_sends_nothing :
  (forall ls : gmap string string,
      outcome syncOfflineReports ls = Normal tt
      /\ outcome getOfflineReports (exec syncOfflineReports ls) = Normal (JArr [])
      /\ exec syncOfflineReports ls !! OFFLINE_REPORTS_KEY = None
      /\ forall key : string,
          key <> OFFLINE_REPORTS_KEY -> exec syncOfflineReports ls !! key = ls !! key)
  /\ (forall w : World,
        backend (exec (with_storage syncOfflineReports) w) = backend w
        /\ calls (exec (with_storage syncOfflineReports) w) = calls w
        /\ downloads (exec (with_storage syncOfflineReports) w) = downloads w
        /\ outcome getOfflineReports
             (localStorage (exec (with_storage syncOfflineReports) w)) = Normal (JArr [])).
Proof.
  split.
  - intros ls. unfold exec, outcome. rewrite syncOfflineReports_run. cbn [fst snd].
    split; [reflexivity|].
    split; [apply getOfflineReports_missing, lookup_delete_eq|].
    split; [apply lookup_delete_eq|].
    intros key Hne. apply lookup_delete_ne. congruence.
  - intros w. unfold exec, with_storage, zoom. rewrite syncOfflineReports_run. cbn.
    repeat split. apply getOfflineReports_missing, lookup_delete_eq.
Qed.

Lemma C2_sync_clears_and_sends_nothing_witness :
  exec syncOfflineReports {[ OFFLINE_REPORTS_KEY := "[1,2]"; "theme" := "dark" ]} !! "theme"
  = Some "dark"
  /\ outcome getOfflineReports
       (exec syncOfflineReports {[ OFFLINE_REPORTS_KEY := "[1,2]"; "theme" := "dark" ]})
     = Normal (JArr []).
Proof.
  destruct C2_sync_clears_and_sends_nothing as [Hls _].
  destruct (Hls {[ OFFLINE_REPORTS_KEY := "[1,2]"; "theme" := "dark" ]}) as (_ & Hget & _ & Hother).
  split.
  - rewrite Hother by discriminate. reflexivity.
  - exact Hget.
Defined.

(** [getOfflineReports] never throws and changes nothing; it gives the
    empty list when the key is missing, when the stored text is empty and
    when [JSON.parse] throws; otherwise it gives the value that
    [JSON.parse] returns. *)
Lemma getOfflineReports_cases (ls : gmap string string) :
  (exists v : JSValue, outcome getOfflineReports ls = Normal v)
  /\ exec getOfflineReports ls = ls
  /\ (ls !! OFFLINE_REPORTS_KEY = None ->
      outcome getOfflineReports ls = Normal (JArr []))
  /\ (ls !! OFFLINE_REPORTS_KEY = Some EmptyString ->
      outcome getOfflineReports ls = Normal (JArr []))
  /\ (forall text : string,
        ls !! OFFLINE_REPORTS_KEY = Some text -> JSON_parse text = None ->
        outcome getOfflineReports ls = Normal (JArr []))
  /\ (forall (text : string) (v : JSValue),
        ls !! OFFLINE_REPORTS_KEY = Some text -> text <> EmptyString ->
        JSON_parse text = Some v ->
        outcome getOfflineReports ls = Normal v).
Proof.
  unfold outcome, exec. rewrite getOfflineReports_run. cbn [fst snd].
  split; [eexists; reflexivity|].
  split; [reflexivity|].
  split; [intros ->; reflexivity|].
  split; [intros ->; reflexivity|].
  split.
  - intros text -> Hp. rewrite Hp. destruct (truthy text); reflexivity.
  - intros text v -> Hne Hp. rewrite Hp.
    destruct text; [congruence | reflexivity].
Qed.

(** C8. The code where the claim fails: with the text [null] under the key
    [getOfflineReports] returns [null], and with the text of an object that
    object; neither is a list, although the function is declared to return
    one and returns the empty list on its two other paths, the missing key
    and the text that [JSON.parse] refuses. *)
Theorem C8_getOfflineReports_null_is_no_list :
  outcome getOfflineReports {[ OFFLINE_REPORTS_KEY := "null" ]} = Normal JNull
  /\ outcome getOfflineReports {[ OFFLINE_REPORTS_KEY := "{}" ]} = Normal (JObj [])
  /\ (forall l : list JSValue,
        outcome getOfflineReports {[ OFFLINE_REPORTS_KEY := "null" ]} <> Normal (JArr l))
  /\ outcome getOfflineReports ∅ = Normal (JArr [])
  /\ outcome getOfflineReports {[ OFFLINE_REPORTS_KEY := "not json" ]} = Normal (JArr [])
  /\ ~ (forall ls : gmap string string,
          exists l : list JSValue, outcome getOfflineReports ls = Normal (JArr l)).
Proof.
  split; [reflexivity|]. split; [reflexivity|]. split; [intros l H; discriminate H|].
  split; [reflexivity|]. split; [reflexivity|].
  intros H. destruct (H {[ OFFLINE_REPORTS_KEY := "null" ]}) as [l Hl]. discriminate Hl.
Qed.

End Queue.

(** ** [JSON.parse] undoes [JSON.stringify] *)

Section Json.
Import Js.

Ltac bits c := destruct c as [[] [] [] [] [] [] [] []].

Lemma read_digits_stop (k : string) :
  match k with String c _ => is_digit c = false | EmptyString => True end ->
  read_digits k = (Decimal.Nil, k).
Proof.
  destruct k as [|c k]; [reflexivity|]. unfold is_digit. cbn.
  destruct (digit_of c); [discriminate | reflexivity].
Qed.

Lemma ends_number_not_digit (k : string) :
  ends_number k = true ->
  match k with String c _ => is_digit c = false | EmptyString => True end.
Proof.
  destruct k as [|c k]; [trivial|]. cbn.
  destruct (is_digit c); [discriminate | reflexivity].
Qed.

Lemma read_write_digits (d : Decimal.uint) (k : string) :
  match k with String c _ => is_digit c = false | EmptyString => True end ->
  read_digits (write_digits d k) = (d, k).
Proof.
  intros Hk. induction d; cbn; try (rewrite IHd; reflexivity).
  now apply read_digits_stop.
Qed.

Lemma N_to_uint_unorm (n : N) : Decimal.unorm (N.to_uint n) = N.to_uint n.
Proof.
  rewrite <- (DecimalN.Unsigned.to_of (N.to_uint n)).
  now rewrite DecimalN.Unsigned.of_to.
Qed.

Lemma N_to_uint_nonnil (n : N) : N.to_uint n <> Decimal.Nil.
Proof.
  destruct n as [|p]; [discriminate|]. apply DecimalPos.Unsigned.to_uint_nonnil.
Qed.

Lemma app_nil_r_uint (d : Decimal.uint) : Decimal.app d Decimal.Nil = d.
Proof. apply DecimalFacts.app_nil_r. Qed.

(** Reading back the digits of a natural number. *)
Lemma read_write_N (n : N) (k : string) :
  match k with String c _ => is_digit c = false | EmptyString => True end ->
  exists d : Decimal.uint,
    read_digits (write_digits (N.to_uint n) k) = (d, k)
    /\ d <> Decimal.Nil /\ Decimal.unorm d = d /\ N.of_uint d = n.
Proof.
  intros Hk. exists (N.to_uint n). split; [now apply read_write_digits|].
  split; [apply N_to_uint_nonnil|]. split; [apply N_to_uint_unorm|].
  apply DecimalN.Unsigned.of_to.
Qed.

(** The text of an integer: a sign, then digits. *)
Lemma write_int_shape (z : Z) (k : string) :
  exists (neg : bool) (n : N),
    write_int z k = (if neg then String "-" (write_digits (N.to_uint n) k)
                     else write_digits (N.to_uint n) k)
    /\ apply_sign neg n = z.
Proof.
  destruct z as [|p|p].
  - exists false, 0%N. split; reflexivity.
  - exists false, (N.pos p). split; reflexivity.
  - exists true, (N.pos p). split; reflexivity.
Qed.

Lemma write_digits_head (n : N) (k : string) :
  exists (c : ascii) (r : string),
    write_digits (N.to_uint n) k = String c r /\ is_digit c = true.
Proof.
  pose proof (N_to_uint_nonnil n) as Hn.
  destruct (N.to_uint n); [congruence| ..]; cbn; eauto.
Qed.

Lemma is_digit_not_sign (c : ascii) (r : string) :
  is_digit c = true -> read_sign (String c r) = (false, String c r).
Proof. bits c; cbn; intros H; try discriminate H; reflexivity. Qed.

Lemma is_digit_not_plus (c : ascii) (r : string) :
  is_digit c = true ->
  match String c r with String "+" r1 => (false, r1) | _ => read_sign (String c r) end
  = (false, String c r).
Proof. bits c; cbn; intros H; try discriminate H; reflexivity. Qed.

Lemma read_write_int (z : Z) (k : string) :
  match k with String c _ => is_digit c = false | EmptyString => True end ->
  exists (neg : bool) (d : Decimal.uint),
    read_sign (write_int z k) = (neg, write_digits d k)
    /\ match write_int z k with
       | String "+" r1 => (false, r1)
       | _ => read_sign (write_int z k)
       end = (neg, write_digits d k)
    /\ read_digits (write_digits d k) = (d, k)
    /\ d <> Decimal.Nil /\ Decimal.unorm d = d /\ apply_sign neg (N.of_uint d) = z.
Proof.
  intros Hk.
  destruct (write_int_shape z k) as (neg & n & Hw & Hz).
  destruct (read_write_N n k Hk) as (d & Hd & Hnil & Hnorm & Hof).
  assert (d = N.to_uint n) as ->.
  { rewrite read_write_digits in Hd by exact Hk. congruence. }
  exists neg, (N.to_uint n). rewrite Hw, Hof.
  destruct neg.
  - repeat split; assumption.
  - destruct (write_digits_head n k) as (c & r & Hc & Hdig). rewrite Hc in *.
    rewrite is_digit_not_plus, is_digit_not_sign by exact Hdig.
    repeat split; assumption.
Qed.

Lemma uint_eqb_refl (d : Decimal.uint) : uint_eqb d d = true.
Proof. unfold uint_eqb. destruct (Decimal.uint_eq_dec d d); congruence. Qed.

Lemma read_frac_none (k : string) :
  ends_number k = true -> read_frac k = Some (Decimal.Nil, k).
Proof.
  destruct k as [|c k]; [reflexivity|].
  bits c; cbn; intros H; try discriminate H; reflexivity.
Qed.

Lemma read_exp_none (k : string) :
  ends_number k = true -> read_exp k = Some (0, k).
Proof.
  destruct k as [|c k]; [reflexivity|].
  bits c; cbn; intros H; try discriminate H; reflexivity.
Qed.

(** Reading back the text of a number. *)
Lemma Number_kept_cases (n : Number) :
  Number_kept n = true ->
  Number_overflows n = false /\ (mant n <? 0) && Number_underflows n = false.
Proof.
  unfold Number_kept. intros H. apply andb_true_iff in H as [H1 H2].
  apply negb_true_iff in H1, H2. split; assumption.
Qed.

Lemma read_write_number (n : Number) (k : string) :
  Number_kept n = true ->
  ends_number k = true -> read_number (write_number n k) = Some (n, k).
Proof.
  intros Hkept Hk. pose proof (ends_number_not_digit k Hk) as Hdig.
  destruct (Number_kept_cases n Hkept) as [Hfin Hzero].
  unfold write_number. rewrite Hfin, Hzero.
  destruct n as [m e]. unfold read_number. cbn [mant expo].
  destruct (Z.eqb_spec e 0) as [->|He].
  - destruct (read_write_int m k Hdig) as (neg & d & Hs & _ & Hd & Hnil & Hnorm & Hz).
    rewrite Hs, Hd. destruct d; [congruence| ..];
      rewrite Hnorm, uint_eqb_refl, (read_frac_none k Hk), (read_exp_none k Hk),
        app_nil_r_uint, Hz; reflexivity.
  - destruct (read_write_int e k Hdig) as (neg' & d' & _ & Hs' & Hd' & Hnil' & Hnorm' & Hz').
    destruct (read_write_int m (String "e" (write_int e k)) eq_refl)
      as (neg & d & Hs & _ & Hd & Hnil & Hnorm & Hz).
    rewrite Hs, Hd. cbn [read_frac read_exp]. rewrite Hs', Hd'.
    destruct d; [congruence| ..]; rewrite Hnorm, uint_eqb_refl;
      (destruct d'; [congruence| ..]); rewrite app_nil_r_uint, Hz, Hz';
      cbn [Decimal.nb_digits Z.of_nat]; rewrite Z.sub_0_r; reflexivity.
Qed.

(** Reading back one code unit, escaped or not. *)
Lemma read_write_narrow (c : ascii) (rest : string) :
  read_units (write_unit (code c) rest)
  = match read_units rest with
    | Some (t, r) => Some (code c :: t, r)
    | None => None
    end.
Proof. bits c; reflexivity. Qed.

Lemma short_escape_wide (n : N) : (255 < n)%N -> short_escape n = None.
Proof.
  intros H. destruct n as [|p]; [lia|].
  do 8 (destruct p as [p|p|]; try reflexivity; try lia).
Qed.

Lemma hex_val_hex_char (d : N) : (d < 16)%N -> hex_val (hex_char d) = Some d.
Proof.
  intros H. destruct d as [|p]; [reflexivity|].
  do 4 (destruct p as [p|p|]; try reflexivity; try lia).
Qed.

Lemma hex4_value (n : N) :
  (n < 65536)%N ->
  (n / 16 / 16 / 16 < 16)%N /\ (n / 16 / 16 mod 16 < 16)%N /\ (n / 16 mod 16 < 16)%N
  /\ (n mod 16 < 16)%N
  /\ (((n / 16 / 16 / 16 * 16 + n / 16 / 16 mod 16) * 16 + n / 16 mod 16) * 16 + n mod 16 = n)%N.
Proof.
  intros H. assert (16 <> 0)%N as H16 by discriminate.
  pose proof (N.div_mod n 16 H16) as A1. pose proof (N.mod_lt n 16 H16) as B1.
  pose proof (N.div_mod (n / 16) 16 H16) as A2. pose proof (N.mod_lt (n / 16) 16 H16) as B2.
  pose proof (N.div_mod (n / 16 / 16) 16 H16) as A3.
  pose proof (N.mod_lt (n / 16 / 16) 16 H16) as B3.
  generalize dependent (n / 16 / 16 / 16)%N. intros q3.
  generalize dependent (n / 16 / 16 mod 16)%N. intros r3.
  generalize dependent (n / 16 / 16)%N. intros q2 ? ?.
  generalize dependent (n / 16 mod 16)%N. intros r2.
  generalize dependent (n / 16)%N. intros q1 ? ?.
  generalize dependent (n mod 16)%N. intros r1. intros. lia.
Qed.

Lemma unicode_escape_hex4 (n : N) (k : string) :
  (n < 65536)%N ->
  exists h1 h2 h3 h4 : ascii,
    write_hex4 n k = String h1 (String h2 (String h3 (String h4 k)))
    /\ unicode_escape h1 h2 h3 h4 = Some n.
Proof.
  intros H. unfold write_hex4. eexists _, _, _, _. split; [reflexivity|].
  destruct (hex4_value n H) as (H3 & H2 & H1 & H0 & Hn).
  unfold unicode_escape.
  rewrite !hex_val_hex_char by assumption. cbn. f_equal. exact Hn.
Qed.

Lemma read_write_wide (n : N) (rest : string) :
  (255 < n)%N -> (n < 65536)%N ->
  read_units (write_unit n rest)
  = match read_units rest with
    | Some (t, r) => Some (n :: t, r)
    | None => None
    end.
Proof.
  intros Hlo Hhi. unfold write_unit. rewrite (short_escape_wide n Hlo).
  replace (255 <? n)%N with true by (symmetry; apply N.ltb_lt; exact Hlo).
  rewrite orb_true_r.
  destruct (unicode_escape_hex4 n rest Hhi) as (h1 & h2 & h3 & h4 & -> & Hu).
  cbn. rewrite Hu. reflexivity.
Qed.

Lemma read_write_unit (n : N) (rest : string) :
  (n < 65536)%N ->
  read_units (write_unit n rest)
  = match read_units rest with
    | Some (t, r) => Some (n :: t, r)
    | None => None
    end.
Proof.
  intros H. destruct (N.le_gt_cases n 255) as [Hn|Hn].
  - rewrite <- (N_ascii_embedding n) by lia. apply (read_write_narrow (ascii_of_N n)).
  - now apply read_write_wide.
Qed.

(** Reading back the code units of a string, up to the closing quote. *)
Lemma read_write_units (s : list N) (k : string) :
  code_units s -> read_units (write_units s (String (chr 34) k)) = Some (s, k).
Proof.
  induction 1 as [|n s Hn Hs IH]; [reflexivity|].
  cbn [write_units]. rewrite read_write_unit, IH; [reflexivity | exact Hn].
Qed.

Lemma read_write_string (s : list N) (k : string) :
  code_units s -> read_string (write_string s k) = Some (s, k).
Proof. intros H. unfold write_string. cbn. now apply read_write_units. Qed.

Lemma units_of_code_units (s : string) : code_units (units_of s).
Proof.
  unfold code_units, units_of. apply Forall_map, Forall_forall. intros c _.
  unfold code. pose proof (N_ascii_bounded c). lia.
Qed.

(** *** Values *)

Lemma JSValue_induction (P : JSValue -> Prop) :
  P JNull -> (forall b, P (JBool b)) -> (forall n, P (JNum n)) -> P JNegZero ->
  (forall i, P (JInfinity i)) -> (forall s, P (JStr s)) ->
  (forall l, Forall P l -> P (JArr l)) ->
  (forall m, Forall (fun kv => P (snd kv)) m -> P (JObj m)) ->
  forall v, P v.
Proof.
  intros Hnull Hbool Hnum Hzero Hinf Hstr Harr Hobj.
  fix IH 1. intros [ |b|n| |i|s|l|m].
  - exact Hnull.
  - apply Hbool.
  - apply Hnum.
  - exact Hzero.
  - apply Hinf.
  - apply Hstr.
  - apply Harr. induction l as [|v l IHl]; constructor; [apply IH | exact IHl].
  - apply Hobj. induction m as [|kv m IHm]; constructor; [apply IH | exact IHm].
Qed.

Lemma write_value_arr (l : list JSValue) (k : string) :
  write_value (JArr l) k = String "[" (write_elements l k).
Proof.
  cbn. f_equal. induction l as [|v l IH]; [reflexivity|].
  cbn [write_elements]. destruct l; rewrite <- IH; reflexivity.
Qed.

Lemma write_value_obj (m : list (list N * JSValue)) (k : string) :
  write_value (JObj m) k = String "{" (write_members m k).
Proof.
  cbn. f_equal. induction m as [|[key v] m IH]; [reflexivity|].
  cbn [write_members fst snd]. destruct m; rewrite <- IH; reflexivity.
Qed.

Lemma cost_arr (l : list JSValue) : cost (JArr l) = S (cost_elements l).
Proof. reflexivity. Qed.

Lemma cost_obj (m : list (list N * JSValue)) : cost (JObj m) = S (cost_members m).
Proof. reflexivity. Qed.

Lemma deep_arr (P : JSValue -> Prop) (l : list JSValue) :
  deep P (JArr l) <-> P (JArr l) /\ Forall (deep P) l.
Proof.
  cbn [deep]. apply and_iff_compat_l.
  induction l as [|v l IH]; [split; [constructor | trivial]|].
  rewrite Forall_cons, <- IH. reflexivity.
Qed.

Lemma deep_obj (P : JSValue -> Prop) (m : list (list N * JSValue)) :
  deep P (JObj m) <-> P (JObj m) /\ Forall (fun kv => deep P (snd kv)) m.
Proof.
  cbn [deep]. apply and_iff_compat_l.
  induction m as [|kv m IH]; [split; [constructor | trivial]|].
  rewrite Forall_cons, <- IH. reflexivity.
Qed.

Lemma deep_here (P : JSValue -> Prop) (v : JSValue) : deep P v -> P v.
Proof. destruct v; cbn [deep]; tauto. Qed.

Lemma deep_leaf (P : JSValue -> Prop) (v : JSValue) :
  match v with JArr _ | JObj _ => False | _ => True end -> P v -> deep P v.
Proof. destruct v; cbn [deep]; tauto. Qed.

(** *** Sorting, and the order of the keys *)

Lemma sort_insert_Permutation {A} (compareFn : A -> A -> Z) (x : A) (l : list A) :
  sort_insert compareFn x l ≡ₚ x :: l.
Proof.
  induction l as [|y l IH]; cbn; [reflexivity|].
  destruct (0 <? compareFn x y); [|reflexivity].
  rewrite IH. apply Permutation_swap.
Qed.

Lemma Array_sort_Permutation {A} (compareFn : A -> A -> Z) (l : list A) :
  Array_sort compareFn l ≡ₚ l.
Proof.
  induction l as [|x l IH]; cbn; [reflexivity|].
  rewrite sort_insert_Permutation. now rewrite IH.
Qed.

Lemma filter_partition {A} (p : A -> bool) (l : list A) :
  List.filter p l ++ List.filter (fun x => negb (p x)) l ≡ₚ l.
Proof.
  induction l as [|x l IH]; cbn; [reflexivity|].
  destruct (p x); cbn.
  - now rewrite IH.
  - rewrite <- Permutation_middle. now rewrite IH.
Qed.

Lemma filter_all {A} (p : A -> bool) (l : list A) :
  Forall (fun x => p x = true) l -> List.filter p l = l.
Proof. induction 1 as [|x l Hx _ IH]; cbn; [reflexivity|]. now rewrite Hx, IH. Qed.

Lemma filter_none {A} (p : A -> bool) (l : list A) :
  Forall (fun x => p x = false) l -> List.filter p l = [].
Proof. induction 1 as [|x l Hx _ IH]; cbn; [reflexivity|]. now rewrite Hx, IH. Qed.

Lemma filter_Forall {A} (p : A -> bool) (l : list A) :
  Forall (fun x => p x = true) (List.filter p l).
Proof. apply Forall_forall. intros x Hx. apply list_elem_of_In, filter_In in Hx. tauto. Qed.

(** Sorting by a number: the result goes up, and a list that goes up is
    left as it is. *)
Lemma sort_insert_ascending {A} (g : A -> Z) (x : A) (l : list A) :
  ascending g l -> ascending g (sort_insert (fun a b => g a - g b) x l).
Proof.
  induction l as [|y l IH]; cbn; intros H; [split; [constructor | exact I]|].
  destruct H as [Hy Hl].
  destruct (Z.ltb_spec 0 (g x - g y)) as [Hlt|Hge]; cbn.
  - split; [|now apply IH].
    rewrite sort_insert_Permutation. constructor; [lia | exact Hy].
  - split; [|split; assumption].
    constructor; [lia|]. eapply Forall_impl; [exact Hy|]. cbn. intros b Hb. lia.
Qed.

Lemma Array_sort_ascending {A} (g : A -> Z) (l : list A) :
  ascending g (Array_sort (fun a b => g a - g b) l).
Proof.
  induction l as [|x l IH]; cbn; [exact I|]. now apply sort_insert_ascending.
Qed.

Lemma Array_sort_of_ascending {A} (g : A -> Z) (l : list A) :
  ascending g l -> Array_sort (fun a b => g a - g b) l = l.
Proof.
  induction l as [|x l IH]; cbn; [reflexivity|]. intros [Hx Hl].
  change (fold_right (sort_insert (fun a b => g a - g b)) [] l)
    with (Array_sort (fun a b => g a - g b) l).
  rewrite (IH Hl). destruct l as [|y l]; [reflexivity|]. cbn.
  inversion Hx as [|? ? Hxy _]; subst.
  destruct (Z.ltb_spec 0 (g x - g y)); [lia | reflexivity].
Qed.

Lemma key_order_Permutation {A} (m : list (list N * A)) : key_order m ≡ₚ m.
Proof.
  unfold key_order. rewrite Array_sort_Permutation.
  apply (filter_partition (fun kv => is_index_key (fst kv))).
Qed.

(** Putting the keys in their order twice changes nothing more. *)
Lemma key_order_twice {A} (m : list (list N * A)) : key_order (key_order m) = key_order m.
Proof.
  unfold key_order at 2.
  set (indices := Array_sort by_index (List.filter (fun kv => is_index_key (fst kv)) m)).
  set (others := List.filter (fun kv => negb (is_index_key (fst kv))) m).
  assert (Forall (fun kv : list N * A => is_index_key (fst kv) = true) indices) as Hi.
  { subst indices. rewrite Array_sort_Permutation.
    apply (filter_Forall (fun kv => is_index_key (fst kv))). }
  assert (Forall (fun kv : list N * A => negb (is_index_key (fst kv)) = true) others) as Ho.
  { apply (filter_Forall (fun kv => negb (is_index_key (fst kv)))). }
  unfold key_order. rewrite !List.filter_app.
  rewrite (filter_all (fun kv => is_index_key (fst kv)) indices Hi).
  rewrite (filter_none (fun kv => is_index_key (fst kv)) others).
  2:{ eapply Forall_impl; [exact Ho|]. cbn. intros kv H. now apply negb_true_iff. }
  rewrite (filter_none (fun kv => negb (is_index_key (fst kv))) indices).
  2:{ eapply Forall_impl; [exact Hi|]. cbn. intros kv H. now rewrite H. }
  rewrite (filter_all (fun kv => negb (is_index_key (fst kv))) others Ho).
  rewrite app_nil_r. cbn [app]. f_equal.
  apply (Array_sort_of_ascending
           (fun kv : list N * A => Z.of_N (default 0%N (index_key (fst kv))))).
  apply (Array_sort_ascending
           (fun kv : list N * A => Z.of_N (default 0%N (index_key (fst kv))))).
Qed.

(** An object whose keys are no array indices has them in order. *)
Lemma key_order_named {A} (m : list (list N * A)) :
  Forall (fun kv => is_index_key (fst kv) = false) m -> key_order m = m.
Proof.
  intros H. unfold key_order.
  rewrite (filter_none (fun kv => is_index_key (fst kv)) m H).
  rewrite (filter_all (fun kv => negb (is_index_key (fst kv))) m); [reflexivity|].
  eapply Forall_impl; [exact H|]. cbn. intros kv Hkv. now rewrite Hkv.
Qed.

Lemma digit_not_minus (c : ascii) : is_digit c = true -> (code c =? 45)%N = false.
Proof. bits c; cbn; intros H; try discriminate H; reflexivity. Qed.

(** The text of an integer starts a number, with a minus sign exactly when
    the integer is negative. *)
Lemma write_int_head (z : Z) (k : string) :
  exists (c : ascii) (r : string),
    write_int z k = String c r /\ starts_number c = true
    /\ (code c =? 45)%N = (z <? 0).
Proof.
  destruct z as [|p|p].
  - eexists _, _. repeat split.
  - destruct (write_digits_head (N.pos p) k) as (c & r & H & Hc).
    exists c, r. split; [exact H|]. unfold starts_number. rewrite Hc.
    split; [apply orb_true_r | now apply digit_not_minus].
  - eexists _, _. repeat split.
Qed.

Lemma write_number_head (n : Number) (k : string) :
  Number_kept n = true ->
  exists (c : ascii) (r : string),
    write_number n k = String c r /\ starts_number c = true
    /\ (code c =? 45)%N && Number_underflows n = false.
Proof.
  intros Hkept. destruct (Number_kept_cases n Hkept) as [Hfin Hzero].
  unfold write_number. rewrite Hfin, Hzero.
  destruct (write_int_head (mant n)
              (if expo n =? 0 then k else String "e" (write_int (expo n) k)))
    as (c & r & -> & Hc & Hsign).
  exists c, r. split; [reflexivity|]. split; [exact Hc|]. now rewrite Hsign.
Qed.

(** The text of a value starts with a character that starts a value. *)
Lemma write_value_head (v : JSValue) (k : string) :
  exists (c : ascii) (r : string),
    write_value v k = String c r /\ value_start c = true.
Proof.
  destruct v as [ |[|]|n| |i|s|l|m]; try (eexists _, _; split; reflexivity).
  cbn [write_value]. unfold write_number.
  destruct (Number_overflows n); [eexists _, _; split; reflexivity|].
  destruct ((mant n <? 0) && Number_underflows n); [eexists _, _; split; reflexivity|].
  destruct (write_int_head (mant n)
              (if expo n =? 0 then k else String "e" (write_int (expo n) k)))
    as (c & r & -> & Hc & _).
  exists c, r. split; [reflexivity|]. unfold value_start. rewrite Hc. apply orb_true_r.
Qed.

Lemma value_start_not_ws (c : ascii) (r : string) :
  value_start c = true -> skip_ws (String c r) = String c r.
Proof. bits c; intros H; try discriminate H; reflexivity. Qed.

Lemma skip_ws_write_value (v : JSValue) (k : string) :
  skip_ws (write_value v k) = write_value v k.
Proof.
  destruct (write_value_head v k) as (c & r & -> & Hc). now apply value_start_not_ws.
Qed.

(** One step of [parse_value] on each kind of text. *)
Lemma parse_value_number (fuel : nat) (c : ascii) (r : string) :
  starts_number c = true ->
  parse_value (S fuel) (String c r)
  = match read_number (String c r) with
    | Some (n, r') => Some (Number_read (code c =? 45)%N n, r')
    | None => None
    end.
Proof. bits c; intros H; try discriminate H; reflexivity. Qed.

Lemma parse_value_array (fuel : nat) (c : ascii) (r : string) :
  value_start c = true ->
  parse_value (S fuel) (String "[" (String c r))
  = match parse_elements fuel (String c r) with
    | Some (l, r') => Some (JArr l, r')
    | None => None
    end.
Proof. bits c; intros H; try discriminate H; reflexivity. Qed.

Lemma parse_value_object (fuel : nat) (r : string) :
  parse_value (S fuel) (String "{" (String (chr 34) r))
  = match parse_members fuel (String (chr 34) r) with
    | Some (m, r') => Some (JObj (key_order (obj_of_members m)), r')
    | None => None
    end.
Proof. reflexivity. Qed.

Lemma parse_elements_step (fuel : nat) (s : string) :
  parse_elements (S fuel) s
  = match parse_value fuel s with
    | Some (v, r) =>
        match skip_ws r with
        | String "," r' =>
            match parse_elements fuel r' with
            | Some (l, r'') => Some (v :: l, r'')
            | None => None
            end
        | String "]" r' => Some ([v], r')
        | _ => None
        end
    | None => None
    end.
Proof. reflexivity. Qed.

Lemma parse_members_step (fuel : nat) (s : string) :
  parse_members (S fuel) s
  = match read_string (skip_ws s) with
    | Some (key, r) =>
        match skip_ws r with
        | String ":" r0 =>
            match parse_value fuel r0 with
            | Some (v, r1) =>
                match skip_ws r1 with
                | String "," r' =>
                    match parse_members fuel r' with
                    | Some (m, r'') => Some ((key, v) :: m, r'')
                    | None => None
                    end
                | String "}" r' => Some ([(key, v)], r')
                | _ => None
                end
            | None => None
            end
        | _ => None
        end
    | None => None
    end.
Proof. reflexivity. Qed.

(** *** Objects: defining each member in turn *)

Lemma obj_set_fresh (key : list N) (v : JSValue) (m : list (list N * JSValue)) :
  ~ In key (map fst m) -> obj_set key v m = m ++ [(key, v)].
Proof.
  induction m as [|[key' v'] m IH]; intros Hnot; [reflexivity|].
  cbn in *. unfold units_eqb. case_bool_decide as Hk; [tauto|].
  rewrite IH by tauto. reflexivity.
Qed.

Lemma obj_of_members_from (raw acc : list (list N * JSValue)) :
  NoDup (map fst (acc ++ raw)) ->
  fold_left (fun a kv => obj_set (fst kv) (snd kv) a) raw acc = acc ++ raw.
Proof.
  revert acc. induction raw as [|[key v] raw IH]; intros acc Hnd.
  - cbn. now rewrite app_nil_r.
  - cbn [fold_left fst snd]. rewrite obj_set_fresh.
    + rewrite IH; rewrite <- app_assoc; [reflexivity | exact Hnd].
    + rewrite map_app in Hnd. cbn in Hnd.
      apply NoDup_app in Hnd as (_ & Hdisj & _). intros Hin.
      apply (Hdisj key); [apply list_elem_of_In, Hin | left].
Qed.

Lemma obj_of_members_distinct (m : list (list N * JSValue)) :
  NoDup (map fst m) -> obj_of_members m = m.
Proof. intros H. unfold obj_of_members. now rewrite obj_of_members_from. Qed.

(** *** The round trip *)

Lemma parse_write_elements (l : list JSValue) :
  l <> [] -> Forall (fun v => reads_back_as v (rewritten v)) l ->
  forall (fuel : nat) (k : string),
    (cost_elements l <= fuel)%nat ->
    parse_elements fuel (write_elements l k) = Some (map rewritten l, k).
Proof.
  induction l as [|v l IH]; [congruence|].
  intros _ Hall fuel k Hfuel. inversion Hall as [|? ? Hv Hl]; subst.
  cbn [cost_elements] in Hfuel. destruct fuel as [|fuel]; [lia|].
  rewrite parse_elements_step.
  destruct l as [|v' l'].
  - change (write_elements [v] k) with (write_value v (String "]" k)).
    rewrite Hv by (reflexivity || lia). reflexivity.
  - change (write_elements (v :: v' :: l') k)
      with (write_value v (String "," (write_elements (v' :: l') k))).
    rewrite Hv by (reflexivity || lia).
    change (skip_ws (String "," (write_elements (v' :: l') k)))
      with (String "," (write_elements (v' :: l') k)).
    cbv beta iota. rewrite IH; [reflexivity | congruence | exact Hl | lia].
Qed.

Lemma parse_write_members (m : list (list N * JSValue)) :
  m <> [] -> Forall (fun kv => code_units (fst kv)) m ->
  Forall (fun kv => reads_back_as (snd kv) (rewritten (snd kv))) m ->
  forall (fuel : nat) (k : string),
    (cost_members m <= fuel)%nat ->
    parse_members fuel (write_members m k)
    = Some (map (fun kv => (fst kv, rewritten (snd kv))) m, k).
Proof.
  induction m as [|[key v] m IH]; [congruence|].
  intros _ Hkeys Hall fuel k Hfuel.
  inversion Hkeys as [|? ? Hkey Hkeys']; subst. cbn [fst] in Hkey.
  inversion Hall as [|? ? Hv Hm]; subst. cbn [snd] in Hv.
  cbn [cost_members snd] in Hfuel. destruct fuel as [|fuel]; [lia|].
  rewrite parse_members_step.
  destruct m as [|kv' m'].
  - change (write_members [(key, v)] k)
      with (write_string key (String ":" (write_value v (String "}" k)))).
    change (skip_ws (write_string key ?r)) with (write_string key r).
    rewrite read_write_string by exact Hkey.
    change (skip_ws (String ":" ?r)) with (String ":" r). cbv beta iota.
    rewrite Hv by (reflexivity || lia). reflexivity.
  - change (write_members ((key, v) :: kv' :: m') k)
      with (write_string key
              (String ":" (write_value v (String "," (write_members (kv' :: m') k))))).
    change (skip_ws (write_string key ?r)) with (write_string key r).
    rewrite read_write_string by exact Hkey.
    change (skip_ws (String ":" ?r)) with (String ":" r). cbv beta iota.
    rewrite Hv by (reflexivity || lia).
    change (skip_ws (String "," ?r)) with (String "," r). cbv beta iota.
    rewrite IH; [reflexivity | congruence | exact Hkeys' | exact Hm | lia].
Qed.

(** The order of the keys does not depend on the values. *)
Lemma filter_map_values {A B} (f : A -> B) (p : A -> bool) (q : B -> bool) (l : list A) :
  (forall a, q (f a) = p a) -> List.filter q (map f l) = map f (List.filter p l).
Proof.
  intros H. induction l as [|a l IH]; cbn; [reflexivity|].
  rewrite H, IH. destruct (p a); reflexivity.
Qed.

Lemma sort_insert_map_values {A B} (f : A -> B) (cA : A -> A -> Z) (cB : B -> B -> Z)
  (x : A) (l : list A) :
  (forall a b, cB (f a) (f b) = cA a b) ->
  sort_insert cB (f x) (map f l) = map f (sort_insert cA x l).
Proof.
  intros H. induction l as [|y l IH]; cbn; [reflexivity|].
  rewrite H, IH. destruct (0 <? cA x y); reflexivity.
Qed.

Lemma Array_sort_map_values {A B} (f : A -> B) (cA : A -> A -> Z) (cB : B -> B -> Z)
  (l : list A) :
  (forall a b, cB (f a) (f b) = cA a b) ->
  Array_sort cB (map f l) = map f (Array_sort cA l).
Proof.
  intros H. induction l as [|x l IH]; cbn; [reflexivity|].
  change (fold_right (sort_insert cB) [] (map f l)) with (Array_sort cB (map f l)).
  change (fold_right (sort_insert cA) [] l) with (Array_sort cA l).
  rewrite IH. now apply sort_insert_map_values.
Qed.

Lemma key_order_map_values {A B} (f : A -> B) (m : list (list N * A)) :
  key_order (map (fun kv => (fst kv, f (snd kv))) m)
  = map (fun kv => (fst kv, f (snd kv))) (key_order m).
Proof.
  unfold key_order. rewrite map_app.
  rewrite (filter_map_values (fun kv : list N * A => (fst kv, f (snd kv)))
             (fun kv => is_index_key (fst kv)) (fun kv => is_index_key (fst kv)))
    by reflexivity.
  rewrite (filter_map_values (fun kv : list N * A => (fst kv, f (snd kv)))
             (fun kv => negb (is_index_key (fst kv)))
             (fun kv => negb (is_index_key (fst kv))))
    by reflexivity.
  f_equal. now apply Array_sort_map_values.
Qed.

Lemma rewritten_arr (l : list JSValue) : rewritten (JArr l) = JArr (map rewritten l).
Proof. reflexivity. Qed.

Lemma rewritten_obj (m : list (list N * JSValue)) :
  rewritten (JObj m) = JObj (map (fun kv => (fst kv, rewritten (snd kv))) m).
Proof. reflexivity. Qed.

Lemma read_number_zero (k : string) :
  ends_number k = true -> read_number (String "0" k) = Some (Number_zero, k).
Proof.
  intros Hk. change (String "0" k) with (write_number Number_zero k).
  now apply read_write_number.
Qed.

(** Every value as [JSON.parse] builds it is read back from its text as
    [rewritten] has it. *)
Lemma parse_write_rewritten (v : JSValue) : canonical v -> reads_back_as v (rewritten v).
Proof.
  unfold canonical.
  induction v as [ |b|n| |i|s|l IH|m IH] using JSValue_induction;
    intros Hc fuel k Hfuel Hk.
  - destruct fuel; [cbn in Hfuel; lia | reflexivity].
  - destruct fuel; [cbn in Hfuel; lia | destruct b; reflexivity].
  - destruct fuel; [cbn in Hfuel; lia|].
    change (write_value (JNum n) k) with (write_number n k).
    cbn [rewritten]. unfold Number_rewritten.
    destruct (Number_overflows n) eqn:Ho;
      [unfold write_number; rewrite Ho; reflexivity|].
    destruct ((mant n <? 0) && Number_underflows n) eqn:Hz.
    + unfold write_number. rewrite Ho, Hz.
      rewrite parse_value_number, read_number_zero by (reflexivity || assumption).
      reflexivity.
    + assert (Number_kept n = true) as Hkept.
      { unfold Number_kept. now rewrite Ho, Hz. }
      destruct (write_number_head n k Hkept) as (c & r & Hw & Hc' & Hsign).
      rewrite Hw, parse_value_number, <- Hw, read_write_number by assumption.
      unfold Number_read. now rewrite Ho, Hsign.
  - destruct fuel; [cbn in Hfuel; lia|].
    change (write_value JNegZero k) with (String "0" k).
    rewrite parse_value_number, read_number_zero by (reflexivity || assumption).
    reflexivity.
  - destruct fuel; [cbn in Hfuel; lia | reflexivity].
  - destruct fuel; [cbn in Hfuel; lia|].
    apply deep_here in Hc. cbn in Hc.
    change (parse_value (S fuel) (write_value (JStr s) k))
      with (match read_units (write_units s (String (chr 34) k)) with
            | Some (t, r') => Some (JStr t, r')
            | None => None
            end).
    rewrite read_write_units by exact Hc. reflexivity.
  - rewrite cost_arr in Hfuel. destruct fuel as [|fuel]; [lia|].
    apply deep_arr in Hc as [_ Hc].
    rewrite write_value_arr, rewritten_arr. destruct l as [|v l]; [reflexivity|].
    set (rest := match l with
                 | [] => write_elements l k
                 | _ :: _ => String "," (write_elements l k)
                 end).
    destruct (write_value_head v rest) as (c & r & Hw & Hc').
    change (write_elements (v :: l) k) with (write_value v rest).
    rewrite Hw, parse_value_array, <- Hw by exact Hc'.
    change (write_value v rest) with (write_elements (v :: l) k).
    rewrite parse_write_elements; [reflexivity | congruence | | lia].
    rewrite Forall_forall in *. intros x Hx. apply IH; [exact Hx | apply Hc, Hx].
  - rewrite cost_obj in Hfuel. destruct fuel as [|fuel]; [lia|].
    apply deep_obj in Hc as [(Hkeys & Hnd & Hord) Hc].
    rewrite write_value_obj, rewritten_obj. destruct m as [|[key v] m]; [reflexivity|].
    change (write_members ((key, v) :: m) k)
      with (String (chr 34)
              (write_units key
                 (String (chr 34)
                    (String ":"
                       (write_value v
                          match m with
                          | [] => write_members m k
                          | _ :: _ => String "," (write_members m k)
                          end))))).
    rewrite parse_value_object.
    change (String (chr 34)
              (write_units key
                 (String (chr 34)
                    (String ":"
                       (write_value v
                          match m with
                          | [] => write_members m k
                          | _ :: _ => String "," (write_members m k)
                          end)))))
      with (write_members ((key, v) :: m) k).
    rewrite parse_write_members; [| congruence | exact Hkeys | | lia].
    + rewrite obj_of_members_distinct.
      * now rewrite (key_order_map_values rewritten), Hord.
      * rewrite map_map. exact Hnd.
    + rewrite Forall_forall in *. intros x Hx.
      apply IH; [exact Hx | apply Hc, Hx].
Qed.

(** A value with no infinity and no negative zero in it is read as it is. *)
Lemma rewritten_kept (v : JSValue) : kept_numbers v -> rewritten v = v.
Proof.
  unfold kept_numbers.
  induction v as [ |b|n| |i|s|l IH|m IH] using JSValue_induction; intros Hf;
    try reflexivity.
  - apply deep_here in Hf. cbn in Hf. apply Number_kept_cases in Hf as [Ho Hz].
    cbn [rewritten]. unfold Number_rewritten. now rewrite Ho, Hz.
  - apply deep_here in Hf. destruct Hf.
  - apply deep_here in Hf. destruct Hf.
  - apply deep_arr in Hf as [_ Hf]. rewrite rewritten_arr. f_equal.
    induction l as [|v l IHl]; [reflexivity|].
    inversion IH as [|? ? Hv Hl]; subst. inversion Hf as [|? ? Hfv Hfl]; subst.
    cbn [map]. now rewrite Hv, IHl.
  - apply deep_obj in Hf as [_ Hf]. rewrite rewritten_obj. f_equal.
    induction m as [|[key v] m IHm]; [reflexivity|].
    inversion IH as [|? ? Hv Hm]; subst. inversion Hf as [|? ? Hfv Hfm]; subst.
    cbn [map fst snd] in *. now rewrite Hv, IHm.
Qed.

(** *** Enough fuel: the length of the text *)

Lemma length_write_digits (d : Decimal.uint) (k : string) :
  String.length (write_digits d k) = (Decimal.nb_digits d + String.length k)%nat.
Proof. induction d; cbn; congruence. Qed.

Lemma length_write_N (n : N) (k : string) :
  (S (String.length k) <= String.length (write_digits (N.to_uint n) k))%nat.
Proof.
  rewrite length_write_digits. pose proof (N_to_uint_nonnil n) as H.
  destruct (N.to_uint n); [congruence| ..]; cbn; lia.
Qed.

Lemma length_write_int (z : Z) (k : string) :
  (S (String.length k) <= String.length (write_int z k))%nat.
Proof.
  destruct (write_int_shape z k) as (neg & n & -> & _).
  pose proof (length_write_N n k). destruct neg; cbn; lia.
Qed.

Lemma length_write_number (n : Number) (k : string) :
  (S (String.length k) <= String.length (write_number n k))%nat.
Proof.
  unfold write_number. destruct (Number_overflows n); [cbv [String.append]; cbn; lia|].
  destruct ((mant n <? 0) && Number_underflows n); [cbn; lia|].
  destruct (expo n =? 0).
  - apply length_write_int.
  - pose proof (length_write_int (mant n) (String "e" (write_int (expo n) k))).
    pose proof (length_write_int (expo n) k). cbn in *. lia.
Qed.

Lemma length_write_unit (n : N) (k : string) :
  (S (String.length k) <= String.length (write_unit n k))%nat.
Proof.
  unfold write_unit, write_hex4. destruct (short_escape n); [cbn; lia|].
  destruct ((n <? 32) || (255 <? n))%N; cbn; lia.
Qed.

Lemma length_write_units (s : list N) (k : string) :
  (String.length k <= String.length (write_units s k))%nat.
Proof.
  induction s as [|n s IH]; cbn [write_units]; [lia|].
  pose proof (length_write_unit n (write_units s k)). lia.
Qed.

Lemma length_write_string (s : list N) (k : string) :
  (S (String.length k) <= String.length (write_string s k))%nat.
Proof.
  unfold write_string. pose proof (length_write_units s (String (chr 34) k)).
  cbn in *. lia.
Qed.

Lemma cost_le_length (v : JSValue) :
  forall k : string, (cost v + String.length k <= String.length (write_value v k))%nat.
Proof.
  induction v as [ |b|n| |i|s|l IH|m IH] using JSValue_induction; intros k.
  - cbn [cost write_value]. cbv [String.append]. cbn. lia.
  - destruct b; cbn [cost write_value]; cbv [String.append]; cbn; lia.
  - pose proof (length_write_number n k). cbn [cost write_value] in *. lia.
  - cbn. lia.
  - cbn [cost write_value]. cbv [String.append]. cbn. lia.
  - pose proof (length_write_string s k). cbn [cost write_value]. lia.
  - rewrite cost_arr, write_value_arr. cbn [String.length].
    enough (cost_elements l + String.length k <= String.length (write_elements l k))%nat by lia.
    induction l as [|v l IHl]; [cbn; lia|].
    inversion IH as [|? ? Hv Hl]; subst. specialize (IHl Hl).
    cbn [cost_elements write_elements].
    destruct l as [|v' l'].
    + specialize (Hv (String "]" k)).
      change (write_elements [] k) with (String "]" k).
      cbn [String.length cost_elements] in *. lia.
    + specialize (Hv (String "," (write_elements (v' :: l') k))).
      cbn [String.length] in Hv. lia.
  - rewrite cost_obj, write_value_obj. cbn [String.length].
    enough (cost_members m + String.length k <= String.length (write_members m k))%nat by lia.
    induction m as [|[key v] m IHm]; [cbn; lia|].
    inversion IH as [|? ? Hv Hm]; subst. cbn [snd] in Hv. specialize (IHm Hm).
    cbn [cost_members write_members fst snd].
    destruct m as [|kv' m'].
    + specialize (Hv (String "}" k)).
      change (write_members [] k) with (String "}" k).
      pose proof (length_write_string key (String ":" (write_value v (String "}" k)))).
      cbn [String.length cost_members] in *. lia.
    + specialize (Hv (String "," (write_members (kv' :: m') k))).
      pose proof (length_write_string key
                    (String ":" (write_value v (String "," (write_members (kv' :: m') k))))).
      cbn [String.length] in *. lia.
Qed.

(** [JSON.parse (JSON.stringify v)], for a value as [JSON.parse] builds
    it: [v] with each infinity turned into [null] and each negative zero
    into zero. *)
Theorem JSON_parse_stringify_rewritten (v : JSValue) :
  canonical v -> JSON_parse (JSON_stringify v) = Some (rewritten v).
Proof.
  intros Hc. unfold JSON_parse, JSON_stringify.
  rewrite (parse_write_rewritten v Hc); [reflexivity | | reflexivity].
  pose proof (cost_le_length v EmptyString). lia.
Qed.

(** [JSON.parse (JSON.stringify v)] is [v], for a value as [JSON.parse]
    builds it that holds no infinity and no negative zero. *)
Theorem JSON_parse_stringify (v : JSValue) :
  canonical v -> kept_numbers v -> JSON_parse (JSON_stringify v) = Some v.
Proof.
  intros Hc Hf. now rewrite JSON_parse_stringify_rewritten, rewritten_kept.
Qed.

(** An infinity is read back as [null], and the negative zero as zero. *)
Lemma JSON_parse_stringify_changed (n : Number) (i : bool) :
  (Number_overflows n = true -> JSON_parse (JSON_stringify (JNum n)) = Some JNull)
  /\ JSON_parse (JSON_stringify (JInfinity i)) = Some JNull
  /\ JSON_parse (JSON_stringify JNegZero) = Some (JNum Number_zero).
Proof.
  split; [|split; reflexivity].
  intros H. unfold JSON_stringify. cbn [write_value]. unfold write_number. rewrite H.
  reflexivity.
Qed.

(** *** What [JSON.parse] returns is canonical *)

Lemma obj_set_keys (key : list N) (v : JSValue) (m : list (list N * JSValue)) :
  map fst (obj_set key v m)
  = if bool_decide (key ∈ map fst m) then map fst m else map fst m ++ [key].
Proof.
  induction m as [|[key' v'] m IH]; [reflexivity|].
  cbn. unfold units_eqb. destruct (decide (key' = key)) as [Hk|Hk].
  - rewrite (bool_decide_eq_true_2 _ Hk). subst key'.
    rewrite bool_decide_eq_true_2 by left. reflexivity.
  - rewrite (bool_decide_eq_false_2 _ Hk). cbn. rewrite IH.
    destruct (decide (key ∈ map fst m)) as [Hin|Hin].
    + rewrite (bool_decide_eq_true_2 _ Hin).
      rewrite bool_decide_eq_true_2 by (now right). reflexivity.
    + rewrite (bool_decide_eq_false_2 _ Hin).
      rewrite bool_decide_eq_false_2; [reflexivity|].
      intros Hin'. apply elem_of_cons in Hin' as [->|Hin']; [congruence | contradiction].
Qed.

Lemma obj_set_NoDup (key : list N) (v : JSValue) (m : list (list N * JSValue)) :
  NoDup (map fst m) -> NoDup (map fst (obj_set key v m)).
Proof.
  intros Hnd. rewrite obj_set_keys. case_bool_decide as Hin; [exact Hnd|].
  apply NoDup_app. split; [exact Hnd|]. split; [|apply NoDup_singleton].
  intros x Hx Hin'. apply list_elem_of_singleton in Hin'. now subst x.
Qed.

Lemma obj_set_Forall (P : list N * JSValue -> Prop) (key : list N) (v : JSValue)
  (m : list (list N * JSValue)) :
  (forall key' v', key' = key -> P (key', v') -> P (key', v)) ->
  P (key, v) -> Forall P m -> Forall P (obj_set key v m).
Proof.
  intros Hkey Hv. induction 1 as [|[key' v'] m Hx Hm IH]; cbn.
  - repeat constructor. exact Hv.
  - unfold units_eqb. case_bool_decide as Hk; constructor; eauto.
Qed.

(** The members of an object, once each is defined in turn. *)
Lemma obj_of_members_Forall (P Q : list N * JSValue -> Prop) (raw : list (list N * JSValue)) :
  (forall key v v', Q (key, v') -> P (key, v) -> Q (key, v)) ->
  (forall kv, P kv -> Q kv) ->
  Forall P raw -> Forall Q (obj_of_members raw).
Proof.
  intros Hswap Hpq Hraw. unfold obj_of_members.
  assert (Forall Q (@nil (list N * JSValue))) as Hacc by constructor.
  revert Hacc. generalize (@nil (list N * JSValue)) as acc.
  induction Hraw as [|[key v] raw Hv Hraw IH]; intros acc Hacc; [exact Hacc|].
  cbn [fold_left fst snd]. apply IH. apply obj_set_Forall; [| now apply Hpq | exact Hacc].
  intros key' v' -> Hq. eapply Hswap; [exact Hq | exact Hv].
Qed.

Lemma obj_of_members_NoDup (raw : list (list N * JSValue)) :
  NoDup (map fst (obj_of_members raw)).
Proof.
  unfold obj_of_members.
  assert (NoDup (map fst (@nil (list N * JSValue)))) as Hacc by constructor.
  revert Hacc. generalize (@nil (list N * JSValue)) as acc.
  induction raw as [|[key v] raw IH]; intros acc Hacc; [exact Hacc|].
  cbn [fold_left fst snd]. apply IH. now apply obj_set_NoDup.
Qed.

(** The object that [JSON.parse] builds from members that are canonical. *)
Lemma parsed_object_canonical (raw : list (list N * JSValue)) :
  Forall (fun kv => code_units (fst kv) /\ canonical (snd kv)) raw ->
  canonical (JObj (key_order (obj_of_members raw))).
Proof.
  intros Hraw. apply deep_obj.
  assert (Forall (fun kv => code_units (fst kv) /\ canonical (snd kv)) (obj_of_members raw))
    as Hall.
  { apply (obj_of_members_Forall
             (fun kv => code_units (fst kv) /\ canonical (snd kv))
             (fun kv => code_units (fst kv) /\ canonical (snd kv)) raw);
      [| tauto | exact Hraw].
    cbn. intros key v v' [Hk _] [_ Hv]. split; assumption. }
  assert (Forall (fun kv => code_units (fst kv) /\ canonical (snd kv))
                 (key_order (obj_of_members raw))) as Hall'.
  { now rewrite key_order_Permutation. }
  split; [split; [|split]|].
  - eapply Forall_impl; [exact Hall'|]. cbn. tauto.
  - rewrite key_order_Permutation. apply obj_of_members_NoDup.
  - apply key_order_twice.
  - eapply Forall_impl; [exact Hall'|]. cbn. tauto.
Qed.

Lemma hex_val_bound (c : ascii) (n : N) : hex_val c = Some n -> (n < 16)%N.
Proof. bits c; cbn; intros H; inversion H; reflexivity. Qed.

Lemma unicode_escape_bound (h1 h2 h3 h4 : ascii) (n : N) :
  unicode_escape h1 h2 h3 h4 = Some n -> (n < 65536)%N.
Proof.
  unfold unicode_escape.
  destruct (hex_val h1) as [a|] eqn:Ha; [|discriminate].
  destruct (hex_val h2) as [b|] eqn:Hb; [|discriminate].
  destruct (hex_val h3) as [c|] eqn:Hc; [|discriminate].
  destruct (hex_val h4) as [d|] eqn:Hd; [|discriminate].
  apply hex_val_bound in Ha, Hb, Hc, Hd. cbn. intros H. inversion H. lia.
Qed.

Lemma short_unescape_bound (c : ascii) (n : N) : short_unescape c = Some n -> (n < 65536)%N.
Proof. bits c; cbn; intros H; inversion H; reflexivity. Qed.

(** What is read between quotes is made of code units. *)
Lemma read_units_code_units (fuel : nat) :
  forall (s : string) (t : list N) (r : string),
    (String.length s <= fuel)%nat -> read_units s = Some (t, r) -> code_units t.
Proof.
  induction fuel as [|fuel IH]; intros s t r Hlen H.
  - destruct s; [discriminate H | cbn in Hlen; lia].
  - destruct s as [|c s]; [discriminate H|]. cbn [String.length] in Hlen.
    cbn [read_units] in H.
    destruct (code c =? 34)%N; [inversion H; constructor|].
    destruct (code c =? 92)%N.
    + destruct s as [|e s1]; [discriminate H|]. cbn [String.length] in Hlen.
      destruct (short_unescape e) as [n|] eqn:He.
      * destruct (read_units s1) as [[t' r']|] eqn:E; [|discriminate H].
        inversion H; subst. constructor; [eapply short_unescape_bound, He|].
        eapply (IH s1); [lia | exact E].
      * destruct (code e =? 117)%N; [|discriminate H].
        destruct s1 as [|h1 [|h2 [|h3 [|h4 s2]]]]; try discriminate H.
        cbn [String.length] in Hlen.
        destruct (unicode_escape h1 h2 h3 h4) as [n|] eqn:Hu; [|discriminate H].
        destruct (read_units s2) as [[t' r']|] eqn:E; [|discriminate H].
        inversion H; subst. constructor; [eapply unicode_escape_bound, Hu|].
        eapply (IH s2); [lia | exact E].
    + destruct (code c <? 32)%N; [discriminate H|].
      destruct (read_units s) as [[t' r']|] eqn:E; [|discriminate H].
      inversion H; subst. constructor.
      * unfold code. pose proof (N_ascii_bounded c). lia.
      * eapply (IH s); [lia | exact E].
Qed.

Lemma read_string_code_units (s : string) (t : list N) (r : string) :
  read_string s = Some (t, r) -> code_units t.
Proof.
  destruct s as [|c s]; [discriminate|]. cbn.
  destruct (code c =? 34)%N; [|discriminate].
  apply (read_units_code_units (String.length s)). lia.
Qed.

Lemma parse_canonical_fuel (fuel : nat) :
  (forall s v r, parse_value fuel s = Some (v, r) -> canonical v)
  /\ (forall s l r, parse_elements fuel s = Some (l, r) -> Forall canonical l)
  /\ (forall s m r, parse_members fuel s = Some (m, r) ->
        Forall (fun kv => code_units (fst kv) /\ canonical (snd kv)) m).
Proof.
  induction fuel as [|fuel (IHv & IHl & IHm)]; [repeat split; discriminate|].
  assert (forall s v r, parse_value (S fuel) s = Some (v, r) -> canonical v) as Hv.
  { intros s v r H. cbn [parse_value] in H.
    destruct (skip_ws s) as [|c s1]; [discriminate|].
    destruct (code c =? 110)%N.
    { destruct (read_keyword "ull" s1); inversion H; split; exact I. }
    destruct (code c =? 116)%N.
    { destruct (read_keyword "rue" s1); inversion H; split; exact I. }
    destruct (code c =? 102)%N.
    { destruct (read_keyword "alse" s1); inversion H; split; exact I. }
    destruct (code c =? 34)%N.
    { destruct (read_units s1) as [[t r']|] eqn:E; inversion H; subst.
      split; [|exact I]. cbn. eapply (read_units_code_units (String.length s1)), E. lia. }
    destruct (code c =? 91)%N.
    { assert (v = JArr [] \/ exists l, parse_elements fuel s1 = Some (l, r) /\ v = JArr l)
        as [->|(l & Hl & ->)].
      { destruct (skip_ws s1) as [|c' s2].
        - destruct (parse_elements fuel s1) as [[l r']|]; inversion H; eauto.
        - bits c'; try (inversion H; now left);
            (destruct (parse_elements fuel s1) as [[l r']|]; inversion H; eauto). }
      - split; exact I.
      - apply deep_arr. split; [exact I|]. eapply IHl, Hl. }
    destruct (code c =? 123)%N.
    { assert (v = JObj []
              \/ exists m, parse_members fuel s1 = Some (m, r)
                           /\ v = JObj (key_order (obj_of_members m)))
        as [->|(m & Hm & ->)].
      { destruct (skip_ws s1) as [|c' s2].
        - destruct (parse_members fuel s1) as [[m r']|]; inversion H; eauto.
        - bits c'; try (inversion H; now left);
            (destruct (parse_members fuel s1) as [[m r']|]; inversion H; eauto). }
      - split; [|exact I]. cbn. repeat split; constructor.
      - eapply parsed_object_canonical, IHm, Hm. }
    destruct (starts_number c); [|discriminate].
    destruct (read_number (String c s1)) as [[n r']|]; inversion H.
    unfold Number_read. destruct (Number_overflows n); [split; exact I|].
    destruct ((code c =? 45)%N && Number_underflows n); split; exact I. }
  split; [exact Hv|]. split.
  - intros s l r H. rewrite parse_elements_step in H.
    destruct (parse_value fuel s) as [[v r0]|] eqn:Ev; [|discriminate].
    apply IHv in Ev.
    destruct (skip_ws r0) as [|c r1]; [discriminate|].
    bits c; try discriminate H.
    + inversion H; subst. constructor; [exact Ev | constructor].
    + destruct (parse_elements fuel r1) as [[l' r2]|] eqn:El; inversion H; subst.
      constructor; [exact Ev | eapply IHl, El].
  - intros s m r H. rewrite parse_members_step in H.
    destruct (read_string (skip_ws s)) as [[key r0]|] eqn:Ek; [|discriminate].
    apply read_string_code_units in Ek.
    destruct (skip_ws r0) as [|c r1]; [discriminate|].
    bits c; try discriminate H.
    destruct (parse_value fuel r1) as [[v r2]|] eqn:Ev; [|discriminate].
    apply IHv in Ev.
    destruct (skip_ws r2) as [|c r3]; [discriminate|].
    bits c; try discriminate H.
    + inversion H; subst. constructor; [split; [exact Ek | exact Ev] | constructor].
    + destruct (parse_members fuel r3) as [[m' r4]|] eqn:Em; inversion H; subst.
      constructor; [split; [exact Ek | exact Ev] | eapply IHm, Em].
Qed.

(** What [JSON.parse] returns is canonical. *)
Theorem JSON_parse_canonical (s : string) (v : JSValue) :
  JSON_parse s = Some v -> canonical v.
Proof.
  unfold JSON_parse. intros H.
  destruct (parse_value (String.length s) s) as [[v' r]|] eqn:E; [|discriminate].
  destruct (skip_ws r); inversion H; subst.
  eapply (parse_canonical_fuel (String.length s)), E.
Qed.

End Json.

(** ** Saving to the offline queue *)

Section QueueAppend.
Import Js Eff Supabase Runtime OfflineStorage.

Lemma getOfflineReports_canonical (ls : gmap string string) (v : JSValue) :
  outcome getOfflineReports ls = Normal v -> canonical v.
Proof.
  unfold outcome. rewrite getOfflineReports_run. cbn [fst]. intros H.
  injection H as <-.
  destruct (ls !! OFFLINE_REPORTS_KEY) as [text|]; [|split; exact I].
  destruct (truthy text); [|split; exact I].
  destruct (JSON_parse text) as [v|] eqn:E; [|split; exact I].
  eapply JSON_parse_canonical, E.
Qed.

Lemma OfflineReport_value_canonical (r : OfflineReport) :
  canonical (OfflineReport_value r).
Proof.
  unfold OfflineReport_value, JText. apply deep_obj. split.
  - split; [|split].
    + destruct (user_id r), (feedback r); cbn [optional_member app];
        repeat constructor; apply units_of_code_units.
    + destruct (user_id r), (feedback r);
        apply (bool_decide_unpack _); vm_compute; reflexivity.
    + apply key_order_named.
      destruct (user_id r), (feedback r); cbn [optional_member app];
        repeat constructor.
  - destruct (user_id r), (feedback r); cbn [optional_member app];
      repeat constructor; cbn; try apply units_of_code_units.
Qed.

(** The numbers of a report are its two coordinates. *)
Lemma OfflineReport_value_kept (r : OfflineReport) :
  kept_numbers (OfflineReport_value r)
  <-> Number_kept (latitude r) = true /\ Number_kept (longitude r) = true.
Proof.
  unfold kept_numbers, OfflineReport_value, JText.
  destruct (user_id r), (feedback r); cbn; tauto.
Qed.

(** With a list in the queue, [saveOfflineReport] writes the longer list
    when the browser takes it, and nothing when it does not. *)
Lemma saveOfflineReport_run (quota : Quota) (ls : gmap string string)
  (existing : list JSValue) (r : OfflineReport) :
  outcome getOfflineReports ls = Normal (JArr existing) ->
  let text := JSON_stringify (JArr (existing ++ [OfflineReport_value r])) in
  saveOfflineReport quota r ls
  = (Normal tt,
     if quota ls OFFLINE_REPORTS_KEY text then <[OFFLINE_REPORTS_KEY := text]> ls else ls).
Proof.
  intros H text. subst text. unfold saveOfflineReport, try_catch, bind.
  pose proof (getOfflineReports_run ls) as Hrun.
  unfold outcome in H. destruct (getOfflineReports ls) as [c ls'].
  cbn [fst] in H. subst c. injection Hrun as _ ->. cbn. unfold setItem.
  destruct (quota ls OFFLINE_REPORTS_KEY _); reflexivity.
Qed.

(** Saving, then reading: the list that was there, and the new object. *)
Lemma saveOfflineReport_then_get (quota : Quota) (ls : gmap string string)
  (existing : list JSValue) (r : OfflineReport) :
  outcome getOfflineReports ls = Normal (JArr existing) ->
  kept_numbers (JArr existing) -> kept_numbers (OfflineReport_value r) ->
  quota ls OFFLINE_REPORTS_KEY
    (JSON_stringify (JArr (existing ++ [OfflineReport_value r]))) = true ->
  outcome getOfflineReports (exec (saveOfflineReport quota r) ls)
  = Normal (JArr (existing ++ [OfflineReport_value r])).
Proof.
  intros H Hfin Hr Hq. unfold outcome, exec.
  rewrite (saveOfflineReport_run quota ls existing r H). cbv zeta. rewrite Hq.
  cbn [snd]. rewrite getOfflineReports_run, lookup_insert_eq. cbn [fst].
  rewrite JSON_parse_stringify.
  - unfold JSON_stringify. rewrite write_value_arr. reflexivity.
  - apply deep_arr. split; [exact I|]. apply Forall_app. split.
    + apply (deep_arr node_canonical). eapply getOfflineReports_canonical, H.
    + constructor; [apply OfflineReport_value_canonical | constructor].
  - apply deep_arr. split; [exact I|]. apply Forall_app. split.
    + apply (deep_arr node_kept), Hfin.
    + constructor; [exact Hr | constructor].
Qed.

(** The same whatever numbers the list holds: an infinity in it is read as
    [null] afterwards, and a negative zero as zero. *)
Lemma saveOfflineReport_then_get_rewritten (quota : Quota) (ls : gmap string string)
  (existing : list JSValue) (r : OfflineReport) :
  outcome getOfflineReports ls = Normal (JArr existing) ->
  quota ls OFFLINE_REPORTS_KEY
    (JSON_stringify (JArr (existing ++ [OfflineReport_value r]))) = true ->
  outcome getOfflineReports (exec (saveOfflineReport quota r) ls)
  = Normal (JArr (map rewritten existing ++ [rewritten (OfflineReport_value r)])).
Proof.
  intros H Hq. unfold outcome, exec.
  rewrite (saveOfflineReport_run quota ls existing r H). cbv zeta. rewrite Hq.
  cbn [snd]. rewrite getOfflineReports_run, lookup_insert_eq. cbn [fst].
  rewrite JSON_parse_stringify_rewritten.
  - unfold JSON_stringify. rewrite write_value_arr, rewritten_arr, map_app. reflexivity.
  - apply deep_arr. split; [exact I|]. apply Forall_app. split.
    + apply (deep_arr node_canonical). eapply getOfflineReports_canonical, H.
    + constructor; [apply OfflineReport_value_canonical | constructor].
Qed.

(** Saving always returns, whatever the storage holds. *)
Lemma saveOfflineReport_cases (quota : Quota) (r : OfflineReport) (ls : gmap string string)
  (v : JSValue) :
  outcome getOfflineReports ls = Normal v ->
  let write (l : list JSValue) :=
    let text := JSON_stringify (JArr (l ++ [OfflineReport_value r])) in
    if quota ls OFFLINE_REPORTS_KEY text then <[OFFLINE_REPORTS_KEY := text]> ls else ls in
  saveOfflineReport quota r ls
  = match v with
    | JArr l => (Normal tt, write l)
    | JStr s => (Normal tt, write (map JStr (code_points s)))
    | _ => (Normal tt, ls)
    end.
Proof.
  intros H write. subst write. unfold saveOfflineReport, try_catch, bind.
  pose proof (getOfflineReports_run ls) as Hrun.
  unfold outcome in H. destruct (getOfflineReports ls) as [c ls'].
  cbn [fst] in H. subst c. injection Hrun as _ ->.
  destruct v; try reflexivity; cbn; unfold setItem;
    match goal with |- context [quota ?a ?b ?c] => destruct (quota a b c) end; reflexivity.
Qed.

(** A write that the browser refuses leaves the storage as it was. *)
Lemma saveOfflineReport_refused (quota : Quota) (ls : gmap string string)
  (existing : list JSValue) (r : OfflineReport) :
  outcome getOfflineReports ls = Normal (JArr existing) ->
  quota ls OFFLINE_REPORTS_KEY
    (JSON_stringify (JArr (existing ++ [OfflineReport_value r]))) = false ->
  exec (saveOfflineReport quota r) ls = ls.
Proof.
  intros H Hq. unfold exec. rewrite (saveOfflineReport_run quota ls existing r H).
  cbv zeta. rewrite Hq. reflexivity.
Qed.


End QueueAppend.



(** ** The classifier *)

Section Classifier.
Import Js Eff Supabase AiAnalysis.
Local Open Scope Q_scope.

(** One call: two draws, and the result they give. *)
Lemma analyzeAnimalImage_run (imageFile : File) (g : RandomSource) :
  analyzeAnimalImage imageFile g
  = (Normal {| animalType := index animalTypes (Qfloor (draw g (drawn g) * 17));
               confidence :=
                 inject_Z (Qfloor ((draw g (S (drawn g)) * (3 # 10) + (7 # 10)) * 100 + (1 # 2)))
                 / 100 |},
     mkRandomSource (draw g) (S (S (drawn g)))).
Proof. reflexivity. Qed.

Lemma Qfloor_bounds (x : Q) (lo hi : Z) :
  inject_Z lo <= x -> x < inject_Z hi + 1 -> (lo <= Qfloor x <= hi)%Z.
Proof.
  intros Hlo Hhi. split.
  - rewrite <- (Qfloor_Z lo). now apply Qfloor_resp_le.
  - pose proof (Qfloor_le x) as Hf.
    assert (inject_Z (Qfloor x) < inject_Z (hi + 1)) as Hlt.
    { rewrite inject_Z_plus. eapply Qle_lt_trans; [exact Hf | exact Hhi]. }
    rewrite <- Zlt_Qlt in Hlt. lia.
Qed.

Lemma index_in_range {A} (a : list A) (i : Z) :
  (0 <= i < Z.of_nat (length a))%Z -> exists x, index a i = Some x /\ In x a.
Proof.
  intros Hi. unfold index. destruct (Z.ltb_spec i 0); [lia|].
  destruct (lookup_lt_is_Some_2 a (Z.to_nat i)) as [x Hx]; [lia|].
  exists x. split; [exact Hx|]. apply list_elem_of_In. eapply list_elem_of_lookup_2, Hx.
Qed.

(** C9. When the two draws of [Math.random] lie in [0, 1), the result's
    animalType is one of the 17 entries of [animalTypes], and its confidence
    is k / 100 for an integer k between 70 and 100, so a multiple of 0.01
    between 0.7 and 1.0. *)
Theorem C9_analysis_in_range (imageFile : File) (g : RandomSource) :
  0 <= draw g (drawn g) -> draw g (drawn g) < 1 ->
  0 <= draw g (S (drawn g)) -> draw g (S (drawn g)) < 1 ->
  length animalTypes = 17%nat
  /\ exists (a : string) (k : Z),
      outcome (analyzeAnimalImage imageFile) g
      = Normal {| animalType := Some a; confidence := inject_Z k / 100 |}
      /\ In a animalTypes
      /\ (70 <= k <= 100)%Z
      /\ 7 # 10 <= inject_Z k / 100 /\ inject_Z k / 100 <= 1.
Proof.
  intros H1 H1' H2 H2'. split; [reflexivity|].
  unfold outcome. rewrite analyzeAnimalImage_run. cbn [fst].
  destruct (index_in_range animalTypes (Qfloor (draw g (drawn g) * 17))) as (a & Ha & Hin).
  { change (Z.of_nat (length animalTypes)) with (16 + 1)%Z.
    enough (0 <= Qfloor (draw g (drawn g) * 17) <= 16)%Z by lia.
    apply Qfloor_bounds; unfold inject_Z; lra. }
  exists a, (Qfloor ((draw g (S (drawn g)) * (3 # 10) + (7 # 10)) * 100 + (1 # 2))).
  rewrite Ha. split; [reflexivity|]. split; [exact Hin|].
  assert (70 <= Qfloor ((draw g (S (drawn g)) * (3 # 10) + (7 # 10)) * 100 + (1 # 2)) <= 100)%Z
    as Hk by (apply Qfloor_bounds; unfold inject_Z; lra).
  split; [exact Hk|].
  destruct Hk as [Hlo Hhi]. rewrite Zle_Qle in Hlo, Hhi.
  unfold inject_Z at 1 in Hlo. unfold inject_Z at 2 in Hhi.
  unfold Qdiv. change (/ 100) with (1 # 100). split; lra.
Qed.

Lemma C9_analysis_in_range_witness :
  exists (a : string) (k : Z),
    outcome (analyzeAnimalImage Samples.photo) Samples.rng
    = Normal {| animalType := Some a; confidence := inject_Z k / 100 |}
    /\ In a animalTypes /\ (70 <= k <= 100)%Z.
Proof.
  assert (0 <= draw Samples.rng (drawn Samples.rng)) as H1 by (vm_compute; discriminate).
  assert (draw Samples.rng (drawn Samples.rng) < 1) as H2 by reflexivity.
  assert (0 <= draw Samples.rng (S (drawn Samples.rng))) as H3 by (vm_compute; discriminate).
  assert (draw Samples.rng (S (drawn Samples.rng)) < 1) as H4 by reflexivity.
  destruct (C9_analysis_in_range Samples.photo Samples.rng H1 H2 H3 H4)
    as (_ & a & k & Hrun & Hin & Hk & _).
  exists a, k. repeat split; tauto.
Defined.

(** C1, as the claim states it, fails: two calls in a row on the same file,
    with draws that [Math.random] may well give, return different animals
    and different confidences. *)
Lemma C1_counterexample_two_calls_differ :
  (forall n : nat, 0 <= Samples.draws n /\ Samples.draws n < 1)
  /\ outcome (analyzeAnimalImage Samples.photo) Samples.rng
     = Normal {| animalType := Some "Hippopotamus"; confidence := 80 # 100 |}
  /\ outcome (analyzeAnimalImage Samples.photo)
       (exec (analyzeAnimalImage Samples.photo) Samples.rng)
     = Normal {| animalType := Some "Bird"; confidence := 70 # 100 |}
  /\ ~ (forall (imageFile : File) (g : RandomSource),
          outcome (analyzeAnimalImage imageFile) g
          = outcome (analyzeAnimalImage imageFile) (exec (analyzeAnimalImage imageFile) g)).
Proof.
  split.
  { intros [|[|[|n]]]; split; vm_compute; congruence. }
  split; [reflexivity|]. split; [reflexivity|].
  intros H. specialize (H Samples.photo Samples.rng). discriminate H.
Qed.

(** C1, as the code has it. The result depends on the two draws of
    [Math.random] and on nothing else: two calls, on any two files, whose
    draws are equal return the same result. *)
Theorem C1_result_determined_by_draws (imageFile imageFile' : File) (g g' : RandomSource) :
  draw g (drawn g) == draw g' (drawn g') ->
  draw g (S (drawn g)) == draw g' (S (drawn g')) ->
  outcome (analyzeAnimalImage imageFile) g = outcome (analyzeAnimalImage imageFile') g'.
Proof.
  intros H1 H2. unfold outcome. rewrite !analyzeAnimalImage_run. cbn [fst].
  rewrite H1, H2. reflexivity.
Qed.

Lemma C1_result_determined_by_draws_witness :
  outcome (analyzeAnimalImage Samples.photo) Samples.rng
  = outcome (analyzeAnimalImage (mkFile "lion.png" "image/png" "PNG"))
      Samples.rng_later.
Proof.
  apply C1_result_determined_by_draws; reflexivity.
Defined.

(** The second classifier is random as well: the text it returns carries a
    drawn percentage. *)
Lemma UserTypeSelection_classifier_two_calls_differ :
  outcome (UserTypeSelection.analyzeAnimalImage Samples.photo) Samples.rng
  = Normal "Zebra (96%)"
  /\ outcome (UserTypeSelection.analyzeAnimalImage Samples.photo)
       (exec (UserTypeSelection.analyzeAnimalImage Samples.photo) Samples.rng)
     = Normal "Zebra (95%)".
Proof. split; reflexivity. Qed.

End Classifier.

(** ** Submitting a report *)

Section Submit.
Import Js Eff Supabase Runtime ReportGenerator ReportGeneration.

Lemma saveOfflineReport_returns (quota : OfflineStorage.Quota)
  (r : OfflineStorage.OfflineReport) (ls : gmap string string) :
  outcome (OfflineStorage.saveOfflineReport quota r) ls = Normal tt.
Proof.
  unfold outcome, OfflineStorage.saveOfflineReport, try_catch, bind.
  rewrite getOfflineReports_run.
  match goal with |- context [OfflineStorage.spread ?v ls] => destruct v end;
    try reflexivity; cbn; unfold OfflineStorage.setItem;
    match goal with |- context [quota ?a ?b ?c] => destruct (quota a b c) end; reflexivity.
Qed.

(** Without a location nothing happens but the message. *)
Lemma submitReport_no_location (env : Env) (p : Props) (user : option User) (s : Sys State) :
  location (ui s) = None ->
  submitReport env p user s
  = (Normal tt, mkSys (setError "Location is required" (ui s)) (world s)).
Proof. intros H. unfold submitReport, bind, gets. cbn. rewrite H. reflexivity. Qed.

(** On line, upload and insert accepted. *)
Lemma submitReport_online_run (env : Env) (p : Props) (user : option User) (s : Sys State)
  (loc : Location) :
  location (ui s) = Some loc -> onLine env = true ->
  let newReport := createReport env p user (ui s) in
  let fileName := upload_name env (id newReport) in
  let stored := with_image_url newReport (getPublicUrl (answers env) fileName) in
  upload_error (answers env) fileName (imageFile p) = None ->
  insert_error (answers env) stored = None ->
  submitReport env p user s
  = (Normal tt,
     mkSys (setSubmitting false
              (setReport (Some stored) (setError EmptyString (setSubmitting true (ui s)))))
           (mkWorld (localStorage (world s))
                    (mkBackend (reports_table (backend (world s)) ++ [stored])
                               (wildlife_images (backend (world s)) ++ [(fileName, imageFile p)]))
                    (downloads (world s) ++ [report_pdf env stored (imageDataUrl p)])
                    (calls (world s)
                       ++ [CallUpload fileName (imageFile p); CallInsert stored;
                           CallPdfSave (pdf_fileName (report_pdf env stored (imageDataUrl p)));
                           CallOnComplete]))).
Proof.
  intros Hloc Hon newReport fileName stored Hup Hins.
  unfold submitReport, bind, gets, try_catch, set_state, modify, in_world, zoom, uploadImage,
    with_backend, storage_upload, insert_report, generateReportPDF, log, save_download,
    ret, throw, bind.
  subst newReport fileName stored.
  destruct s as [[an sub at_ loc0 err rep] w]. cbn in Hloc. subst loc0.
  cbn in Hup, Hins |- *. rewrite Hon. cbn.
  rewrite Hup. cbn. rewrite Hins. cbn.
  rewrite <- !app_assoc. reflexivity.
Qed.

(** On line, the upload refused: nothing is inserted and no PDF is made. *)
Lemma submitReport_upload_refused (env : Env) (p : Props) (user : option User) (s : Sys State)
  (loc : Location) (e : JsError) :
  location (ui s) = Some loc -> onLine env = true ->
  let newReport := createReport env p user (ui s) in
  let fileName := upload_name env (id newReport) in
  upload_error (answers env) fileName (imageFile p) = Some e ->
  submitReport env p user s
  = (Normal tt,
     mkSys (setSubmitting false
              (setError (or_else (err_message e) "Failed to submit report")
                 (setError EmptyString (setSubmitting true (ui s)))))
           (mkWorld (localStorage (world s)) (backend (world s)) (downloads (world s))
                    (calls (world s) ++ [CallUpload fileName (imageFile p)]))).
Proof.
  intros Hloc Hon newReport fileName Hup.
  unfold submitReport, bind, gets, try_catch, set_state, modify, in_world, zoom, uploadImage,
    with_backend, storage_upload, insert_report, generateReportPDF, log, save_download,
    ret, throw, bind.
  subst newReport fileName.
  destruct s as [[an sub at_ loc0 err rep] [ls b dl cl]]. cbn in Hloc. subst loc0.
  cbn in Hup |- *. rewrite Hon. cbn. rewrite Hup. destruct b. reflexivity.
Qed.

(** On line, the upload accepted and the row refused: the file is stored,
    nothing is inserted and no PDF is made. *)
Lemma submitReport_insert_refused (env : Env) (p : Props) (user : option User) (s : Sys State)
  (loc : Location) (e : JsError) :
  location (ui s) = Some loc -> onLine env = true ->
  let newReport := createReport env p user (ui s) in
  let fileName := upload_name env (id newReport) in
  let stored := with_image_url newReport (getPublicUrl (answers env) fileName) in
  upload_error (answers env) fileName (imageFile p) = None ->
  insert_error (answers env) stored = Some e ->
  submitReport env p user s
  = (Normal tt,
     mkSys (setSubmitting false
              (setError (or_else (err_message e) "Failed to submit report")
                 (setError EmptyString (setSubmitting true (ui s)))))
           (mkWorld (localStorage (world s))
                    (mkBackend (reports_table (backend (world s)))
                               (wildlife_images (backend (world s)) ++ [(fileName, imageFile p)]))
                    (downloads (world s))
                    (calls (world s) ++ [CallUpload fileName (imageFile p); CallInsert stored]))).
Proof.
  intros Hloc Hon newReport fileName stored Hup Hins.
  unfold submitReport, bind, gets, try_catch, set_state, modify, in_world, zoom, uploadImage,
    with_backend, storage_upload, insert_report, generateReportPDF, log, save_download,
    ret, throw, bind.
  subst newReport fileName stored.
  destruct s as [[an sub at_ loc0 err rep] w]. cbn in Hloc. subst loc0.
  cbn in Hup, Hins |- *. rewrite Hon. cbn.
  rewrite Hup. cbn. rewrite Hins. cbn.
  rewrite <- !app_assoc. reflexivity.
Qed.

(** Off line: the copy goes to [saveOfflineReport], the backend is not
    called, and the PDF is made. *)
Lemma submitReport_offline_run (env : Env) (p : Props) (user : option User) (s : Sys State)
  (loc : Location) :
  location (ui s) = Some loc -> onLine env = false ->
  let newReport := createReport env p user (ui s) in
  submitReport env p user s
  = (Normal tt,
     mkSys (setSubmitting false
              (setReport (Some newReport) (setError EmptyString (setSubmitting true (ui s)))))
           (mkWorld (exec (OfflineStorage.saveOfflineReport (setItem_accepts env)
                             (offline_copy p newReport))
                          (localStorage (world s)))
                    (backend (world s))
                    (downloads (world s) ++ [report_pdf env newReport (imageDataUrl p)])
                    (calls (world s)
                       ++ [CallPdfSave (pdf_fileName (report_pdf env newReport (imageDataUrl p)));
                           CallOnComplete]))).
Proof.
  intros Hloc Hoff newReport.
  pose proof (saveOfflineReport_returns (setItem_accepts env) (offline_copy p newReport)
                (localStorage (world s))) as Hret.
  unfold outcome in Hret. unfold exec.
  destruct (OfflineStorage.saveOfflineReport (setItem_accepts env) (offline_copy p newReport)
              (localStorage (world s))) as [c ls'] eqn:Esave.
  cbn [fst snd] in *. subst c.
  unfold submitReport, generateReportPDF, in_world, with_storage, zoom, bind, gets, try_catch,
    set_state, log, save_download, modify, ret.
  subst newReport.
  destruct s as [[an sub at_ loc0 err rep] w]. cbn in Hloc. subst loc0.
  cbn [ui world location] in *. rewrite Hoff. cbn [ui world].
  rewrite Esave. cbn. rewrite <- !app_assoc. reflexivity.
Qed.

Lemma Number_or_zero_value (n : Number) :
  (Number_value (Number_or_zero n) == Number_value n)%Q.
Proof.
  unfold Number_or_zero, Number_truthy.
  destruct (Z.eqb_spec (mant n) 0) as [H|H]; cbn [negb]; [|reflexivity].
  unfold Number_value. rewrite H. cbn [Number_zero mant expo].
  rewrite !Qmult_0_l. reflexivity.
Qed.

(** C6, as the code has it. With a location set and the browser on line,
    when the backend accepts both the upload of the photo and the new row,
    [submitReport] adds to the reports table one row that carries the
    animal classification of the page, the latitude and longitude of the
    location, status pending and the public URL of the uploaded photo; the
    photo is in the bucket; and after the insert the PDF of that row is
    made and saved, and the page is told the flow is complete. *)
Theorem C6_submit_online_persists_then_pdf (env : Env) (p : Props) (user : option User)
  (s : Sys State) (loc : Location) :
  location (ui s) = Some loc -> onLine env = true ->
  let newReport := createReport env p user (ui s) in
  let fileName := upload_name env (id newReport) in
  let stored := with_image_url newReport (getPublicUrl (answers env) fileName) in
  upload_error (answers env) fileName (imageFile p) = None ->
  insert_error (answers env) stored = None ->
  let after := exec (submitReport env p user) s in
  reports_table (backend (world after)) = reports_table (backend (world s)) ++ [stored]
  /\ animal_type stored = animalType (ui s)
  /\ (Number_value (latitude stored) == Number_value (loc_latitude loc))%Q
  /\ (Number_value (longitude stored) == Number_value (loc_longitude loc))%Q
  /\ status stored = "pending"
  /\ image_url stored = getPublicUrl (answers env) fileName
  /\ wildlife_images (backend (world after))
     = wildlife_images (backend (world s)) ++ [(fileName, imageFile p)]
  /\ downloads (world after)
     = downloads (world s) ++ [report_pdf env stored (imageDataUrl p)]
  /\ calls (world after)
     = calls (world s)
       ++ [CallUpload fileName (imageFile p); CallInsert stored;
           CallPdfSave (pdf_fileName (report_pdf env stored (imageDataUrl p)));
           CallOnComplete]
  /\ localStorage (world after) = localStorage (world s)
  /\ report (ui after) = Some stored
  /\ error (ui after) = EmptyString
  /\ submitting (ui after) = false.
Proof.
  intros Hloc Hon newReport fileName stored Hup Hins after.
  subst after. unfold exec.
  rewrite (submitReport_online_run env p user s loc Hloc Hon Hup Hins).
  cbn [snd world ui backend reports_table wildlife_images downloads calls localStorage].
  fold newReport. fold fileName. fold stored.
  repeat split.
  - subst stored newReport. cbn. rewrite Hloc. apply Number_or_zero_value.
  - subst stored newReport. cbn. rewrite Hloc. apply Number_or_zero_value.
Qed.

Lemma C6_submit_online_persists_then_pdf_witness :
  reports_table (backend (world
    (exec (submitReport (Samples.env true Samples.answers_ok) Samples.props None) Samples.ready)))
  = [ mkReport "3f0c2a9e-58d1-4a9b-9d5e-0c1b2a3d4e5f" None "Zebra"
        ("https://project.supabase.co/storage/v1/object/public/wildlife-images/"
         +:+ "3f0c2a9e-58d1-4a9b-9d5e-0c1b2a3d4e5f-1754668958000.jpg")
        (mkNumber (-12921) (-4)) (mkNumber 368219 (-4)) "pending" None
        "2025-08-08T16:02:38.000Z" "2025-08-08T16:02:38.000Z" ].
Proof.
  destruct (C6_submit_online_persists_then_pdf
              (Samples.env true Samples.answers_ok) Samples.props None Samples.ready
              Samples.nairobi eq_refl eq_refl eq_refl eq_refl) as (Htable & _).
  exact Htable.
Defined.

(** C6, as the claim states it, fails. On line and with a location, a
    refused upload leaves the table as it was and makes no PDF; so does a
    refused row, after the photo has been stored. *)
Lemma C6_counterexample_backend_refuses :
  location (ui Samples.ready) = Some Samples.nairobi
  /\ onLine (Samples.env true Samples.answers_no_upload) = true
  /\ exec (submitReport (Samples.env true Samples.answers_no_upload) Samples.props None)
          Samples.ready
     = mkSys (mkState false false "Zebra" (Some Samples.nairobi)
                      "new row violates row-level security policy" None)
             (mkWorld ∅ (mkBackend [] []) []
                      [CallUpload "3f0c2a9e-58d1-4a9b-9d5e-0c1b2a3d4e5f-1754668958000.jpg"
                                  Samples.photo])
  /\ reports_table (backend (world
        (exec (submitReport (Samples.env true Samples.answers_no_insert) Samples.props None)
              Samples.ready))) = []
  /\ downloads (world
        (exec (submitReport (Samples.env true Samples.answers_no_insert) Samples.props None)
              Samples.ready)) = []
  /\ ~ (forall (env : Env) (p : Props) (user : option User) (s : Sys State) (loc : Location),
          location (ui s) = Some loc -> onLine env = true ->
          exists r : Report,
            reports_table (backend (world (exec (submitReport env p user) s)))
            = reports_table (backend (world s)) ++ [r]
            /\ downloads (world (exec (submitReport env p user) s))
               = downloads (world s) ++ [report_pdf env r (imageDataUrl p)]).
Proof.
  split; [reflexivity|]. split; [reflexivity|]. split; [reflexivity|].
  split; [reflexivity|]. split; [reflexivity|].
  intros H.
  destruct (H (Samples.env true Samples.answers_no_upload) Samples.props None Samples.ready
              Samples.nairobi eq_refl eq_refl) as (r & Htable & _).
  apply (f_equal (@length Report)) in Htable. rewrite length_app in Htable.
  cbn in Htable. lia.
Qed.

(** The copy for the queue holds no infinity and no negative zero when the
    location holds none. *)
Lemma offline_copy_kept (env : Env) (p : Props) (user : option User) (st : State)
  (loc : Location) :
  location st = Some loc ->
  Number_kept (loc_latitude loc) = true ->
  Number_kept (loc_longitude loc) = true ->
  kept_numbers (OfflineStorage.OfflineReport_value
                    (offline_copy p (createReport env p user st))).
Proof.
  intros Hloc Hlat Hlon. apply OfflineReport_value_kept. cbn. rewrite Hloc. cbn.
  unfold Number_or_zero.
  split; [destruct (Number_truthy (loc_latitude loc))
         | destruct (Number_truthy (loc_longitude loc))]; (assumption || reflexivity).
Qed.




End Submit.

(** ** More on the offline queue *)

Section QueueMore.
Import Js Eff Supabase Runtime OfflineStorage JsObject.

Lemma getOfflineReports_returns (ls : gmap string string) :
  exists v : JSValue, outcome getOfflineReports ls = Normal v.
Proof. unfold outcome. rewrite getOfflineReports_run. eexists. reflexivity. Qed.

(** X1. Reports saved one after the other are queued in that order: from a
    queue that holds a list, in a browser that takes every write to the
    queue, and with no infinity and no negative zero in the list or in the
    reports, saving [rs] in turn leaves that list followed by the objects of
    [rs]. *)
Theorem X1_saves_queue_in_order (quota : Quota) (rs : list OfflineReport) :
  (forall (ls : gmap string string) (text : string),
      quota ls OFFLINE_REPORTS_KEY text = true) ->
  Forall (fun r => kept_numbers (OfflineReport_value r)) rs ->
  forall (ls : gmap string string) (existing : list JSValue),
    outcome getOfflineReports ls = Normal (JArr existing) ->
    kept_numbers (JArr existing) ->
    outcome getOfflineReports
      (fold_left (fun st r => exec (saveOfflineReport quota r) st) rs ls)
    = Normal (JArr (existing ++ map OfflineReport_value rs)).
Proof.
  intros Hq. induction 1 as [|r rs Hr Hrs IH]; intros ls existing H Hfin.
  - cbn. now rewrite app_nil_r.
  - cbn [fold_left map].
    rewrite (IH _ (existing ++ [OfflineReport_value r])).
    + now rewrite <- app_assoc.
    + now apply saveOfflineReport_then_get.
    + apply deep_arr. split; [exact I|]. apply Forall_app. split.
      * apply (deep_arr node_kept), Hfin.
      * constructor; [exact Hr | constructor].
Qed.

Lemma X1_saves_queue_in_order_witness :
  outcome getOfflineReports
    (fold_left (fun st r => exec (saveOfflineReport Samples.roomy r) st)
               [Samples.queued; Samples.queued] ∅)
  = Normal (JArr [OfflineReport_value Samples.queued; OfflineReport_value Samples.queued]).
Proof.
  assert (outcome getOfflineReports ∅ = Normal (JArr [])) as Hempty by reflexivity.
  assert (kept_numbers (OfflineReport_value Samples.queued)) as Hfin.
  { apply OfflineReport_value_kept. split; reflexivity. }
  assert (Forall (fun r => kept_numbers (OfflineReport_value r))
                 [Samples.queued; Samples.queued]) as Hall
    by (repeat constructor; exact Hfin).
  exact (X1_saves_queue_in_order Samples.roomy [Samples.queued; Samples.queued]
           (fun _ _ => eq_refl) Hall ∅ [] Hempty (conj I I)).
Defined.

(** X2. After [syncOfflineReports] (or [clearOfflineReports]) the queue is
    empty, whatever the storage held before, a damaged entry included; the
    next report saved is then alone in the queue when the browser takes
    the write and the report holds no infinity and no negative zero, and the
    queue stays empty when the browser refuses the write. *)
Theorem X2_save_after_sync_starts_afresh (quota : Quota) (ls : gmap string string)
  (r : OfflineReport) :
  let text := JSON_stringify (JArr [OfflineReport_value r]) in
  exec clearOfflineReports ls = exec syncOfflineReports ls
  /\ outcome getOfflineReports (exec syncOfflineReports ls) = Normal (JArr [])
  /\ (quota (exec syncOfflineReports ls) OFFLINE_REPORTS_KEY text = true ->
      kept_numbers (OfflineReport_value r) ->
      outcome getOfflineReports (exec (saveOfflineReport quota r) (exec syncOfflineReports ls))
      = Normal (JArr [OfflineReport_value r]))
  /\ (quota (exec syncOfflineReports ls) OFFLINE_REPORTS_KEY text = false ->
      outcome getOfflineReports (exec (saveOfflineReport quota r) (exec syncOfflineReports ls))
      = Normal (JArr [])).
Proof.
  intros text.
  assert (outcome getOfflineReports (exec syncOfflineReports ls) = Normal (JArr [])) as H.
  { unfold exec. rewrite syncOfflineReports_run. cbn [snd].
    apply getOfflineReports_missing, lookup_delete_eq. }
  split; [reflexivity|]. split; [exact H|]. split.
  - intros Hq Hfin. apply (saveOfflineReport_then_get quota _ [] r H); [split; exact I| |];
      assumption.
  - intros Hq. rewrite (saveOfflineReport_refused quota _ [] r H Hq). exact H.
Qed.

Lemma X2_save_after_sync_starts_afresh_witness :
  outcome getOfflineReports
    (exec (saveOfflineReport Samples.roomy Samples.queued)
          (exec syncOfflineReports {[ OFFLINE_REPORTS_KEY := "not json" ]}))
  = Normal (JArr [OfflineReport_value Samples.queued]).
Proof.
  apply (X2_save_after_sync_starts_afresh Samples.roomy
           {[ OFFLINE_REPORTS_KEY := "not json" ]} Samples.queued).
  - reflexivity.
  - apply OfflineReport_value_kept. split; reflexivity.
Defined.

(** X3. When the key holds JSON that is neither a list nor a string (null,
    a boolean, a number, an object), [saveOfflineReport] returns normally
    and writes nothing: the storage is as it was and the report is not
    queued. *)
Theorem X3_save_on_non_list_drops_report (quota : Quota) (ls : gmap string string)
  (v : JSValue) (r : OfflineReport) :
  outcome getOfflineReports ls = Normal v -> iterable v = false ->
  outcome (saveOfflineReport quota r) ls = Normal tt
  /\ exec (saveOfflineReport quota r) ls = ls
  /\ outcome getOfflineReports (exec (saveOfflineReport quota r) ls) = Normal v.
Proof.
  intros H Hit. unfold outcome at 1, exec. rewrite (saveOfflineReport_cases quota r ls v H).
  destruct v; try discriminate Hit; cbn [fst snd]; repeat split; exact H.
Qed.

Lemma X3_save_on_non_list_drops_report_witness :
  exec (saveOfflineReport Samples.roomy Samples.queued) {[ OFFLINE_REPORTS_KEY := "{}" ]}
  = {[ OFFLINE_REPORTS_KEY := "{}" ]}.
Proof.
  assert (outcome getOfflineReports {[ OFFLINE_REPORTS_KEY := "{}" ]} = Normal (JObj []))
    as H by reflexivity.
  exact (proj1 (proj2 (X3_save_on_non_list_drops_report Samples.roomy _ (JObj [])
                         Samples.queued H eq_refl))).
Defined.

(** X4. [saveOfflineReport] never throws and never touches another key of
    the storage, whatever the storage holds and whether or not the browser
    takes the write. *)
Theorem X4_save_returns_and_keeps_other_keys (quota : Quota) (ls : gmap string string)
  (r : OfflineReport) :
  outcome (saveOfflineReport quota r) ls = Normal tt
  /\ forall key : string,
      key <> OFFLINE_REPORTS_KEY -> exec (saveOfflineReport quota r) ls !! key = ls !! key.
Proof.
  destruct (getOfflineReports_returns ls) as [v Hv].
  unfold outcome at 1, exec. rewrite (saveOfflineReport_cases quota r ls v Hv). cbv zeta.
  destruct v; cbn [fst snd]; (split; [reflexivity|]); intros key Hne;
    try reflexivity;
    match goal with |- context [quota ?a ?b ?c] => destruct (quota a b c) end;
    try reflexivity; apply lookup_insert_ne; congruence.
Qed.

Lemma X4_save_returns_and_keeps_other_keys_witness :
  exec (saveOfflineReport Samples.roomy Samples.queued) {[ "theme" := "dark" ]} !! "theme"
  = Some "dark".
Proof.
  rewrite (proj2 (X4_save_returns_and_keeps_other_keys Samples.roomy {[ "theme" := "dark" ]}
                    Samples.queued))
    by discriminate.
  reflexivity.
Defined.

(** X5. What is saved can be read back: after [saveOfflineReport] on a
    queue that holds a list, when the browser takes the write and no
    coordinate of the report is an infinity or a negative zero, the last
    entry of the queue has the report's tempId, animal_type, image_url, imageDataUrl, latitude,
    longitude, status and timestamp under their names, and user_id and
    feedback exactly when the report had them. *)
Theorem X5_saved_fields_read_back (quota : Quota) (ls : gmap string string)
  (existing : list JSValue) (r : OfflineReport) :
  outcome getOfflineReports ls = Normal (JArr existing) ->
  kept_numbers (OfflineReport_value r) ->
  quota ls OFFLINE_REPORTS_KEY
    (JSON_stringify (JArr (existing ++ [OfflineReport_value r]))) = true ->
  exists (queue : list JSValue) (v : JSValue),
    outcome getOfflineReports (exec (saveOfflineReport quota r) ls) = Normal (JArr queue)
    /\ last queue = Some v
    /\ property "tempId" v = Some (JText (tempId r))
    /\ property "user_id" v = option_map JText (user_id r)
    /\ property "animal_type" v = Some (JText (animal_type r))
    /\ property "image_url" v = Some (JText (image_url r))
    /\ property "imageDataUrl" v = Some (JText (imageDataUrl r))
    /\ property "latitude" v = Some (JNum (latitude r))
    /\ property "longitude" v = Some (JNum (longitude r))
    /\ property "status" v = Some (JText (status r))
    /\ property "timestamp" v = Some (JText (timestamp r))
    /\ property "feedback" v = option_map JText (feedback r).
Proof.
  intros H Hr Hq.
  exists (map rewritten existing ++ [OfflineReport_value r]), (OfflineReport_value r).
  split.
  { rewrite (saveOfflineReport_then_get_rewritten quota ls existing r H Hq).
    now rewrite (rewritten_kept _ Hr). }
  split; [apply last_snoc|].
  unfold OfflineReport_value. destruct (user_id r), (feedback r); repeat split; reflexivity.
Qed.

Lemma X5_saved_fields_read_back_witness :
  exists (queue : list JSValue) (v : JSValue),
    outcome getOfflineReports (exec (saveOfflineReport Samples.roomy Samples.queued) ∅)
    = Normal (JArr queue)
    /\ last queue = Some v
    /\ property "animal_type" v = Some (JText "Lion")
    /\ property "user_id" v = None.
Proof.
  assert (outcome getOfflineReports ∅ = Normal (JArr [])) as Hempty by reflexivity.
  assert (kept_numbers (OfflineReport_value Samples.queued)) as Hfin.
  { apply OfflineReport_value_kept. split; reflexivity. }
  destruct (X5_saved_fields_read_back Samples.roomy ∅ [] Samples.queued Hempty
              Hfin eq_refl)
    as (queue & v & Hq & Hlast & _ & Huser & Hanimal & _).
  exists queue, v. repeat split; assumption.
Defined.

End QueueMore.

(** ** More on submitting a report *)

Section SubmitMore.
Import Js Eff Supabase Runtime ReportGenerator ReportGeneration ReportInit.

(** X6. Without a location [submitReport] only shows the message
    'Location is required': it returns normally, calls nothing, stores
    nothing, saves no PDF and leaves the other cells of the page alone. *)
Theorem X6_submit_without_location (env : Env) (p : Props) (user : option User)
  (s : Sys State) :
  location (ui s) = None ->
  let after := exec (submitReport env p user) s in
  outcome (submitReport env p user) s = Normal tt
  /\ world after = world s
  /\ error (ui after) = "Location is required"
  /\ report (ui after) = report (ui s)
  /\ submitting (ui after) = submitting (ui s)
  /\ animalType (ui after) = animalType (ui s)
  /\ location (ui after) = None.
Proof.
  intros H after. subst after. unfold outcome, exec.
  rewrite (submitReport_no_location env p user s H). cbn. repeat split. exact H.
Qed.

Lemma X6_submit_without_location_witness :
  world (exec (submitReport (Samples.env true Samples.answers_ok) Samples.props None)
              (mkSys ReportInit.initial Samples.empty_world))
  = Samples.empty_world.
Proof.
  exact (proj1 (proj2 (X6_submit_without_location
                         (Samples.env true Samples.answers_ok) Samples.props None
                         (mkSys ReportInit.initial Samples.empty_world) eq_refl))).
Defined.

Lemma or_else_fallback_truthy (a : string) :
  truthy (or_else a "Failed to submit report") = true.
Proof. destruct a; reflexivity. Qed.

(** X7. With a location, [submitReport] never throws and always ends with
    [submitting] false, whatever the network state and the backend's
    answers.  It ends in one of two ways.  Either it succeeded: the page
    holds the new report, whose id is the fresh UUID, no error is shown,
    the PDF of that report is the one new download, and the completion
    callback is the last call.  Or it failed, which can only happen on
    line: an error message is shown, the page's report is as before, no
    PDF is saved, the completion callback is not called and the offline
    queue is untouched. *)
Theorem X7_submit_succeeds_or_reports_error (env : Env) (p : Props) (user : option User)
  (s : Sys State) (loc : Location) :
  location (ui s) = Some loc ->
  let after := exec (submitReport env p user) s in
  outcome (submitReport env p user) s = Normal tt
  /\ submitting (ui after) = false
  /\ ((exists r : Report,
          report (ui after) = Some r
          /\ id r = randomUUID env
          /\ error (ui after) = EmptyString
          /\ downloads (world after)
             = downloads (world s) ++ [report_pdf env r (imageDataUrl p)]
          /\ last (calls (world after)) = Some CallOnComplete)
      \/ (onLine env = true
          /\ truthy (error (ui after)) = true
          /\ report (ui after) = report (ui s)
          /\ downloads (world after) = downloads (world s)
          /\ ~ In CallOnComplete (skipn (length (calls (world s))) (calls (world after)))
          /\ localStorage (world after) = localStorage (world s))).
Proof.
  intros Hloc after. subst after. unfold outcome, exec.
  destruct (onLine env) eqn:Hon.
  - destruct (upload_error (answers env)
                (upload_name env (id (createReport env p user (ui s)))) (imageFile p))
      as [e|] eqn:Hup.
    + rewrite (submitReport_upload_refused env p user s loc e Hloc Hon Hup).
      cbn [fst snd ui world submitting setSubmitting report setError error downloads calls
           localStorage].
      split; [reflexivity|]. split; [reflexivity|]. right.
      split; [reflexivity|]. split; [apply or_else_fallback_truthy|].
      split; [reflexivity|]. split; [reflexivity|]. split; [|reflexivity].
      rewrite drop_app_length. intros [H|[]]. discriminate H.
    + destruct (insert_error (answers env)
                  (with_image_url (createReport env p user (ui s))
                     (getPublicUrl (answers env)
                        (upload_name env (id (createReport env p user (ui s)))))))
        as [e|] eqn:Hins.
      * rewrite (submitReport_insert_refused env p user s loc e Hloc Hon Hup Hins).
        cbn [fst snd ui world submitting setSubmitting report setError error downloads calls
             localStorage].
        split; [reflexivity|]. split; [reflexivity|]. right.
        split; [reflexivity|]. split; [apply or_else_fallback_truthy|].
        split; [reflexivity|]. split; [reflexivity|]. split; [|reflexivity].
        rewrite drop_app_length. intros [H|[H|[]]]; discriminate H.
      * rewrite (submitReport_online_run env p user s loc Hloc Hon Hup Hins).
        cbn [fst snd ui world submitting setSubmitting report setReport setError error
             downloads calls].
        split; [reflexivity|]. split; [reflexivity|]. left.
        eexists. split; [reflexivity|]. split; [reflexivity|]. split; [reflexivity|].
        split; [reflexivity|].
        rewrite last_app. reflexivity.
  - rewrite (submitReport_offline_run env p user s loc Hloc Hon).
    cbn [fst snd ui world submitting setSubmitting report setReport setError error
         downloads calls].
    split; [reflexivity|]. split; [reflexivity|]. left.
    eexists. split; [reflexivity|]. split; [reflexivity|]. split; [reflexivity|].
    split; [reflexivity|].
    rewrite last_app. reflexivity.
Qed.

Lemma X7_submit_succeeds_or_reports_error_witness :
  outcome (submitReport (Samples.env true Samples.answers_no_insert) Samples.props None)
          Samples.ready = Normal tt
  /\ submitting
       (ui (exec (submitReport (Samples.env true Samples.answers_no_insert) Samples.props None)
                 Samples.ready)) = false.
Proof.
  destruct (X7_submit_succeeds_or_reports_error
              (Samples.env true Samples.answers_no_insert) Samples.props None Samples.ready
              Samples.nairobi eq_refl) as (Hret & Hsub & _).
  split; assumption.
Defined.

(** X8. On line, when the upload of the photo is refused, the insert is
    never attempted: the backend holds what it held, the upload is the only
    call made, and the page shows the error's message, or 'Failed to submit
    report' when the message is empty. *)
Theorem X8_refused_upload_stops_submission (env : Env) (p : Props) (user : option User)
  (s : Sys State) (loc : Location) (e : JsError) :
  location (ui s) = Some loc -> onLine env = true ->
  let fileName := upload_name env (randomUUID env) in
  upload_error (answers env) fileName (imageFile p) = Some e ->
  let after := exec (submitReport env p user) s in
  backend (world after) = backend (world s)
  /\ calls (world after) = calls (world s) ++ [CallUpload fileName (imageFile p)]
  /\ error (ui after) = (if truthy (err_message e) then err_message e
                         else "Failed to submit report")
  /\ report (ui after) = report (ui s)
  /\ downloads (world after) = downloads (world s).
Proof.
  intros Hloc Hon fileName Hup after. subst after fileName. unfold exec.
  rewrite (submitReport_upload_refused env p user s loc e Hloc Hon Hup).
  cbn. repeat split.
Qed.

Lemma X8_refused_upload_stops_submission_witness :
  error (ui (exec (submitReport (Samples.env true Samples.answers_no_upload) Samples.props None)
                  Samples.ready))
  = "new row violates row-level security policy".
Proof.
  exact (proj1 (proj2 (proj2 (X8_refused_upload_stops_submission
                                (Samples.env true Samples.answers_no_upload) Samples.props None
                                Samples.ready Samples.nairobi Samples.refused
                                eq_refl eq_refl eq_refl)))).
Defined.

(** X9. On line, when the photo is stored and the row is then refused, the
    photo stays in the bucket although no row was added for it; no PDF is
    saved and the page shows the error. *)
Theorem X9_refused_insert_leaves_photo (env : Env) (p : Props) (user : option User)
  (s : Sys State) (loc : Location) (e : JsError) :
  location (ui s) = Some loc -> onLine env = true ->
  let fileName := upload_name env (randomUUID env) in
  let stored :=
    with_image_url (createReport env p user (ui s)) (getPublicUrl (answers env) fileName) in
  upload_error (answers env) fileName (imageFile p) = None ->
  insert_error (answers env) stored = Some e ->
  let after := exec (submitReport env p user) s in
  reports_table (backend (world after)) = reports_table (backend (world s))
  /\ wildlife_images (backend (world after))
     = wildlife_images (backend (world s)) ++ [(fileName, imageFile p)]
  /\ calls (world after)
     = calls (world s) ++ [CallUpload fileName (imageFile p); CallInsert stored]
  /\ error (ui after) = (if truthy (err_message e) then err_message e
                         else "Failed to submit report")
  /\ report (ui after) = report (ui s)
  /\ downloads (world after) = downloads (world s).
Proof.
  intros Hloc Hon fileName stored Hup Hins after. subst after fileName stored. unfold exec.
  rewrite (submitReport_insert_refused env p user s loc e Hloc Hon Hup Hins).
  cbn. repeat split.
Qed.

Lemma X9_refused_insert_leaves_photo_witness :
  wildlife_images (backend (world
    (exec (submitReport (Samples.env true Samples.answers_no_insert) Samples.props None)
          Samples.ready)))
  = [("3f0c2a9e-58d1-4a9b-9d5e-0c1b2a3d4e5f-1754668958000.jpg", Samples.photo)].
Proof.
  exact (proj1 (proj2 (X9_refused_insert_leaves_photo
                         (Samples.env true Samples.answers_no_insert) Samples.props None
                         Samples.ready Samples.nairobi Samples.refused
                         eq_refl eq_refl eq_refl eq_refl))).
Defined.

(** X10. An anonymous submission never carries a user id, even when a user
    is signed in: every row the submission adds to the reports table has no
    user_id; off line the object handed to the queue has no user_id
    property, and that object is the entry that the queue gains when it
    holds a list, the browser takes the write, and no coordinate of the
    location is an infinity or a negative zero. *)
Theorem X10_anonymous_submission_has_no_user (env : Env) (p : Props) (user : option User)
  (s : Sys State) (loc : Location) :
  location (ui s) = Some loc -> isAnonymous p = true ->
  let after := exec (submitReport env p user) s in
  let copy := OfflineStorage.OfflineReport_value (offline_copy p (createReport env p user (ui s)))
  in
  (forall r : Report,
      In r (skipn (length (reports_table (backend (world s))))
                  (reports_table (backend (world after)))) ->
      Supabase.user_id r = None)
  /\ JsObject.property "user_id" copy = None
  /\ (onLine env = false ->
      forall existing : list JSValue,
        outcome OfflineStorage.getOfflineReports (localStorage (world s))
        = Normal (JArr existing) ->
        Number_kept (loc_latitude loc) = true ->
        Number_kept (loc_longitude loc) = true ->
        setItem_accepts env (localStorage (world s)) OfflineStorage.OFFLINE_REPORTS_KEY
          (JSON_stringify (JArr (existing ++ [copy]))) = true ->
        outcome OfflineStorage.getOfflineReports (localStorage (world after))
        = Normal (JArr (map rewritten existing ++ [copy]))).
Proof.
  intros Hloc Hanon after copy. subst after copy. unfold exec.
  assert (JsObject.property "user_id"
            (OfflineStorage.OfflineReport_value
               (offline_copy p (createReport env p user (ui s)))) = None) as Hprop.
  { cbn. rewrite Hanon. reflexivity. }
  destruct (onLine env) eqn:Hon.
  - split; [|split; [exact Hprop | discriminate]].
    destruct (upload_error (answers env)
                (upload_name env (id (createReport env p user (ui s)))) (imageFile p))
      as [e|] eqn:Hup.
    + rewrite (submitReport_upload_refused env p user s loc e Hloc Hon Hup).
      cbn [snd world backend]. rewrite drop_all. intros r [].
    + destruct (insert_error (answers env)
                  (with_image_url (createReport env p user (ui s))
                     (getPublicUrl (answers env)
                        (upload_name env (id (createReport env p user (ui s)))))))
        as [e|] eqn:Hins.
      * rewrite (submitReport_insert_refused env p user s loc e Hloc Hon Hup Hins).
        cbn [snd world backend reports_table]. rewrite drop_all. intros r [].
      * rewrite (submitReport_online_run env p user s loc Hloc Hon Hup Hins).
        cbn [snd world backend reports_table]. rewrite drop_app_length.
        intros r [<-|[]]. cbn. now rewrite Hanon.
  - rewrite (submitReport_offline_run env p user s loc Hloc Hon).
    cbn [snd world backend localStorage]. split; [|split; [exact Hprop|]].
    + rewrite drop_all. intros r [].
    + intros _ existing Hex Hlat Hlon Hq.
      rewrite <- (rewritten_kept
                    (OfflineStorage.OfflineReport_value
                       (offline_copy p (createReport env p user (ui s))))).
      * now apply saveOfflineReport_then_get_rewritten.
      * now apply (offline_copy_kept env p user (ui s) loc).
Qed.

Lemma X10_anonymous_submission_has_no_user_witness :
  Forall (fun r : Report => Supabase.user_id r = None)
    (reports_table (backend (world
       (exec (submitReport (Samples.env true Samples.answers_ok) Samples.props
                           (Some (mkUser "u-7")))
             Samples.ready)))).
Proof.
  apply Forall_forall. intros r Hr. apply list_elem_of_In in Hr.
  exact (proj1 (X10_anonymous_submission_has_no_user
                  (Samples.env true Samples.answers_ok) Samples.props (Some (mkUser "u-7"))
                  Samples.ready Samples.nairobi eq_refl eq_refl) r Hr).
Defined.

(** With its first draw in [0, 1) the analysis names one of the animals. *)
Lemma analysis_names_an_animal (f : File) (g : AiAnalysis.RandomSource) :
  (0 <= AiAnalysis.draw g (AiAnalysis.drawn g))%Q ->
  (AiAnalysis.draw g (AiAnalysis.drawn g) < 1)%Q ->
  exists (a : string) (c : Q),
    AiAnalysis.analyzeAnimalImage f g
    = (Normal (AiAnalysis.mkAnimalAnalysis (Some a) c),
       AiAnalysis.mkRandomSource (AiAnalysis.draw g) (S (S (AiAnalysis.drawn g))))
    /\ In a AiAnalysis.animalTypes.
Proof.
  intros H0 H1. rewrite analyzeAnimalImage_run.
  destruct (index_in_range AiAnalysis.animalTypes
              (Qfloor (AiAnalysis.draw g (AiAnalysis.drawn g) * 17))) as (a & Ha & Hin).
  { change (Z.of_nat (length AiAnalysis.animalTypes)) with (16 + 1).
    enough (0 <= Qfloor (AiAnalysis.draw g (AiAnalysis.drawn g) * 17) <= 16) by lia.
    apply Qfloor_bounds; unfold inject_Z; lra. }
  rewrite Ha. eexists _, _. split; [reflexivity | exact Hin].
Qed.

(** X11. Opening the report page: when [Math.random] keeps to [0, 1), the
    analysis ends with one of the 17 animal names on the page and
    [analyzing] false, after two draws.  The location is the position the
    browser gave, Nairobi (-1.2921, 36.8219) when the request failed, and
    stays as it was when the browser has no geolocation or has not answered.
    The error and the report cells are untouched. *)
Theorem X11_initializeReport_sets_animal_and_location (geo : Geolocation) (p : Props)
  (st : State) (g : AiAnalysis.RandomSource) :
  (0 <= AiAnalysis.draw g (AiAnalysis.drawn g))%Q ->
  (AiAnalysis.draw g (AiAnalysis.drawn g) < 1)%Q ->
  exists st' : State,
    fst (initializeReport geo p st g) = Some st'
    /\ In (animalType st') AiAnalysis.animalTypes
    /\ analyzing st' = false
    /\ location st'
       = match geo with
         | GeoPosition latitude longitude => Some (mkLocation latitude longitude)
         | GeoError => Some (mkLocation (mkNumber (-12921) (-4)) (mkNumber 368219 (-4)))
         | GeoMissing => location st
         | GeoSilent => location st
         end
    /\ error st' = error st
    /\ report st' = report st
    /\ submitting st' = submitting st
    /\ AiAnalysis.drawn (snd (initializeReport geo p st g)) = S (S (AiAnalysis.drawn g)).
Proof.
  intros H0 H1.
  destruct (analysis_names_an_animal (imageFile p) g H0 H1) as (a & c & Hrun & Hin).
  unfold initializeReport. rewrite Hrun. cbn [AiAnalysis.animalType fst snd].
  eexists. split; [reflexivity|].
  split; [exact Hin|].
  destruct geo; repeat split.
Qed.

Lemma X11_initializeReport_sets_animal_and_location_witness :
  exists st' : State,
    fst (initializeReport GeoError Samples.props ReportInit.initial Samples.rng) = Some st'
    /\ In (animalType st') AiAnalysis.animalTypes
    /\ location st' = Some Samples.nairobi.
Proof.
  assert (0 <= AiAnalysis.draw Samples.rng (AiAnalysis.drawn Samples.rng))%Q as H0
    by (vm_compute; discriminate).
  assert (AiAnalysis.draw Samples.rng (AiAnalysis.drawn Samples.rng) < 1)%Q as H1
    by reflexivity.
  destruct (X11_initializeReport_sets_animal_and_location
              GeoError Samples.props ReportInit.initial Samples.rng H0 H1)
    as (st' & Hrun & Hin & _ & Hloc & _).
  exists st'. repeat split; assumption.
Defined.

(** X12. No geolocation, no report: on a browser without
    [navigator.geolocation], or as long as the position request is not
    answered, a page opened without a location ends the analysis with none
    (when [Math.random] keeps to [0, 1)), and pressing the button then only
    shows 'Location is required': nothing is uploaded, inserted, queued or
    saved. *)
Theorem X12_no_geolocation_no_submission (geo : Geolocation) (env : Env) (p : Props)
  (user : option User) (st : State) (g : AiAnalysis.RandomSource) (w : World) :
  (0 <= AiAnalysis.draw g (AiAnalysis.drawn g))%Q ->
  (AiAnalysis.draw g (AiAnalysis.drawn g) < 1)%Q ->
  geo = GeoMissing \/ geo = GeoSilent ->
  location st = None ->
  exists st' : State,
    fst (initializeReport geo p st g) = Some st'
    /\ location st' = None
    /\ let after := exec (submitReport env p user) (mkSys st' w) in
       world after = w
       /\ error (ui after) = "Location is required"
       /\ report (ui after) = report st.
Proof.
  intros H0 H1 Hgeo Hloc.
  destruct (analysis_names_an_animal (imageFile p) g H0 H1) as (a & c & Hrun & _).
  unfold initializeReport. rewrite Hrun. cbn [AiAnalysis.animalType fst].
  eexists. split; [reflexivity|].
  assert (location (locate geo st) = None) as Hloc'.
  { destruct Hgeo as [-> | ->]; exact Hloc. }
  assert (report (locate geo st) = report st) as Hrep.
  { destruct Hgeo as [-> | ->]; reflexivity. }
  split; [exact Hloc'|]. unfold exec.
  rewrite submitReport_no_location by exact Hloc'.
  cbn. repeat split. exact Hrep.
Qed.

Lemma X12_no_geolocation_no_submission_witness :
  exists st' : State,
    fst (initializeReport GeoMissing Samples.props ReportInit.initial Samples.rng) = Some st'
    /\ world (exec (submitReport (Samples.env true Samples.answers_ok) Samples.props None)
                   (mkSys st' Samples.empty_world))
       = Samples.empty_world.
Proof.
  assert (0 <= AiAnalysis.draw Samples.rng (AiAnalysis.drawn Samples.rng))%Q as H0
    by (vm_compute; discriminate).
  assert (AiAnalysis.draw Samples.rng (AiAnalysis.drawn Samples.rng) < 1)%Q as H1
    by reflexivity.
  destruct (X12_no_geolocation_no_submission
              GeoMissing (Samples.env true Samples.answers_ok) Samples.props None
              ReportInit.initial Samples.rng Samples.empty_world H0 H1
              (or_introl eq_refl) eq_refl) as (st' & Hinit & _ & Hworld & _).
  exists st'. split; [exact Hinit | exact Hworld].
Defined.

(** X13. From opening the page to the stored row: when the browser gives a
    position or fails to (so that Nairobi is used), [Math.random] keeps to
    [0, 1), the browser is on line and the backend accepts what it is sent,
    pressing the button adds one row whose animal_type is one of the 17
    animal names, whose coordinates are those of the location and whose
    status is pending. *)
Theorem X13_opened_page_stores_named_animal (geo : Geolocation) (env : Env) (p : Props)
  (user : option User) (st : State) (g : AiAnalysis.RandomSource) (w : World) :
  (0 <= AiAnalysis.draw g (AiAnalysis.drawn g))%Q ->
  (AiAnalysis.draw g (AiAnalysis.drawn g) < 1)%Q ->
  geo <> GeoMissing -> geo <> GeoSilent ->
  onLine env = true ->
  (forall fileName file, upload_error (answers env) fileName file = None) ->
  (forall row, insert_error (answers env) row = None) ->
  exists (st' : State) (loc : Location) (row : Report),
    fst (initializeReport geo p st g) = Some st'
    /\ location st' = Some loc
    /\ reports_table (backend (world (exec (submitReport env p user) (mkSys st' w))))
       = reports_table (backend w) ++ [row]
    /\ In (animal_type row) AiAnalysis.animalTypes
    /\ (Number_value (latitude row) == Number_value (loc_latitude loc))%Q
    /\ (Number_value (longitude row) == Number_value (loc_longitude loc))%Q
    /\ Supabase.status row = "pending".
Proof.
  intros H0 H1 Hgeo Hgeo' Hon Hup Hins.
  destruct (analysis_names_an_animal (imageFile p) g H0 H1) as (a & c & Hrun & Hin).
  assert (exists loc, location (locate geo st) = Some loc) as [loc Hloc].
  { destruct geo; try contradiction; eexists; reflexivity. }
  exists (setAnalyzing false (setAnimalType a (locate geo st))), loc.
  eexists. split.
  { unfold initializeReport. rewrite Hrun. reflexivity. }
  split; [exact Hloc|].
  unfold exec.
  rewrite (submitReport_online_run env p user
             (mkSys (setAnalyzing false (setAnimalType a (locate geo st))) w) loc
             Hloc Hon (Hup _ _) (Hins _)).
  cbn [snd world backend reports_table]. split; [reflexivity|].
  split; [exact Hin|].
  cbn. rewrite Hloc. cbn.
  split; [apply Number_or_zero_value|]. split; [apply Number_or_zero_value | reflexivity].
Qed.

Lemma X13_opened_page_stores_named_animal_witness :
  exists (st' : State) (row : Report),
    fst (initializeReport GeoError Samples.props ReportInit.initial Samples.rng) = Some st'
    /\ reports_table (backend (world
         (exec (submitReport (Samples.env true Samples.answers_ok) Samples.props None)
               (mkSys st' Samples.empty_world)))) = [row]
    /\ In (animal_type row) AiAnalysis.animalTypes.
Proof.
  assert (0 <= AiAnalysis.draw Samples.rng (AiAnalysis.drawn Samples.rng))%Q as H0
    by (vm_compute; discriminate).
  assert (AiAnalysis.draw Samples.rng (AiAnalysis.drawn Samples.rng) < 1)%Q as H1
    by reflexivity.
  destruct (X13_opened_page_stores_named_animal
              GeoError (Samples.env true Samples.answers_ok) Samples.props None
              ReportInit.initial Samples.rng Samples.empty_world H0 H1)
    as (st' & loc & row & Hinit & _ & Htable & Hin & _);
    try discriminate; try reflexivity.
  exists st', row. repeat split; assumption.
Defined.

End SubmitMore.

(** ** More on the ranger dashboard *)

Section DashboardMore.
Import Js Eff Supabase Runtime RangerDashboard RangerActions.

(** X14. The list on display holds exactly the loaded reports that pass the
    filter, in their order: a report is shown when the filter is 'all' or
    equals its status; under 'all' the list is the loaded list; and
    filtering what is shown changes nothing. *)
Theorem X14_filteredReports_selects_by_status (st : State) :
  (forall r : Report,
      In r (filteredReports st)
      <-> In r (reports st) /\ (RangerDashboard.filter st = "all"
                                \/ status r = RangerDashboard.filter st))
  /\ sublist (filteredReports st) (reports st)
  /\ (RangerDashboard.filter st = "all" -> filteredReports st = reports st)
  /\ filteredReports (setReports (fun _ => filteredReports st) st) = filteredReports st.
Proof.
  unfold filteredReports. split; [|split; [|split]].
  - intros r. rewrite filter_In.
    destruct (String.eqb_spec (RangerDashboard.filter st) "all") as [Hall|Hall].
    + intuition.
    + destruct (String.eqb_spec (status r) (RangerDashboard.filter st)); intuition congruence.
  - induction (reports st) as [|r l IH]; cbn; [constructor|].
    destruct (if String.eqb (RangerDashboard.filter st) "all" then true
              else String.eqb (status r) (RangerDashboard.filter st));
      [apply sublist_skip | apply sublist_cons]; exact IH.
  - intros ->. cbn. induction (reports st) as [|r l IH]; cbn; congruence.
  - cbn [reports setReports RangerDashboard.filter].
    induction (reports st) as [|r l IH]; cbn; [reflexivity|].
    destruct (if String.eqb (RangerDashboard.filter st) "all" then true
              else String.eqb (status r) (RangerDashboard.filter st)) eqn:E;
      cbn; rewrite ?E, IH; reflexivity.
Qed.

Lemma X14_filteredReports_selects_by_status_witness :
  filteredReports
    (mkState [Samples.sighting "r-1" "Lion"; Samples.sighting "r-2" "Zebra"] None false false
             "all" EmptyString false)
  = [Samples.sighting "r-1" "Lion"; Samples.sighting "r-2" "Zebra"].
Proof.
  exact (proj1 (proj2 (proj2 (X14_filteredReports_selects_by_status
           (mkState [Samples.sighting "r-1" "Lion"; Samples.sighting "r-2" "Zebra"] None false
                    false "all" EmptyString false)))) eq_refl).
Defined.

(** The argument of [update] that [updateReportStatus] builds. *)
Lemma updateReportStatus_refused_run (env : Env) (reportId status : string)
  (feedbackText : option string) (s : Sys State) (e : JsError) :
  update_error (answers env) reportId
    (mkUpdateData status (if truthy_opt feedbackText then feedbackText else None)) = Some e ->
  updateReportStatus env reportId status feedbackText s
  = (Normal tt,
     mkSys (setUpdating false (setUpdating true (ui s)))
           (mkWorld (localStorage (world s)) (backend (world s)) (downloads (world s))
                    (calls (world s)
                       ++ [CallUpdate reportId
                             (mkUpdateData status
                                (if truthy_opt feedbackText then feedbackText else None))]))).
Proof.
  intros H. unfold updateReportStatus, bind, try_catch, set_state, in_world, with_backend,
    zoom, update_report, log, modify, ret, throw. cbn. rewrite H. cbn.
  destruct (backend (world s)). reflexivity.
Qed.

Lemma updateReportStatus_accepted_run (env : Env) (reportId status : string)
  (feedbackText : option string) (s : Sys State) :
  let data := mkUpdateData status (if truthy_opt feedbackText then feedbackText else None) in
  update_error (answers env) reportId data = None ->
  updateReportStatus env reportId status feedbackText s
  = (Normal tt,
     mkSys (mkState (map (update_local reportId status feedbackText) (reports (ui s)))
                    None (loading (ui s)) false (RangerDashboard.filter (ui s)) EmptyString
                    false)
           (mkWorld (localStorage (world s))
                    (mkBackend (map (update_row (answers env) reportId data)
                                    (reports_table (backend (world s))))
                               (wildlife_images (backend (world s))))
                    (downloads (world s))
                    (calls (world s) ++ [CallUpdate reportId data]))).
Proof.
  intros data H. subst data.
  unfold updateReportStatus, bind, try_catch, set_state, in_world, with_backend,
    zoom, update_report, log, modify, ret, throw. cbn. rewrite H. reflexivity.
Qed.

(** X15. A refused update changes nothing on the dashboard: the reports,
    the selected report, the typed feedback, the filter and the open
    feedback window are as before, [updating] is false again, and the
    backend holds what it held.  The function returns normally. *)
Theorem X15_refused_update_changes_nothing (env : Env) (reportId status : string)
  (feedbackText : option string) (s : Sys State) (e : JsError) :
  update_error (answers env) reportId
    (mkUpdateData status (if truthy_opt feedbackText then feedbackText else None)) = Some e ->
  let after := exec (updateReportStatus env reportId status feedbackText) s in
  outcome (updateReportStatus env reportId status feedbackText) s = Normal tt
  /\ reports (ui after) = reports (ui s)
  /\ selectedReport (ui after) = selectedReport (ui s)
  /\ feedback (ui after) = feedback (ui s)
  /\ showFeedbackModal (ui after) = showFeedbackModal (ui s)
  /\ RangerDashboard.filter (ui after) = RangerDashboard.filter (ui s)
  /\ updating (ui after) = false
  /\ backend (world after) = backend (world s).
Proof.
  intros H after. subst after. unfold outcome, exec.
  rewrite (updateReportStatus_refused_run env reportId status feedbackText s e H).
  cbn. repeat split.
Qed.

Lemma X15_refused_update_changes_nothing_witness :
  reports (ui (exec (updateReportStatus (Samples.env true Cases.answers_no_update)
                       "r-1" "invalid" None)
                    Samples.dashboard))
  = reports (ui Samples.dashboard).
Proof.
  exact (proj1 (proj2 (X15_refused_update_changes_nothing
                         (Samples.env true Cases.answers_no_update) "r-1" "invalid" None
                         Samples.dashboard Samples.refused eq_refl))).
Defined.

Lemma update_keeps_agreement (a : Answers) (reportId status : string)
  (feedbackText : option string) (r r' : Report) :
  same_but_updated_at r r' ->
  same_but_updated_at
    (update_local reportId status feedbackText r)
    (update_row a reportId
       (mkUpdateData status (if truthy_opt feedbackText then feedbackText else None)) r').
Proof.
  unfold same_but_updated_at, update_local, update_row, with_status.
  intros (Hid & Hu & Ha & Hi & Hla & Hlo & Hs & Hf & Hc). rewrite Hid.
  destruct (String.eqb (id r) reportId); cbn; [|repeat split; assumption].
  repeat split; try assumption.
  destruct (truthy_opt feedbackText) eqn:E.
  - destruct feedbackText; [reflexivity | discriminate E].
  - exact Hf.
Qed.

(** X16. The dashboard stays in step with the backend: if the loaded
    reports and the rows of the table agree, one by one, on every field but
    updated_at, they still do after [updateReportStatus], whether the
    update was accepted or refused.  (The table's trigger stamps
    updated_at; the dashboard does not.) *)
Theorem X16_update_keeps_dashboard_in_step (env : Env) (reportId status : string)
  (feedbackText : option string) (s : Sys State) :
  Forall2 same_but_updated_at (reports (ui s)) (reports_table (backend (world s))) ->
  let after := exec (updateReportStatus env reportId status feedbackText) s in
  Forall2 same_but_updated_at (reports (ui after)) (reports_table (backend (world after))).
Proof.
  intros H after. subst after. unfold exec.
  destruct (update_error (answers env) reportId
              (mkUpdateData status (if truthy_opt feedbackText then feedbackText else None)))
    as [e|] eqn:E.
  - rewrite (updateReportStatus_refused_run env reportId status feedbackText s e E).
    exact H.
  - rewrite (updateReportStatus_accepted_run env reportId status feedbackText s E).
    cbn [snd ui world reports backend reports_table].
    induction H as [|r r' l l' Hr Hl IH]; cbn; constructor;
      [now apply update_keeps_agreement | exact IH].
Qed.

Lemma same_but_updated_at_refl (r : Report) : same_but_updated_at r r.
Proof. unfold same_but_updated_at. repeat split. Qed.

Lemma X16_update_keeps_dashboard_in_step_witness :
  Forall2 same_but_updated_at
    (reports (ui (exec (updateReportStatus (Samples.env true Samples.answers_ok)
                          "r-1" "invalid" None)
                       (Cases.dashboard_with_feedback EmptyString))))
    (reports_table (backend (world
       (exec (updateReportStatus (Samples.env true Samples.answers_ok) "r-1" "invalid" None)
             (Cases.dashboard_with_feedback EmptyString))))).
Proof.
  apply (X16_update_keeps_dashboard_in_step (Samples.env true Samples.answers_ok)
           "r-1" "invalid" None (Cases.dashboard_with_feedback EmptyString)).
  repeat constructor.
Defined.

(** *** Feedback *)

Lemma trim_start_blank (s : string) :
  Forall (fun c => is_space c = true) (list_ascii_of_string s) -> trim_start s = EmptyString.
Proof.
  induction s as [|c s IH]; [reflexivity|]. cbn. intros H.
  inversion H as [|? ? Hc Hs]; subst. rewrite Hc. auto.
Qed.

Lemma trim_start_head (s : string) :
  Exists (fun c => is_space c = false) (list_ascii_of_string s) ->
  exists c r, trim_start s = String c r /\ is_space c = false.
Proof.
  induction s as [|c s IH]; cbn; intros H; [inversion H|].
  destruct (is_space c) eqn:E.
  - inversion H as [? ? Hc|? ? Hs]; subst; [congruence | auto].
  - eauto.
Qed.

Lemma trim_end_head (c : ascii) (r : string) :
  is_space c = false -> truthy (trim_end (String c r)) = true.
Proof. intros H. cbn. rewrite H. destruct (trim_end r); reflexivity. Qed.

Lemma blank_or_not (l : list ascii) :
  Forall (fun c => is_space c = true) l \/ Exists (fun c => is_space c = false) l.
Proof.
  induction l as [|c l [IH|IH]].
  - left. constructor.
  - destruct (is_space c) eqn:E; [left | right]; [constructor; assumption|].
    apply Exists_cons_hd. exact E.
  - right. apply Exists_cons_tl. exact IH.
Qed.

(** Feedback that is all white space trims to nothing; with one other
    character it does not. *)
Lemma trim_truthy (s : string) :
  truthy (trim s) = true <-> Exists (fun c => is_space c = false) (list_ascii_of_string s).
Proof.
  unfold trim. split.
  - intros H. destruct (blank_or_not (list_ascii_of_string s)) as [Hall|Hex]; [|exact Hex].
    rewrite (trim_start_blank _ Hall) in H. discriminate H.
  - intros H. destruct (trim_start_head s H) as (c & r & -> & Hc). now apply trim_end_head.
Qed.

(** X17. Blank feedback goes nowhere: with no report selected, or with
    feedback made of white space only (or empty), [submitFeedback] changes
    neither the dashboard nor the backend and calls nothing. *)
Theorem X17_blank_feedback_is_not_sent (env : Env) (s : Sys State) :
  selectedReport (ui s) = None
  \/ Forall (fun c => is_space c = true) (list_ascii_of_string (feedback (ui s))) ->
  submitFeedback env s = (Normal tt, s).
Proof.
  intros H. unfold submitFeedback, bind, gets. cbn.
  destruct (selectedReport (ui s)) as [selected|]; [|reflexivity].
  destruct H as [H|H]; [discriminate H|].
  unfold trim. rewrite (trim_start_blank _ H). reflexivity.
Qed.

Lemma X17_blank_feedback_is_not_sent_witness :
  submitFeedback (Samples.env true Samples.answers_ok) (Cases.dashboard_with_feedback "  ")
  = (Normal tt, Cases.dashboard_with_feedback "  ").
Proof.
  apply X17_blank_feedback_is_not_sent. right. repeat constructor.
Defined.

(** X18. Feedback is stored as typed: with a report selected and feedback
    that has a character other than white space, when the backend accepts
    the update, every loaded report with the selected id, and every row of
    the table with that id, ends with status ranger_assigned and with the
    feedback text exactly as typed, untrimmed; the window is closed, the
    text is cleared and no report is selected any more. *)
Theorem X18_feedback_is_stored_as_typed (env : Env) (s : Sys State) (selected : Report) :
  selectedReport (ui s) = Some selected ->
  Exists (fun c => is_space c = false) (list_ascii_of_string (feedback (ui s))) ->
  update_error (answers env) (id selected)
    (mkUpdateData "ranger_assigned" (Some (feedback (ui s)))) = None ->
  let after := exec (submitFeedback env) s in
  (forall r : Report,
      In r (reports (ui after)) -> id r = id selected ->
      status r = "ranger_assigned" /\ Supabase.feedback r = Some (feedback (ui s)))
  /\ (forall r : Report,
        In r (reports_table (backend (world after))) -> id r = id selected ->
        status r = "ranger_assigned" /\ Supabase.feedback r = Some (feedback (ui s)))
  /\ length (reports (ui after)) = length (reports (ui s))
  /\ selectedReport (ui after) = None
  /\ showFeedbackModal (ui after) = false
  /\ feedback (ui after) = EmptyString
  /\ updating (ui after) = false.
Proof.
  intros Hsel Hex Hok after.
  assert (truthy (feedback (ui s)) = true) as Htruthy.
  { destruct (feedback (ui s)); [inversion Hex | reflexivity]. }
  assert (exec (submitFeedback env) s
          = exec (updateReportStatus env (id selected) "ranger_assigned"
                    (Some (feedback (ui s)))) s) as Hrun.
  { unfold exec at 1, submitFeedback, bind, gets. cbn. rewrite Hsel.
    apply trim_truthy in Hex. rewrite Hex. reflexivity. }
  subst after. rewrite Hrun. unfold exec.
  rewrite updateReportStatus_accepted_run by (cbn; rewrite Htruthy; exact Hok).
  cbn [snd ui world reports backend reports_table selectedReport showFeedbackModal feedback
       updating].
  split; [|split; [|split; [apply length_map | repeat split]]].
  - intros r Hin Hid. apply in_map_iff in Hin as (r0 & <- & _).
    unfold update_local in *. destruct (String.eqb_spec (id r0) (id selected)) as [E|E].
    + cbn. rewrite Htruthy. split; reflexivity.
    + contradiction.
  - intros r Hin Hid. apply in_map_iff in Hin as (r0 & <- & _).
    unfold update_row in *. cbn [truthy_opt] in *. rewrite Htruthy in *.
    destruct (String.eqb_spec (id r0) (id selected)) as [E|E].
    + cbn. split; reflexivity.
    + contradiction.
Qed.

Lemma X18_feedback_is_stored_as_typed_witness :
  Forall (fun r : Report => id r = "r-1" -> Supabase.feedback r = Some " seen near the gate ")
    (reports (ui (exec (submitFeedback (Samples.env true Samples.answers_ok))
                       (Cases.dashboard_with_feedback " seen near the gate ")))).
Proof.
  apply Forall_forall. intros r Hr Hid. apply list_elem_of_In in Hr.
  refine (proj2 (proj1 (X18_feedback_is_stored_as_typed
                          (Samples.env true Samples.answers_ok)
                          (Cases.dashboard_with_feedback " seen near the gate ")
                          (Samples.sighting "r-1" "Lion") eq_refl _ eq_refl) r Hr Hid)).
  apply Exists_cons_tl, Exists_cons_hd. reflexivity.
Defined.

(** *** The list on display after an update, and the first load *)

(** X19. An accepted update and the filter: when the filter names a status
    other than the new one, the updated report leaves the list on display
    and the other displayed reports stay, in their order; when the filter is
    the new status or all, every report with that id is on display. *)
Theorem X19_updated_report_follows_filter (env : Env) (reportId status : string)
  (feedbackText : option string) (s : Sys State) :
  update_error (answers env) reportId
    (mkUpdateData status (if truthy_opt feedbackText then feedbackText else None)) = None ->
  let after := ui (exec (updateReportStatus env reportId status feedbackText) s) in
  (RangerDashboard.filter (ui s) <> "all" -> RangerDashboard.filter (ui s) <> status ->
   filteredReports after
   = List.filter (fun r => negb (String.eqb (id r) reportId)) (filteredReports (ui s)))
  /\ (RangerDashboard.filter (ui s) = "all" \/ RangerDashboard.filter (ui s) = status ->
      forall r, In r (reports after) -> id r = reportId -> In r (filteredReports after)).
Proof.
  intros Hok after. subst after. unfold exec.
  rewrite updateReportStatus_accepted_run by exact Hok.
  unfold filteredReports. cbn [snd ui reports RangerDashboard.filter].
  split.
  - intros Hall Hst.
    destruct (String.eqb_spec (RangerDashboard.filter (ui s)) "all") as [E|_]; [contradiction|].
    induction (reports (ui s)) as [|r l IH]; [reflexivity|].
    cbn [map List.filter]. rewrite IH. unfold update_local.
    destruct (String.eqb (id r) reportId) eqn:Hid.
    + cbn [with_status Supabase.status].
      destruct (String.eqb_spec status (RangerDashboard.filter (ui s))) as [E|_];
        [symmetry in E; contradiction|].
      destruct (String.eqb (Supabase.status r) (RangerDashboard.filter (ui s)));
        [|reflexivity].
      cbn [List.filter]. rewrite Hid. reflexivity.
    + destruct (String.eqb (Supabase.status r) (RangerDashboard.filter (ui s)));
        [|reflexivity].
      cbn [List.filter]. rewrite Hid. reflexivity.
  - intros Hf r Hin Hid. apply filter_In. split; [exact Hin|].
    destruct (String.eqb_spec (RangerDashboard.filter (ui s)) "all") as [_|Hall];
      [reflexivity|].
    destruct Hf as [Hf|Hf]; [contradiction|].
    apply in_map_iff in Hin as (r0 & <- & _). unfold update_local in *.
    destruct (String.eqb_spec (id r0) reportId) as [E|E]; [|contradiction].
    cbn. rewrite Hf. apply String.eqb_refl.
Qed.

Lemma X19_updated_report_follows_filter_witness :
  filteredReports
    (ui (exec (updateReportStatus (Samples.env true Samples.answers_ok) "r-1" "invalid" None)
              (Cases.dashboard_with_feedback EmptyString)))
  = [Samples.sighting "r-2" "Zebra"].
Proof.
  exact (proj1 (X19_updated_report_follows_filter (Samples.env true Samples.answers_ok)
                  "r-1" "invalid" None (Cases.dashboard_with_feedback EmptyString) eq_refl)
               ltac:(discriminate) ltac:(discriminate)).
Defined.

(** X20. The first load: [fetchReports] never throws and always ends with
    loading off; a failed query leaves the list as it was, a successful one
    replaces it by the rows received, or by the empty list when no rows came;
    nothing else on the dashboard and nothing in the world changes. *)
Theorem X20_fetchReports_loads_or_keeps (answer : SelectAnswer) (s : Sys State) :
  let after := exec (fetchReports answer) s in
  outcome (fetchReports answer) s = Normal tt
  /\ loading (ui after) = false
  /\ reports (ui after)
     = match sel_error answer, sel_data answer with
       | Some _, _ => reports (ui s)
       | None, Some rows => rows
       | None, None => []
       end
  /\ selectedReport (ui after) = selectedReport (ui s)
  /\ RangerDashboard.filter (ui after) = RangerDashboard.filter (ui s)
  /\ feedback (ui after) = feedback (ui s)
  /\ showFeedbackModal (ui after) = showFeedbackModal (ui s)
  /\ updating (ui after) = updating (ui s)
  /\ world after = world s.
Proof.
  unfold exec, outcome, fetchReports, bind, try_catch, set_state, modify, throw, ret.
  destruct (sel_error answer) as [e|]; [|destruct (sel_data answer) as [rows|]];
    cbn; repeat split; reflexivity.
Qed.

End DashboardMore.

(** ** The controller and what it shows *)

Section AppMore.
Import Js Eff Supabase App AppRender.

Lemma authEffect_cases (a : Auth) (st : State) :
  authEffect a st = st
  \/ (exists userType target,
        signed_in_as userType a
        /\ authEffect a st = setCurrentState target st
        /\ ((userType = "ranger" /\ target = "rangerDashboard")
            \/ (userType = "admin" /\ target = "adminDashboard")
            \/ (userType = "community" /\ target = "camera"))).
Proof.
  unfold authEffect, signed_in_as.
  destruct (loading a) eqn:Hl; [left; reflexivity|].
  destruct (user a) as [u|] eqn:Hu; [|left; reflexivity].
  destruct (profile a) as [pr|] eqn:Hp; [|left; reflexivity]. cbn.
  destruct (String.eqb_spec (user_type pr) "ranger") as [E|_].
  { right. exists "ranger", "rangerDashboard".
    split; [split; [reflexivity | split; [discriminate | eauto]]|]. split; [reflexivity|].
    left. split; reflexivity. }
  destruct (String.eqb_spec (user_type pr) "admin") as [E|_].
  { right. exists "admin", "adminDashboard".
    split; [split; [reflexivity | split; [discriminate | eauto]]|]. split; [reflexivity|].
    right. left. split; reflexivity. }
  destruct (String.eqb_spec (user_type pr) "community") as [E|_].
  { right. exists "community", "camera".
    split; [split; [reflexivity | split; [discriminate | eauto]]|]. split; [reflexivity|].
    right. right. split; reflexivity. }
  left. reflexivity.
Qed.

Lemma handle_keeps_invariant (e : Event) (st : State) :
  controller_invariant st -> controller_invariant (handle e st).
Proof.
  intros Hinv. destruct e as [a| |u| |f d| | | |]; cbn [handle].
  - destruct (authEffect_cases a st) as [->|(userType & target & _ & -> & Hcase)];
      [exact Hinv|].
    split; cbn; intros E; subst target;
      destruct Hcase as [[_ H]|[[_ H]|[_ H]]]; discriminate H.
  - split; cbn; discriminate.
  - unfold handleUserTypeSelection.
    destruct (String.eqb u "anonymous"); split; cbn; discriminate.
  - exact Hinv.
  - split; cbn; [intros _ | ]; discriminate.
  - split; cbn; [discriminate | lia].
  - unfold resetTimerFires. destruct (timers st); [exact Hinv|].
    split; cbn; discriminate.
  - split; cbn; discriminate.
  - split; cbn; discriminate.
Qed.

Lemma reachable_invariant (st : State) : reachable st -> controller_invariant st.
Proof.
  induction 1 as [|st st' _ IH Hstep].
  - split; cbn; discriminate.
  - destruct Hstep as [e st]. now apply handle_keeps_invariant.
Qed.

(** X21. The controller always shows something: in every state reached
    from the initial one, [AppContent] never returns null, and when the state
    is report the report page is shown with the captured file and data URL,
    with isAnonymous telling whether the selected user type is anonymous. *)
Theorem X21_render_is_never_null (a : Auth) (st : State) :
  reachable st ->
  render a st <> Null
  /\ (loading a = false -> currentState st = "report" ->
      exists c, capturedImage st = Some c
        /\ render a st = ReportGeneration (file c) (dataUrl c)
                           (String.eqb (selectedUserType st) "anonymous")
                           BackToCamera ReportComplete).
Proof.
  intros Hr. destruct (reachable_invariant st Hr) as [Hreport _]. split.
  - unfold render. destruct (loading a); [discriminate|].
    destruct (String.eqb_spec (currentState st) "report") as [E|E].
    + rewrite E. cbn. destruct (capturedImage st) eqn:Hc; [discriminate|].
      exfalso. now apply Hreport.
    + repeat match goal with
             | |- context [String.eqb (currentState st) ?y] =>
                 destruct (String.eqb_spec (currentState st) y);
                 try discriminate; try contradiction
             end.
  - intros Hl Hst. unfold render. rewrite Hl, Hst. cbn.
    destruct (capturedImage st) as [c|]; [eauto|]. exfalso. now apply Hreport.
Qed.

Lemma X21_render_is_never_null_witness :
  render Cases.ranger_auth
    (run [SplashComplete; UserTypeSelected "anonymous";
          ImageCaptured Samples.photo "data:image/jpeg;base64,AAAA"] initial)
  <> Null.
Proof.
  apply X21_render_is_never_null. apply run_reachable. constructor.
Defined.

(** X22. The last screen is always left: in every state reached in which
    the state is complete a reset timer is pending, and when it fires the
    controller is back at userSelection with no user type and no image. *)
Theorem X22_complete_is_always_left (st : State) :
  reachable st -> currentState st = "complete" ->
  (0 < timers st)%nat
  /\ handle ResetTimer st = mkState "userSelection" EmptyString None (pred (timers st)).
Proof.
  intros Hr Hst. destruct (reachable_invariant st Hr) as [_ Hcomplete].
  specialize (Hcomplete Hst). split; [exact Hcomplete|].
  cbn. unfold resetTimerFires. destruct (timers st); [lia | reflexivity].
Qed.

Lemma X22_complete_is_always_left_witness :
  handle ResetTimer
    (run [SplashComplete; UserTypeSelected "anonymous";
          ImageCaptured Samples.photo "data:image/jpeg;base64,AAAA"; ReportComplete] initial)
  = mkState "userSelection" EmptyString None 0.
Proof.
  apply (X22_complete_is_always_left
           (run [SplashComplete; UserTypeSelected "anonymous";
                 ImageCaptured Samples.photo "data:image/jpeg;base64,AAAA"; ReportComplete]
                initial)).
  - apply run_reachable. constructor.
  - reflexivity.
Defined.

Lemma run_snoc (es : list Event) (e : Event) (st : State) :
  run (es ++ [e]) st = handle e (run es st).
Proof. unfold run. now rewrite fold_left_app. Qed.

Lemma handle_enters_dashboard (e : Event) (st : State) (userType target : string) :
  (userType = "ranger" /\ target = "rangerDashboard")
  \/ (userType = "admin" /\ target = "adminDashboard") ->
  currentState (handle e st) = target ->
  currentState st = target \/ exists a, e = AuthChanged a /\ signed_in_as userType a.
Proof.
  intros Ht H. destruct e as [a| |u| |f d| | | |]; cbn [handle] in H.
  - destruct (authEffect_cases a st) as [E|(userType' & target' & Hs & E & Hcase)];
      rewrite E in H; [left; exact H|].
    right. exists a. split; [reflexivity|]. cbn in H. subst target'.
    destruct Ht as [[-> ->]|[-> ->]];
      destruct Hcase as [[-> Hc]|[[-> Hc]|[-> Hc]]]; try discriminate Hc; exact Hs.
  - exfalso. cbn in H. destruct Ht as [[_ ->]|[_ ->]]; discriminate H.
  - exfalso. unfold handleUserTypeSelection in H.
    destruct (String.eqb u "anonymous"); cbn in H;
      destruct Ht as [[_ ->]|[_ ->]]; discriminate H.
  - left. exact H.
  - exfalso. cbn in H. destruct Ht as [[_ ->]|[_ ->]]; discriminate H.
  - exfalso. cbn in H. destruct Ht as [[_ ->]|[_ ->]]; discriminate H.
  - unfold resetTimerFires in H. destruct (timers st); [left; exact H|].
    exfalso. cbn in H. destruct Ht as [[_ ->]|[_ ->]]; discriminate H.
  - exfalso. cbn in H. destruct Ht as [[_ ->]|[_ ->]]; discriminate H.
  - exfalso. cbn in H. destruct Ht as [[_ ->]|[_ ->]]; discriminate H.
Qed.

(** X23. A dashboard is shown only to its own kind of user: whatever the
    sequence of handlers, effects and timers from the initial state, if the
    controller ends at rangerDashboard (at adminDashboard), then the sequence
    holds a change of authentication with loading over, a user present and a
    profile whose user_type is ranger (admin). *)
Theorem X23_dashboard_needs_matching_profile (es : list Event) (userType target : string) :
  (userType = "ranger" /\ target = "rangerDashboard")
  \/ (userType = "admin" /\ target = "adminDashboard") ->
  currentState (run es initial) = target ->
  exists a, In (AuthChanged a) es /\ signed_in_as userType a.
Proof.
  intros Ht. induction es as [|e es IH] using rev_ind; intros H.
  - exfalso. cbn in H. destruct Ht as [[_ ->]|[_ ->]]; discriminate H.
  - rewrite run_snoc in H.
    destruct (handle_enters_dashboard e _ userType target Ht H) as [Hprev|(a & -> & Hs)].
    + destruct (IH Hprev) as (a & Hin & Hs). exists a. split; [|exact Hs].
      apply in_or_app. left. exact Hin.
    + exists a. split; [|exact Hs]. apply in_or_app. right. left. reflexivity.
Qed.

Lemma X23_dashboard_needs_matching_profile_witness :
  exists a, In (AuthChanged a) [SplashComplete; AuthChanged Cases.ranger_auth]
            /\ signed_in_as "ranger" a.
Proof.
  apply (X23_dashboard_needs_matching_profile
           [SplashComplete; AuthChanged Cases.ranger_auth] "ranger" "rangerDashboard").
  - left. split; reflexivity.
  - reflexivity.
Defined.

End AppMore.

(** ** The classifier that reads the file name *)

Section NameClassifier.
Import Js Eff Supabase AiAnalysis UserTypeSelection.

Lemma toUpperCase_letter (c : ascii) :
  Ascii.eqb (toUpperCase c) "B" = Ascii.eqb c "B" || Ascii.eqb c "b"
  /\ Ascii.eqb (toUpperCase c) "Z" = Ascii.eqb c "Z" || Ascii.eqb c "z"
  /\ Ascii.eqb (toUpperCase c) "R" = Ascii.eqb c "R" || Ascii.eqb c "r"
  /\ Ascii.eqb (toUpperCase c) "E" = Ascii.eqb c "E" || Ascii.eqb c "e".
Proof. destruct c as [[] [] [] [] [] [] [] []]; vm_compute; auto. Qed.

(** X24. The classifier of [pages/UserTypeSelection.tsx]: with a draw of
    [Math.random] in [0, 1) it returns a label followed by a whole percentage
    from 92 to 100 in brackets, after one draw; the label is fixed by the
    first character of the file name, capital or small: B gives Buffalo,
    Z Zebra, R Rhino, E Elephant, and any other name, the empty one too,
    gives Unknown. *)
Theorem X24_name_classifier_result (file : File) (g : RandomSource) :
  (0 <= draw g (drawn g))%Q -> (draw g (drawn g) < 1)%Q ->
  exists (label : string) (n : Z),
    outcome (UserTypeSelection.analyzeAnimalImage file) g
    = Normal (label +:+ " (" +:+ pretty n +:+ "%)")
    /\ 92 <= n <= 100
    /\ drawn (exec (UserTypeSelection.analyzeAnimalImage file) g) = S (drawn g)
    /\ label
       = match name file with
         | String c _ =>
             if Ascii.eqb c "B" || Ascii.eqb c "b" then "Buffalo"
             else if Ascii.eqb c "Z" || Ascii.eqb c "z" then "Zebra"
             else if Ascii.eqb c "R" || Ascii.eqb c "r" then "Rhino"
             else if Ascii.eqb c "E" || Ascii.eqb c "e" then "Elephant"
             else "Unknown"
         | EmptyString => "Unknown"
         end.
Proof.
  intros Hlo Hhi.
  assert (0 <= Qfloor (draw g (drawn g) * 9) <= 8) as Hn.
  { apply Qfloor_bounds; cbn; unfold inject_Z; lra. }
  eexists _, (Qfloor (draw g (drawn g) * 9) + 92).
  split; [reflexivity|]. split; [lia|]. split; [reflexivity|].
  unfold firstLetter. destruct (name file) as [|c r]; [reflexivity|].
  unfold letter_is. destruct (toUpperCase_letter c) as (-> & -> & -> & ->). reflexivity.
Qed.

Lemma X24_name_classifier_result_witness :
  exists (label : string) (n : Z),
    outcome (UserTypeSelection.analyzeAnimalImage Samples.photo) Samples.rng
    = Normal (label +:+ " (" +:+ pretty n +:+ "%)")
    /\ 92 <= n <= 100
    /\ drawn (exec (UserTypeSelection.analyzeAnimalImage Samples.photo) Samples.rng) = 1%nat
    /\ label = "Zebra".
Proof.
  apply (X24_name_classifier_result Samples.photo Samples.rng); cbn; lra.
Defined.

End NameClassifier.

(** ** The administrator's analytics *)

Section AdminMore.
Import Js Eff Supabase AdminDashboard.

(** *** The tables of counts *)

Lemma get_bump (k k' : string) (acc : Counts) :
  get k (bump k' acc)
  = if String.eqb k' k then Some (S (default 0%nat (get k acc))) else get k acc.
Proof.
  induction acc as [|[k0 n] rest IH]; cbn.
  - unfold get. cbn. destruct (String.eqb k' k); reflexivity.
  - destruct (String.eqb_spec k0 k') as [E0|E0].
    + subst k0. unfold get. cbn. destruct (String.eqb k' k); reflexivity.
    + unfold get in *. cbn. destruct (String.eqb_spec k0 k) as [E1|E1].
      * subst k0. destruct (String.eqb_spec k' k) as [E2|_]; [|reflexivity].
        symmetry in E2. contradiction.
      * exact IH.
Qed.

Lemma get_fold_bump (key : Report -> string) (k : string) (l : list Report) (acc : Counts) :
  let n := length (List.filter (fun report => String.eqb (key report) k) l) in
  get k (fold_left (fun acc report => bump (key report) acc) l acc)
  = if (n =? 0)%nat then get k acc else Some (default 0%nat (get k acc) + n)%nat.
Proof.
  revert acc. induction l as [|r l IH]; intros acc; cbn; [reflexivity|].
  rewrite IH, get_bump. destruct (String.eqb (key r) k); cbn.
  - destruct (length (List.filter (fun report => String.eqb (key report) k) l)); cbn.
    + f_equal. lia.
    + f_equal. lia.
  - reflexivity.
Qed.

(** What [statusCounts.pending || 0] reads: the number of reports with
    that key. *)
Lemma get_count_by (key : Report -> string) (k : string) (l : list Report) :
  default 0%nat (get k (count_by key l))
  = length (List.filter (fun report => String.eqb (key report) k) l).
Proof.
  unfold count_by. rewrite get_fold_bump. cbn.
  destruct (length (List.filter (fun report => String.eqb (key report) k) l)); reflexivity.
Qed.

Lemma bump_keys (k : string) (acc : Counts) :
  map fst (bump k acc) = if existsb (String.eqb k) (map fst acc) then map fst acc
                         else map fst acc ++ [k].
Proof.
  induction acc as [|[k0 n] rest IH]; cbn; [reflexivity|].
  rewrite (String.eqb_sym k k0). destruct (String.eqb k0 k); cbn; [reflexivity|].
  rewrite IH. destruct (existsb (String.eqb k) (map fst rest)); reflexivity.
Qed.

Lemma bump_NoDup (k : string) (acc : Counts) :
  NoDup (map fst acc) -> NoDup (map fst (bump k acc)).
Proof.
  intros H. rewrite bump_keys. destruct (existsb (String.eqb k) (map fst acc)) eqn:E; [exact H|].
  apply NoDup_app. split; [exact H|]. split; [|apply NoDup_singleton].
  intros x Hx Hk. apply list_elem_of_singleton in Hk. subst x.
  assert (existsb (String.eqb k) (map fst acc) = true); [|congruence].
  apply existsb_exists. exists k. split; [now apply list_elem_of_In | apply String.eqb_refl].
Qed.

Lemma count_by_NoDup (key : Report -> string) (l : list Report) :
  NoDup (map fst (count_by key l)).
Proof.
  unfold count_by. generalize (NoDup_nil_2 (A := string)).
  change (@nil string) with (map fst (@nil (string * nat))).
  generalize (@nil (string * nat)). induction l as [|r l IH]; intros acc H; cbn; [exact H|].
  apply IH, bump_NoDup, H.
Qed.

Lemma get_In (k : string) (n : nat) (acc : Counts) :
  NoDup (map fst acc) -> In (k, n) acc -> get k acc = Some n.
Proof.
  induction acc as [|[k0 n0] rest IH]; cbn; intros Hnd Hin; [contradiction|].
  apply NoDup_cons in Hnd as [Hk0 Hnd]. unfold get in *. cbn.
  destruct Hin as [E|Hin].
  - inversion E; subst. now rewrite String.eqb_refl.
  - destruct (String.eqb_spec k0 k) as [->|_]; [|now apply IH].
    exfalso. apply Hk0, list_elem_of_In, in_map_iff. exists (k, n). split; [reflexivity|exact Hin].
Qed.

Lemma In_get (k : string) (n : nat) (acc : Counts) :
  get k acc = Some n -> In (k, n) acc.
Proof.
  unfold get. destruct (find _ acc) as [[k0 n0]|] eqn:E; [|discriminate].
  intros H. inversion H; subst. apply find_some in E as [Hin Hk]. cbn in Hk.
  apply String.eqb_eq in Hk. now subst.
Qed.

(** An entry of the table of animals is an animal with its number of
    reports, and each animal reported has its entry. *)
Lemma count_by_entries (key : Report -> string) (l : list Report) (k : string) (n : nat) :
  In (k, n) (count_by key l)
  <-> n = length (List.filter (fun report => String.eqb (key report) k) l) /\ (1 <= n)%nat.
Proof.
  split.
  - intros Hin. apply get_In in Hin; [|apply count_by_NoDup].
    unfold count_by in Hin. rewrite get_fold_bump in Hin. cbn in Hin.
    destruct (length (List.filter (fun report => String.eqb (key report) k) l)); cbn in Hin;
      [discriminate|]. inversion Hin. lia.
  - intros [-> Hn]. apply In_get. unfold count_by. rewrite get_fold_bump. cbn.
    destruct (length (List.filter (fun report => String.eqb (key report) k) l)); [lia|].
    reflexivity.
Qed.

(** *** Sorting and the order of the entries *)

Lemma Object_entries_Permutation (o : Counts) : Object_entries o ≡ₚ o.
Proof.
  unfold Object_entries. rewrite Array_sort_Permutation.
  apply (filter_partition (fun kv => is_array_index (fst kv))).
Qed.

Lemma sort_insert_descending (x : AnimalCount) (l : list AnimalCount) :
  descending l -> descending (sort_insert by_count x l).
Proof.
  induction l as [|y l IH]; cbn; intros H; [split; [constructor | exact I]|].
  destruct H as [Hy Hl]. unfold by_count at 1.
  destruct (Z.ltb_spec 0 (Z.of_nat (count y) - Z.of_nat (count x))) as [Hlt|Hge]; cbn.
  - split; [|now apply IH].
    rewrite sort_insert_Permutation. constructor; [lia | exact Hy].
  - split; [|split; assumption].
    constructor; [lia|]. eapply Forall_impl; [exact Hy|]. cbn. intros b Hb. lia.
Qed.

Lemma Array_sort_descending (l : list AnimalCount) : descending (Array_sort by_count l).
Proof.
  induction l as [|x l IH]; cbn; [exact I|]. now apply sort_insert_descending.
Qed.

Lemma descending_take (n : nat) (l : list AnimalCount) :
  descending l -> descending (take n l).
Proof.
  revert n. induction l as [|a l IH]; intros [|n]; cbn; try tauto.
  intros [Ha Hl]. split; [|now apply IH].
  now apply Forall_take.
Qed.

Lemma descending_app (l1 l2 : list AnimalCount) :
  descending (l1 ++ l2) ->
  forall a b, In a l1 -> In b l2 -> (count b <= count a)%nat.
Proof.
  induction l1 as [|x l1 IH]; cbn; intros H a b Ha Hb; [contradiction|].
  destruct H as [Hx Hl]. destruct Ha as [->|Ha]; [|now apply (IH Hl)].
  rewrite Forall_forall in Hx. apply Hx, list_elem_of_In, in_or_app. now right.
Qed.

(** Of a list sorted from the largest down, the first ten hold an entry or
    are ten entries that are no smaller. *)
Lemma top_ten (l : list AnimalCount) (a : AnimalCount) :
  descending l -> In a l ->
  In a (take 10 l)
  \/ (length (take 10 l) = 10%nat
      /\ Forall (fun b => (count a <= count b)%nat) (take 10 l)).
Proof.
  intros Hd Hin. rewrite <- (take_drop 10 l) in Hin, Hd.
  apply in_app_or in Hin as [Hin|Hin]; [now left|]. right. split.
  - rewrite length_take. destruct (Nat.le_gt_cases 10 (length l)) as [?|Hlt]; [lia|].
    rewrite drop_ge in Hin by lia. contradiction.
  - apply Forall_forall. intros b Hb. apply list_elem_of_In in Hb.
    now apply (descending_app _ _ Hd).
Qed.

(** *** The analytics *)

Lemma status_counts_sum (l : list Report) :
  let total := (with_status_count "pending" l + with_status_count "invalid" l
                + with_status_count "updated" l + with_status_count "ranger_assigned" l)%nat in
  (total <= length l)%nat
  /\ (total = length l
      <-> Forall (fun report =>
                    In (status report) ["pending"; "invalid"; "updated"; "ranger_assigned"]) l).
Proof.
  unfold with_status_count. induction l as [|r l [IHle IHeq]]; cbn [List.filter length].
  - split; [cbn; lia|]. split; [constructor | reflexivity].
  - destruct (String.eqb_spec (status r) "pending") as [E1|E1];
      destruct (String.eqb_spec (status r) "invalid") as [E2|E2];
      destruct (String.eqb_spec (status r) "updated") as [E3|E3];
      destruct (String.eqb_spec (status r) "ranger_assigned") as [E4|E4];
      try congruence; cbn [length];
      (split; [lia|]); rewrite Forall_cons; cbn [In];
      (split;
       [intros H; first [exfalso; lia | split; [intuition congruence | apply IHeq; lia]]
       | intros [Hr Hl]; apply IHeq in Hl; try lia; exfalso; intuition congruence]).
Qed.

(** X25. The overview's totals and status slices: when no key is an
    inherited name, the analytics hold the number of reports and of users,
    the first five reports as recent activity, and four slices, Pending,
    Invalid, Updated and Ranger Assigned in this order, each with the number
    of reports of that status; the four values add up to at most the number
    of reports, and to exactly that number when and only when every report
    has one of the four statuses. *)
Theorem X25_status_slices_count_reports (reportsData : list Report)
  (usersData : list UserProfile) :
  ordinary_keys reportsData = true ->
  exists a : AnalyticsData,
    analyticsData reportsData usersData = Some a
    /\ totalReports a = length reportsData
    /\ totalUsers a = length usersData
    /\ recentActivity a = take 5 reportsData
    /\ map (fun s => (slice_name s, value s)) (reportsByStatus a)
       = [ ("Pending", with_status_count "pending" reportsData);
           ("Invalid", with_status_count "invalid" reportsData);
           ("Updated", with_status_count "updated" reportsData);
           ("Ranger Assigned", with_status_count "ranger_assigned" reportsData) ]
    /\ (list_sum (map value (reportsByStatus a)) <= totalReports a)%nat
    /\ (list_sum (map value (reportsByStatus a)) = totalReports a
        <-> Forall (fun report =>
                      In (status report) ["pending"; "invalid"; "updated"; "ranger_assigned"])
                   reportsData).
Proof.
  intros Hkeys. unfold analyticsData. rewrite Hkeys. eexists. split; [reflexivity|].
  cbn [totalReports totalUsers recentActivity reportsByStatus map slice_name value list_sum].
  rewrite !get_count_by. fold (with_status_count "pending" reportsData).
  fold (with_status_count "invalid" reportsData).
  fold (with_status_count "updated" reportsData).
  fold (with_status_count "ranger_assigned" reportsData).
  repeat (split; [reflexivity|]).
  destruct (status_counts_sum reportsData) as [Hle Heq]. cbn zeta in Hle, Heq.
  cbn [list_sum fold_right]. split; [lia|]. rewrite <- Heq. lia.
Qed.

Lemma X25_status_slices_count_reports_witness :
  exists a : AnalyticsData,
    analyticsData AdminCases.reportsData AdminCases.usersData = Some a
    /\ totalReports a = 3%nat
    /\ totalUsers a = 2%nat
    /\ recentActivity a = AdminCases.reportsData
    /\ map (fun s => (slice_name s, value s)) (reportsByStatus a)
       = [ ("Pending", 3%nat); ("Invalid", 0%nat); ("Updated", 0%nat);
           ("Ranger Assigned", 0%nat) ]
    /\ (list_sum (map value (reportsByStatus a)) <= totalReports a)%nat
    /\ (list_sum (map value (reportsByStatus a)) = totalReports a
        <-> Forall (fun report =>
                      In (status report) ["pending"; "invalid"; "updated"; "ranger_assigned"])
                   AdminCases.reportsData).
Proof.
  apply (X25_status_slices_count_reports AdminCases.reportsData AdminCases.usersData).
  reflexivity.
Defined.

(** X26. The chart of animals: when no key is an inherited name, the list
    has at most ten entries, no animal twice, from the largest count down;
    each entry holds an animal and the number of reports of it, at least
    one; and each animal reported is in the list, unless the list has ten
    entries and none of them has fewer reports than that animal. *)
Theorem X26_reportsByAnimal_top_ten (reportsData : list Report)
  (usersData : list UserProfile) :
  ordinary_keys reportsData = true ->
  exists a : AnalyticsData,
    analyticsData reportsData usersData = Some a
    /\ (length (reportsByAnimal a) <= 10)%nat
    /\ NoDup (map name (reportsByAnimal a))
    /\ descending (reportsByAnimal a)
    /\ (forall e : AnimalCount,
          In e (reportsByAnimal a) ->
          count e = sightings (name e) reportsData /\ (1 <= count e)%nat)
    /\ (forall report : Report,
          In report reportsData ->
          let n := sightings (animal_type report) reportsData in
          In (mkAnimalCount (animal_type report) n) (reportsByAnimal a)
          \/ (length (reportsByAnimal a) = 10%nat
              /\ Forall (fun e => (n <= count e)%nat) (reportsByAnimal a))).
Proof.
  intros Hkeys. unfold analyticsData. rewrite Hkeys. eexists. split; [reflexivity|].
  cbn [reportsByAnimal].
  set (entries := map (fun entry => mkAnimalCount (fst entry) (snd entry))
                      (Object_entries (count_by animal_type reportsData))).
  assert (Array_sort by_count entries
          ≡ₚ map (fun entry => mkAnimalCount (fst entry) (snd entry))
                 (count_by animal_type reportsData)) as Hperm.
  { rewrite Array_sort_Permutation. subst entries.
    apply Permutation_map, Object_entries_Permutation. }
  assert (forall e, In e (Array_sort by_count entries)
                    <-> In (name e, count e) (count_by animal_type reportsData)) as Hin.
  { intros e. rewrite <- !list_elem_of_In, Hperm, !list_elem_of_In, in_map_iff. split.
    - intros ([k n] & <- & H). exact H.
    - intros H. exists (name e, count e). split; [destruct e; reflexivity | exact H]. }
  split; [rewrite length_take; lia|]. split; [|split; [|split]].
  - eapply sublist_NoDup; [|apply fmap_sublist, sublist_take].
    change (NoDup (map name (Array_sort by_count entries))).
    rewrite Hperm, map_map. cbn. apply count_by_NoDup.
  - apply descending_take, Array_sort_descending.
  - intros e He.
    assert (In e (Array_sort by_count entries)) as He'.
    { rewrite <- (take_drop 10). apply in_or_app. now left. }
    apply Hin, count_by_entries in He'. exact He'.
  - intros report Hreport.
    apply top_ten; [apply Array_sort_descending|].
    apply Hin. cbn. apply count_by_entries. split; [reflexivity|].
    unfold sightings.
    assert (In report (List.filter (fun r => String.eqb (animal_type r) (animal_type report))
                                   reportsData)) as H.
    { apply filter_In. split; [exact Hreport | apply String.eqb_refl]. }
    destruct (List.filter _ reportsData); [contradiction | cbn; lia].
Qed.

Lemma X26_reportsByAnimal_top_ten_witness :
  exists a : AnalyticsData,
    analyticsData AdminCases.reportsData AdminCases.usersData = Some a
    /\ reportsByAnimal a = [mkAnimalCount "Lion" 2; mkAnimalCount "Zebra" 1].
Proof.
  destruct (X26_reportsByAnimal_top_ten AdminCases.reportsData AdminCases.usersData eq_refl)
    as (a & Ha & _).
  exists a. split; [exact Ha|]. inversion Ha. reflexivity.
Defined.

(** *** Loading and deleting *)

Lemma ordinary_keys_filter (p : Report -> bool) (l : list Report) :
  ordinary_keys l = true -> ordinary_keys (List.filter p l) = true.
Proof.
  unfold ordinary_keys. rewrite !forallb_forall. intros H r Hr.
  apply filter_In in Hr as [Hr _]. now apply H.
Qed.

Lemma analyticsData_defined (reportsData : list Report) (usersData : list UserProfile) :
  ordinary_keys reportsData = true ->
  exists a, analyticsData reportsData usersData = Some a
            /\ totalReports a = length reportsData /\ totalUsers a = length usersData.
Proof.
  intros H. unfold analyticsData. rewrite H. eexists. repeat split.
Qed.

(** X27. Deleting and the analytics: when no key of the reports that the
    handler read is an inherited name, an accepted [deleteReport] leaves the
    reports on display whose id differs, in their order, and the users as
    they are, an accepted [deleteUser] does the same with the users, and
    after either the analytics are those of the two lists that the handler
    read, the deleted entry taken out.  So they are the analytics of the
    lists on display when these are, at the answer, the lists that the
    handler read, and they need not be otherwise: of two deletions started
    while the same lists were on display and answered one after the other,
    the second leaves the analytics of a list that is no longer shown.  A refused deletion changes
    neither the lists nor the analytics.  In each case no deletion is marked
    as running at the end. *)
Theorem X27_deleting_and_the_analytics (reports0 : list Report) (users0 : list UserProfile)
  (ident : string) (pending : State -> State) (st : State) :
  ordinary_keys reports0 = true ->
  let st1 := pending (setDeleting (Some ident) st) in
  (exists st' a,
      deleteReport reports0 users0 None ident pending st = Some st'
      /\ reports st' = List.filter (fun report => negb (String.eqb (id report) ident))
                                   (reports st1)
      /\ users st' = users st1
      /\ analytics st' = Some a
      /\ analyticsData
           (List.filter (fun report => negb (String.eqb (id report) ident)) reports0) users0
         = Some a
      /\ (reports0 = reports st1 -> users0 = users st1 -> up_to_date st')
      /\ deleting st' = None)
  /\ (exists st' a,
        deleteUser reports0 users0 None ident pending st = Some st'
        /\ reports st' = reports st1
        /\ users st' = List.filter (fun user => negb (String.eqb (profile_id user) ident))
                                   (users st1)
        /\ analytics st' = Some a
        /\ analyticsData reports0
             (List.filter (fun user => negb (String.eqb (profile_id user) ident)) users0)
           = Some a
        /\ (reports0 = reports st1 -> users0 = users st1 -> up_to_date st')
        /\ deleting st' = None)
  /\ (forall e : JsError,
        deleteReport reports0 users0 (Some e) ident pending st = Some (setDeleting None st1)
        /\ deleteUser reports0 users0 (Some e) ident pending st = Some (setDeleting None st1))
  /\ (exists st' a,
        deleteReport AdminCases.reportsData AdminCases.usersData None "r-2"
          (fun s => default s (deleteReport AdminCases.reportsData AdminCases.usersData None
                                 "r-1" undisturbed s))
          AdminCases.loaded = Some st'
        /\ reports st' = [Samples.sighting "r-3" "Lion"]
        /\ analytics st' = Some a
        /\ totalReports a = 2%nat
        /\ ~ up_to_date st').
Proof.
  intros Hkeys st1. split; [|split; [|split]].
  - destruct (analyticsData_defined
                (List.filter (fun report => negb (String.eqb (id report) ident)) reports0)
                users0 (ordinary_keys_filter _ _ Hkeys)) as (a & Ha & Hr & Hu).
    unfold deleteReport, generateAnalytics. fold st1. rewrite Ha.
    eexists _, a. split; [reflexivity|]. cbn.
    split; [reflexivity|]. split; [reflexivity|]. split; [reflexivity|].
    split; [reflexivity|]. split; [|reflexivity].
    intros Hr0 Hu0. split; cbn; [discriminate|]. rewrite <- Hr0, <- Hu0. now rewrite Ha.
  - destruct (analyticsData_defined reports0
                (List.filter (fun user => negb (String.eqb (profile_id user) ident)) users0)
                Hkeys) as (a & Ha & Hr & Hu).
    unfold deleteUser, generateAnalytics. fold st1. rewrite Ha.
    eexists _, a. split; [reflexivity|]. cbn.
    split; [reflexivity|]. split; [reflexivity|]. split; [reflexivity|].
    split; [reflexivity|]. split; [|reflexivity].
    intros Hr0 Hu0. split; cbn; [discriminate|]. rewrite <- Hr0, <- Hu0. now rewrite Ha.
  - intros e. split; reflexivity.
  - eexists _, _. split; [vm_compute; reflexivity|].
    split; [reflexivity|]. split; [reflexivity|]. split; [reflexivity|].
    intros [_ H]. vm_compute in H. discriminate H.
Qed.

Lemma X27_deleting_and_the_analytics_witness :
  exists st' a,
    deleteReport AdminCases.reportsData AdminCases.usersData None "r-1" undisturbed
      AdminCases.loaded = Some st'
    /\ reports st' = [Samples.sighting "r-2" "Zebra"; Samples.sighting "r-3" "Lion"]
    /\ analytics st' = Some a
    /\ up_to_date st'.
Proof.
  destruct (X27_deleting_and_the_analytics AdminCases.reportsData AdminCases.usersData "r-1"
              undisturbed AdminCases.loaded eq_refl)
    as [(st' & a & Hrun & Hreports & _ & Ha & _ & Hup & _) _].
  exists st', a. split; [exact Hrun|]. split; [exact Hreports|]. split; [exact Ha|].
  apply Hup; reflexivity.
Defined.

(** X28. The first load takes all or nothing: when either query answers
    with an error, [fetchData] changes nothing but loading, so that reports
    that did arrive are not shown when the query for the users fails; when
    both succeed, and no key of the reports is an inherited name, both lists
    are on display, an absent list as the empty one, with the analytics of
    these lists.  Loading is over in each case. *)
Theorem X28_fetchData_loads_all_or_nothing (reportsAnswer : QueryAnswer Report)
  (usersAnswer : QueryAnswer UserProfile) (st : State) :
  (error reportsAnswer <> None \/ error usersAnswer <> None ->
   fetchData reportsAnswer usersAnswer st = Some (setLoading false st))
  /\ (error reportsAnswer = None -> error usersAnswer = None ->
      ordinary_keys (default [] (data reportsAnswer)) = true ->
      exists st',
        fetchData reportsAnswer usersAnswer st = Some st'
        /\ reports st' = default [] (data reportsAnswer)
        /\ users st' = default [] (data usersAnswer)
        /\ up_to_date st'
        /\ loading st' = false).
Proof.
  unfold fetchData. split.
  - intros H. destruct (error reportsAnswer); [reflexivity|].
    destruct (error usersAnswer); [reflexivity|]. destruct H as [H|H]; now contradiction H.
  - intros -> -> Hkeys.
    destruct (analyticsData_defined (default [] (data reportsAnswer))
                (default [] (data usersAnswer)) Hkeys) as (a & Ha & _).
    unfold generateAnalytics. rewrite Ha. eexists. split; [reflexivity|].
    unfold up_to_date. cbn. rewrite Ha. repeat split. discriminate.
Qed.

Lemma X28_fetchData_loads_all_or_nothing_witness :
  fetchData (mkQueryAnswer (Some AdminCases.reportsData) None)
            (mkQueryAnswer None (Some Samples.refused)) initial
  = Some (setLoading false initial)
  /\ exists st',
       fetchData (mkQueryAnswer (Some AdminCases.reportsData) None) (mkQueryAnswer None None)
                 initial = Some st'
       /\ reports st' = AdminCases.reportsData /\ users st' = [] /\ loading st' = false.
Proof.
  split.
  - apply X28_fetchData_loads_all_or_nothing. right. discriminate.
  - destruct (proj2 (X28_fetchData_loads_all_or_nothing
                       (mkQueryAnswer (Some AdminCases.reportsData) None)
                       (mkQueryAnswer None None) initial) eq_refl eq_refl eq_refl)
      as (st' & Hrun & Hr & Hu & _ & Hl).
    exists st'. repeat split; assumption.
Defined.

End AdminMore.
